(** * ViewContext: rendering contexts of the iModel.js frontend

    A shallow embedding of [core/frontend/src/ViewContext.ts]: the classes
    [DecorateContext] and [SceneContext], their mutable fields as explicit
    state, JavaScript numbers as IEEE-754 binary64 floats, exceptions as an
    abrupt completion threaded through a small state monad. *)

From Stdlib Require Import Floats ZArith Bool Lia.
From stdpp Require Import base option list gmap sets strings.

Set Default Proof Using "Type".
Set Warnings "-inexact-float".

(* ================================================================== *)
(** * Part I: definitions *)
(* ================================================================== *)

(** ** Completions and the state monad

    A TypeScript method either returns or throws; a throw leaves the state
    as it was at the point of the throw. *)

Inductive JsError : Type :=
| AssertionError
| ThrownError (payload : nat).

Inductive Completion (A : Type) : Type :=
| Returned (a : A)
| Thrown (e : JsError).
Arguments Returned {A} a.
Arguments Thrown {A} e.

Definition Js (S A : Type) : Type := S -> S * Completion A.

Definition js_ret {S A} (a : A) : Js S A := fun s => (s, Returned a).

Definition js_bind {S A B} (m : Js S A) (k : A -> Js S B) : Js S B :=
  fun s => match m s with
           | (s', Returned a) => k a s'
           | (s', Thrown e) => (s', Thrown e)
           end.

Definition js_throw {S A} (e : JsError) : Js S A := fun s => (s, Thrown e).

(** A field assignment [this.f = v]. *)
Definition js_modify {S} (f : S -> S) : Js S unit := fun s => (f s, Returned tt).

(** [try { body } finally { cleanup }], for a cleanup that cannot throw:
    the cleanup runs on every exit path and the completion of the body stands. *)
Definition js_try_finally {S A} (body : Js S A) (cleanup : S -> S) : Js S A :=
  fun s => match body s with (s', c) => (cleanup s', c) end.

Declare Scope js_scope.
Delimit Scope js_scope with js.
Notation "'let!' x ':=' m 'in' k" := (js_bind m (fun x => k))
  (at level 10, x name, m at level 100, k at level 200) : js_scope.
Notation "m ;;; k" := (js_bind m (fun _ => k))
  (at level 100, k at level 200, right associativity) : js_scope.

(** Modelled from the spec: [assert] of bentleyjs-core, which is not among
    the sources.  A violated invariant is a fatal assertion that halts the
    code path at once in debug builds: the call throws when its condition is
    false and assertions are [enabled], and does nothing otherwise. *)
Definition js_assert {S} (enabled cond : bool) : Js S unit :=
  if enabled && negb cond then js_throw AssertionError else js_ret tt.

(** ** Identifiers and handles

    Objects that the code compares or stores by reference are represented
    by a handle. *)

Definition Id64String : Type := string.

(** ** Enumerations *)

Module TileGraphicType.
(** Modelled from the spec: the enum [TileGraphicType] of tile/internal,
    which is not among the sources, by the members [SceneContext] names:
    one for each of the background, foreground and overlay lists. *)
Inductive t : Type := BackgroundMap | Scene | Overlay.

Global Instance eq_dec : EqDecision t.
Proof. solve_decision. Defined.
End TileGraphicType.

Module TileLoadStatus.
(** Modelled from the spec: the enum [TileLoadStatus] of tile/internal, which
    is not among the sources: NotLoaded, Queued, Loading, and the states of
    a tile that is loaded or otherwise done.  [insertMissingTile] names the
    first three; every other member is an [Other] one. *)
Inductive t : Type := NotLoaded | Queued | Loading | Other (ordinal : nat).
End TileLoadStatus.

Module GraphicType.
(** Modelled from the spec: the enum [GraphicType] of render/GraphicBuilder,
    which is not among the sources, by the members that
    [DecorateContext.addDecoration] switches on. *)
Inductive t : Type :=
| ViewBackground | Scene | WorldDecoration | WorldOverlay | ViewOverlay.
End GraphicType.

(** ** Geometry data

    The classes of geometry-core whose coordinates the code reads or writes.
    Numbers are JavaScript numbers: binary64 floats. *)

Module Point3d.
Record t : Type := create { x : float; y : float; z : float }.
(** [Point3d.create(x, y)]: the omitted [z] defaults to 0. *)
Definition createXY (x y : float) : t := create x y 0%float.
Definition createZero : t := create 0%float 0%float 0%float.
(** [pt.z = v]. *)
Definition setZ (p : t) (v : float) : t := create (x p) (y p) v.
End Point3d.

Module Vector3d.
Record t : Type := create { x : float; y : float; z : float }.
(** [Vector3d.createFrom(data)] keeps the x, y and z of its argument. *)
Definition createFrom (px py pz : float) : t := create px py pz.
Definition unitX : t := create 1%float 0%float 0%float.
Definition unitY : t := create 0%float 1%float 0%float.
End Vector3d.

Module Point4d.
Record t : Type := create { x : float; y : float; z : float; w : float }.
End Point4d.

Module Vector2d.
(** Also the interface [XAndY]. *)
Record t : Type := create { x : float; y : float }.
(** Modelled from the spec: [Vector2d.scale] of geometry-core, which is not
    among the sources.  The reference spacing is the spacing times the scale
    factor: both components times [s]. *)
Definition scale (v : t) (s : float) : t :=
  create (PrimFloat.mul (x v) s) (PrimFloat.mul (y v) s).
End Vector2d.

Module Range3d.
Record t : Type := create { low : Point3d.t; high : Point3d.t }.
End Range3d.

Module Matrix3d.
(** Row-major coefficients. *)
Record t : Type := create { coffs : list float }.
End Matrix3d.

Module Transform.
(** [createRefs(origin, matrix)] captures both; the caller below passes
    [rMatrix.inverse()!], whose value may be undefined. *)
Record t : Type := createRefs { origin : Point3d.t; matrix : option Matrix3d.t }.
End Transform.

Module Plane3dByOriginAndUnitNormal.
Record t : Type := mk { origin : Point3d.t; normal : Vector3d.t }.
(** [plane.getOriginRef().setFrom(p)]. *)
Definition setOrigin (pl : t) (p : Point3d.t) : t := mk p (normal pl).
End Plane3dByOriginAndUnitNormal.

Module Ray3d.
Record t : Type := mk { origin : Point3d.t; direction : Vector3d.t }.
End Ray3d.

Module Frustum.
Record t : Type := mk { points : list Point3d.t }.
End Frustum.

(** [ClipPlane.createPlane(plane)] and [ConvexClipPlaneSet.createPlanes(planes)]. *)
Module ClipPlane.
Record t : Type := createPlane { plane : Plane3dByOriginAndUnitNormal.t }.
End ClipPlane.

Module ConvexClipPlaneSet.
Record t : Type := createPlanes { planes : list ClipPlane.t }.
End ConvexClipPlaneSet.

(** What [instanceof] distinguishes in [getClippedGridPlanePoints]. *)
Inductive CurvePrimitive : Type :=
| LineString3d (points : list Point3d.t)
| OtherCurvePrimitive (tag : nat).

Inductive GeometryQuery : Type :=
| Loop (children : list CurvePrimitive)
| OtherGeometryQuery (tag : nat).

Module ColorDef.
(** 0xTTBBGGRR. *)
Record t : Type := fromTbgr { tbgr : Z }.
End ColorDef.

Module LinePixels.
Inductive t : Type := Solid | Code2.
End LinePixels.

(** The algorithms of geometry-core and imodeljs-common that [ViewContext.ts]
    calls.  Their sources are not part of this development: each is a
    parameter, named after the method it stands for. *)
Class GeometryCore : Type := {
  Geometry_conditionalDivideFraction : float -> float -> option float;
  Vector3d_scale : Vector3d.t -> float -> Vector3d.t;
  Vector3d_normalize : Vector3d.t -> option Vector3d.t;
  Vector3d_normalizeInPlace : Vector3d.t -> Vector3d.t;
  Vector3d_dotProduct : Vector3d.t -> Vector3d.t -> float;
  Vector3d_createStartEnd : Point3d.t -> Point3d.t -> Vector3d.t;
  (** called with a [Vector3d] as its [XYAndZ] argument *)
  Point3d_vectorTo : Point3d.t -> Vector3d.t -> Vector3d.t;
  Point3d_distance : Point3d.t -> Point3d.t -> float;
  Point3d_interpolate : Point3d.t -> float -> Point3d.t -> Point3d.t;
  Matrix3d_rowZ : Matrix3d.t -> Vector3d.t;
  Matrix3d_inverse : Matrix3d.t -> option Matrix3d.t;
  Plane3dByOriginAndUnitNormal_create :
    Point3d.t -> Vector3d.t -> option Plane3dByOriginAndUnitNormal.t;
  (** The intersection point written to the result argument, when there is one. *)
  Ray3d_intersectionWithPlane :
    Ray3d.t -> Plane3dByOriginAndUnitNormal.t -> option Point3d.t;
  Transform_createTranslation : Point3d.t -> Transform.t;
  Transform_multiplyPoint3d : Transform.t -> Point3d.t -> Point3d.t;
  Range3d_createInverseTransformedArray : Transform.t -> list Point3d.t -> Range3d.t;
  Frustum_toRange : Frustum.t -> Range3d.t;
  Frustum_getRangePlanes : Frustum.t -> bool -> bool -> float -> ConvexClipPlaneSet.t;
  ClipUtilities_loopsOfConvexClipPlaneIntersectionWithRange :
    ConvexClipPlaneSet.t -> Range3d.t -> bool -> bool -> bool -> option (list GeometryQuery);
  ConvexClipPlaneSet_polygonClip : ConvexClipPlaneSet.t -> list Point3d.t -> list Point3d.t;
  ColorDef_red : ColorDef.t;
  ColorDef_withTransparency : ColorDef.t -> float -> ColorDef.t;
}.

(** [transform.multiplyPoint3dArrayInPlace(points)]. *)
Definition Transform_multiplyPoint3dArrayInPlace `{GeometryCore}
    (tr : Transform.t) (pts : list Point3d.t) : list Point3d.t :=
  map (Transform_multiplyPoint3d tr) pts.

(** ** JavaScript's [Math.floor] and [Math.ceil] on binary64

    Below 2^52 in magnitude, adding and subtracting 2^52 rounds to the
    nearest integer; one correction step gives the floor or the ceiling.
    From 2^52 on every float is an integer.  Zeros, infinities and NaN are
    returned as they are. *)

Definition two52 : float := 4503599627370496%float.

Definition roundToInteger (v : float) : float :=
  if PrimFloat.ltb v 0%float
  then PrimFloat.add (PrimFloat.sub v two52) two52
  else PrimFloat.sub (PrimFloat.add v two52) two52.

Definition keepSign (v r : float) : float :=
  if PrimFloat.eqb r 0%float && PrimFloat.ltb v 0%float then PrimFloat.opp 0%float else r.

Definition Math_floor (v : float) : float :=
  if PrimFloat.eqb v 0%float then v
  else if PrimFloat.ltb (PrimFloat.abs v) two52 then
    let r := roundToInteger v in
    keepSign v (if PrimFloat.ltb v r then PrimFloat.sub r 1%float else r)
  else v.

Definition Math_ceil (v : float) : float :=
  if PrimFloat.eqb v 0%float then v
  else if PrimFloat.ltb (PrimFloat.abs v) two52 then
    let r := roundToInteger v in
    keepSign v (if PrimFloat.ltb r v then PrimFloat.add r 1%float else r)
  else v.

(** ** Graphics

    The render system is not among the sources.  Its graphics are handles,
    but for those a builder was finished into and those an owner wraps. *)

(** Modelled from the spec: [GraphicBuilder] of render/GraphicBuilder, which
    is not among the sources: a stateful accumulator that batches geometry
    and symbology calls and yields one renderable graphic on completion.
    The builder is the sequence of the calls made on it. *)

Module GraphicBuilder.
Inductive Command : Type :=
| SetBlankingFill (color : ColorDef.t)
| AddShape (points : list Point3d.t)
| SetSymbology (lineColor fillColor : ColorDef.t) (lineWidth : float)
               (linePixels : option LinePixels.t)
| AddLineString (points : list Point3d.t).

Record t : Type := mk {
  type : GraphicType.t;
  placement : option Transform.t;
  pickableId : option Id64String;
  commands : list Command;
}.

Definition call (b : t) (c : Command) : t :=
  mk (type b) (placement b) (pickableId b) (commands b ++ [c]).

Definition isAddLineString (c : Command) : bool :=
  match c with AddLineString _ => true | _ => false end.
End GraphicBuilder.

Inductive RenderGraphic : Type :=
| Graphic (handle : positive)
| BuiltGraphic (builder : GraphicBuilder.t)
| GraphicOwner (graphic : RenderGraphic).

Definition GraphicList : Type := list RenderGraphic.

(** Modelled from the spec: [builder.finish()], which yields the one graphic
    of what the builder has accumulated. *)
Definition GraphicBuilder_finish (b : GraphicBuilder.t) : RenderGraphic := BuiltGraphic b.

(** Modelled from the spec: [RenderSystem.createGraphicOwner], which wraps the
    graphic in an owned handle. *)
Definition createGraphicOwner (g : RenderGraphic) : RenderGraphic := GraphicOwner g.

(** Modelled from the spec: [RenderTarget.createGraphicBuilder(type, viewport,
    transform, id)], which gives a builder of that type on which nothing has
    been called yet. *)
Definition _createGraphicBuilder (type : GraphicType.t) (transform : option Transform.t)
    (id : option Id64String) : GraphicBuilder.t :=
  GraphicBuilder.mk type transform id [].

Record CanvasDecoration : Type := { canvasHandle : positive }.
Record HTMLElement : Type := { elementHandle : positive }.

Global Instance CanvasDecoration_eq_dec : EqDecision CanvasDecoration.
Proof. solve_decision. Defined.
Global Instance HTMLElement_eq_dec : EqDecision HTMLElement.
Proof. solve_decision. Defined.

(** ** The [Decorations] bundle *)

(** Modelled from the spec: [Decorations] of render/Decorations, which is not
    among the sources: the optional graphic lists normal, world, worldOverlay
    and viewOverlay, a canvas-decoration ordered list, a sky box graphic and
    a view-background graphic.  An absent slot is [undefined]. *)

Module Decorations.
Record t : Type := mk {
  skyBox : option RenderGraphic;
  viewBackground : option RenderGraphic;
  normal : option GraphicList;
  world : option GraphicList;
  worldOverlay : option GraphicList;
  viewOverlay : option GraphicList;
  canvasDecorations : option (list CanvasDecoration);
}.

(** [new Decorations()]. *)
Definition empty : t := mk None None None None None None None.

Definition set_skyBox (v : option RenderGraphic) (d : t) : t :=
  mk v (viewBackground d) (normal d) (world d) (worldOverlay d) (viewOverlay d)
     (canvasDecorations d).
Definition set_viewBackground (v : option RenderGraphic) (d : t) : t :=
  mk (skyBox d) v (normal d) (world d) (worldOverlay d) (viewOverlay d)
     (canvasDecorations d).
Definition set_normal (v : option GraphicList) (d : t) : t :=
  mk (skyBox d) (viewBackground d) v (world d) (worldOverlay d) (viewOverlay d)
     (canvasDecorations d).
Definition set_world (v : option GraphicList) (d : t) : t :=
  mk (skyBox d) (viewBackground d) (normal d) v (worldOverlay d) (viewOverlay d)
     (canvasDecorations d).
Definition set_worldOverlay (v : option GraphicList) (d : t) : t :=
  mk (skyBox d) (viewBackground d) (normal d) (world d) v (viewOverlay d)
     (canvasDecorations d).
Definition set_viewOverlay (v : option GraphicList) (d : t) : t :=
  mk (skyBox d) (viewBackground d) (normal d) (world d) (worldOverlay d) v
     (canvasDecorations d).
Definition set_canvasDecorations (v : option (list CanvasDecoration)) (d : t) : t :=
  mk (skyBox d) (viewBackground d) (normal d) (world d) (worldOverlay d)
     (viewOverlay d) v.
End Decorations.

(** [if (undefined === list) list = []; list.push(x)]. *)
Definition pushOrCreate {A} (l : option (list A)) (a : A) : option (list A) :=
  Some (default [] l ++ [a]).

(** ** Cached decorations and decorators *)

(** Modelled from the spec: [CachedDecoration] of Viewport.ts, which is not
    among the sources: a tagged variant over a graphic (owned handle and
    graphic type), a canvas decoration (handle and front/back flag) and an
    HTML element.  The fields are those of the object literals that
    [DecorateContext] hands to [_appendToCache]. *)

Inductive CachedDecoration : Type :=
| CachedGraphic (graphicOwner : RenderGraphic) (graphicType : GraphicType.t)
| CachedCanvas (canvasDecoration : CanvasDecoration) (atFront : bool)
| CachedHtml (htmlElement : HTMLElement).

(** A call that a decorator makes on the context it is given: one of the
    context's public methods, or a throw.  An omitted [atFront] argument is
    [None]. *)
Inductive DecorateCall : Type :=
| CallAddDecorationFromBuilder (builder : GraphicBuilder.t)
| CallAddDecoration (type : GraphicType.t) (decoration : RenderGraphic)
| CallAddCanvasDecoration (decoration : CanvasDecoration) (atFront : option bool)
| CallAddHtmlDecoration (decoration : HTMLElement)
| CallSetSkyBox (graphic : RenderGraphic)
| CallSetViewBackground (graphic : RenderGraphic)
| CallThrow (e : JsError).

Module ViewportDecorator.
(** Modelled from the spec: the interface [ViewportDecorator] of Viewport.ts,
    which is not among the sources.  A decorator is an external object that
    opts into caching with [useCachedDecorations] and produces decorations
    on demand: its identity, the optional property, and its method
    [decorate(context)], which may do to the context whatever it likes and
    may throw. *)
Record t (Context : Type) : Type := mk {
  handle : positive;
  useCachedDecorations : option bool;
  decorate : Js Context unit;
}.
Arguments mk {Context} handle useCachedDecorations decorate.
Arguments handle {Context} _.
Arguments useCachedDecorations {Context} _.
Arguments decorate {Context} _.
End ViewportDecorator.

(** Truthiness of an optional boolean property. *)
Definition truthy (b : option bool) : bool := default false b.

(** ** The viewport

    What [ViewContext.ts] reads from its [Viewport], and the two pieces of
    viewport state it changes: the decoration cache and the children of
    [decorationDiv]. *)

Module Viewport.
Record t : Type := mk {
  isCameraOn : bool;
  (** [worldToViewMap.transform1.columnZ()] *)
  worldToViewMap_transform1_columnZ : Point4d.t;
  getFrustum : Frustum.t;
  worldToView : Point3d.t -> Point3d.t;
  getPixelSizeAtPoint : Point3d.t -> float;
  (** [rotation.getRow(2)] *)
  rotation_getRow2 : Vector3d.t;
  getContrastToBackgroundColor : ColorDef.t;
  (** keyed by the decorator object; [None] is the key [undefined] *)
  _decorationCache : gmap (option positive) (list CachedDecoration);
  decorationDiv : list HTMLElement;
}.

Definition set_decorationCache (c : gmap (option positive) (list CachedDecoration))
    (vp : t) : t :=
  mk (isCameraOn vp) (worldToViewMap_transform1_columnZ vp) (getFrustum vp)
     (worldToView vp) (getPixelSizeAtPoint vp) (rotation_getRow2 vp)
     (getContrastToBackgroundColor vp) c (decorationDiv vp).

Definition set_decorationDiv (l : list HTMLElement) (vp : t) : t :=
  mk (isCameraOn vp) (worldToViewMap_transform1_columnZ vp) (getFrustum vp)
     (worldToView vp) (getPixelSizeAtPoint vp) (rotation_getRow2 vp)
     (getContrastToBackgroundColor vp) (_decorationCache vp) l.

(** Modelled from the spec: [Viewport.getCachedDecorations] (Viewport.ts is
    not among the sources).  The decoration cache maps a decorator's
    identity to the ordered sequence of its cached decorations. *)
Definition getCachedDecorations {Context} (vp : t)
    (decorator : ViewportDecorator.t Context) : option (list CachedDecoration) :=
  _decorationCache vp !! Some (ViewportDecorator.handle decorator).

(** Modelled from the spec: [Viewport.addCachedDecoration] (Viewport.ts is
    not among the sources).  The decoration is appended to the decorator's
    sequence; a decorator appears in the cache once it has produced a
    decoration. *)
Definition addCachedDecoration (decorator : option positive)
    (decoration : CachedDecoration) (vp : t) : t :=
  let key := decorator in
  set_decorationCache
    (<[key := default [] (_decorationCache vp !! key) ++ [decoration]]>
       (_decorationCache vp)) vp.

(** [decorationDiv.appendChild(element)] of the DOM: a node that is already
    a child is moved to the end. *)
Definition appendChild (element : HTMLElement) (vp : t) : t :=
  set_decorationDiv
    (filter (fun e => e <> element) (decorationDiv vp) ++ [element]) vp.
End Viewport.

(** The build configuration: whether [assert] checks its condition. *)
Class BuildConfig : Type := { assertionsEnabled : bool }.

(** ** DecorateContext *)

Module DecorateContext.
Record t : Type := mk {
  (** the decorator object, by its identity *)
  _curCacheableDecorator : option positive;
  _decorations : Decorations.t;
  viewport : Viewport.t;
  (** Observation of the decorators: the handles of those whose [decorate]
      has been entered, oldest first. *)
  decorateEntered : list positive;
}.

(** [new DecorateContext(vp, decorations)]. *)
Definition new (vp : Viewport.t) (decorations : Decorations.t) : t :=
  mk None decorations vp [].

Definition set_curCacheableDecorator (v : option positive) (c : t) : t :=
  mk v (_decorations c) (viewport c) (decorateEntered c).
Definition set_decorations (v : Decorations.t) (c : t) : t :=
  mk (_curCacheableDecorator c) v (viewport c) (decorateEntered c).
Definition set_viewport (v : Viewport.t) (c : t) : t :=
  mk (_curCacheableDecorator c) (_decorations c) v (decorateEntered c).
Definition set_decorateEntered (v : list positive) (c : t) : t :=
  mk (_curCacheableDecorator c) (_decorations c) (viewport c) v.

Definition modify_decorations (f : Decorations.t -> Decorations.t) : Js t unit :=
  js_modify (fun c => set_decorations (f (_decorations c)) c).

Definition createGraphicBuilder (type : GraphicType.t) (transform : option Transform.t)
    (id : option Id64String) : GraphicBuilder.t :=
  _createGraphicBuilder type transform id.

Definition _appendToCache `{BuildConfig} (decoration : CachedDecoration) : Js t unit :=
  fun c =>
    (js_assert assertionsEnabled (bool_decide (is_Some (_curCacheableDecorator c))) ;;;
     js_modify (fun c =>
       set_viewport
         (Viewport.addCachedDecoration (_curCacheableDecorator c) decoration (viewport c))
         c))%js c.

Definition setSkyBox (graphic : RenderGraphic) : Js t unit :=
  modify_decorations (Decorations.set_skyBox (Some graphic)).

Definition setViewBackground (graphic : RenderGraphic) : Js t unit :=
  modify_decorations (Decorations.set_viewBackground (Some graphic)).

Definition addDecoration `{BuildConfig} (type : GraphicType.t) (decoration : RenderGraphic)
    : Js t unit :=
  fun c =>
    (let! decoration :=
       (if bool_decide (is_Some (_curCacheableDecorator c)) then
          let graphicOwner := createGraphicOwner decoration in
          _appendToCache (CachedGraphic graphicOwner type) ;;;
          js_ret graphicOwner
        else js_ret decoration) in
     match type with
     | GraphicType.Scene =>
         modify_decorations
           (fun d => Decorations.set_normal (pushOrCreate (Decorations.normal d) decoration) d)
     | GraphicType.WorldDecoration =>
         modify_decorations
           (fun d => Decorations.set_world (pushOrCreate (Decorations.world d) decoration) d)
     | GraphicType.WorldOverlay =>
         modify_decorations
           (fun d => Decorations.set_worldOverlay
                       (pushOrCreate (Decorations.worldOverlay d) decoration) d)
     | GraphicType.ViewOverlay =>
         modify_decorations
           (fun d => Decorations.set_viewOverlay
                       (pushOrCreate (Decorations.viewOverlay d) decoration) d)
     | GraphicType.ViewBackground => setViewBackground decoration
     end)%js c.

Definition addDecorationFromBuilder `{BuildConfig} (builder : GraphicBuilder.t) : Js t unit :=
  addDecoration (GraphicBuilder.type builder) (GraphicBuilder_finish builder).

(** [atFront = false] is the default of an omitted argument; the list is
    created when undefined; then [push] when the list is empty or
    [atFront] is [true], [unshift] otherwise. *)
Definition addCanvasDecoration `{BuildConfig} (decoration : CanvasDecoration)
    (atFrontArg : option bool) : Js t unit :=
  let atFront := default false atFrontArg in
  fun c =>
    ((if bool_decide (is_Some (_curCacheableDecorator c))
      then _appendToCache (CachedCanvas decoration atFront)
      else js_ret tt) ;;;
     modify_decorations (fun d =>
       let list := default [] (Decorations.canvasDecorations d) in
       Decorations.set_canvasDecorations
         (Some (if Nat.eqb 0 (length list) || bool_decide (atFront = true)
                then list ++ [decoration]
                else decoration :: list)) d))%js c.

Definition addHtmlDecoration `{BuildConfig} (decoration : HTMLElement) : Js t unit :=
  fun c =>
    ((if bool_decide (is_Some (_curCacheableDecorator c))
      then _appendToCache (CachedHtml decoration)
      else js_ret tt) ;;;
     js_modify (fun c => set_viewport (Viewport.appendChild decoration (viewport c)) c))%js c.

(** [cachedDecorations.forEach(...)]. *)
Fixpoint restoreCache `{BuildConfig} (cachedDecorations : list CachedDecoration) : Js t unit :=
  match cachedDecorations with
  | [] => js_ret tt
  | cachedDecoration :: rest =>
      (match cachedDecoration with
       | CachedGraphic graphicOwner graphicType => addDecoration graphicType graphicOwner
       | CachedCanvas canvasDecoration atFront =>
           addCanvasDecoration canvasDecoration (Some atFront)
       | CachedHtml htmlElement => addHtmlDecoration htmlElement
       end ;;; restoreCache rest)%js
  end.

(** One call made by a decorator on the context. *)
Definition perform `{BuildConfig} (call : DecorateCall) : Js t unit :=
  match call with
  | CallAddDecorationFromBuilder builder => addDecorationFromBuilder builder
  | CallAddDecoration type decoration => addDecoration type decoration
  | CallAddCanvasDecoration decoration atFront => addCanvasDecoration decoration atFront
  | CallAddHtmlDecoration decoration => addHtmlDecoration decoration
  | CallSetSkyBox graphic => setSkyBox graphic
  | CallSetViewBackground graphic => setViewBackground graphic
  | CallThrow e => js_throw e
  end.

Fixpoint performAll `{BuildConfig} (calls : list DecorateCall) : Js t unit :=
  match calls with
  | [] => js_ret tt
  | call :: rest => (perform call ;;; performAll rest)%js
  end.

(** The decorator whose [decorate] makes the given calls, one after
    another. *)
Definition scripted `{BuildConfig} (handle : positive) (useCachedDecorations : option bool)
    (calls : list DecorateCall) : ViewportDecorator.t t :=
  ViewportDecorator.mk handle useCachedDecorations (performAll calls).

(** [decorator.decorate(this)]. *)
Definition decorate (decorator : ViewportDecorator.t t) : Js t unit :=
  (js_modify (fun c =>
     set_decorateEntered (decorateEntered c ++ [ViewportDecorator.handle decorator]) c) ;;;
   ViewportDecorator.decorate decorator)%js.

Definition addFromDecorator `{BuildConfig} (decorator : ViewportDecorator.t t) : Js t unit :=
  fun c =>
    (js_assert assertionsEnabled (bool_decide (_curCacheableDecorator c = None)) ;;;
     js_try_finally
       (fun c =>
          (let! returned :=
             (if truthy (ViewportDecorator.useCachedDecorations decorator) then
                match Viewport.getCachedDecorations (viewport c) decorator with
                | Some cached => restoreCache cached ;;; js_ret true
                | None =>
                    js_modify
                      (set_curCacheableDecorator (Some (ViewportDecorator.handle decorator))) ;;;
                    js_ret false
                end
              else js_ret false) in
           if returned : bool then js_ret tt else decorate decorator)%js c)
       (set_curCacheableDecorator None))%js c.
End DecorateContext.

(** ** The standard grid *)

Module gridConstants.
Definition minSeparation : float := 20%float.
Definition maxRefLines : float := 100%float.
Definition gridTransparency : float := 220%float.
Definition refTransparency : float := 150%float.
Definition planeTransparency : float := 225%float.
End gridConstants.

Module StandardGrid.
Import gridConstants.
Local Open Scope float_scope.

Section WithGeometry.
Context `{GeometryCore}.

(** The loop of [getClippedGridPlanePoints] that finds the shape point
    with the largest view z.  [loopPt] is a scratch argument there. *)
Fixpoint closeIndexFrom (vp : Viewport.t) (shapePoints : list Point3d.t) (i : nat)
    (lastZ : float) (closeIndex : nat) : nat :=
  match shapePoints with
  | [] => closeIndex
  | p :: rest =>
      let loopPt := Viewport.worldToView vp p in
      if Nat.eqb i 0 || (lastZ <? Point3d.z loopPt)
      then closeIndexFrom vp rest (S i) (Point3d.z loopPt) i
      else closeIndexFrom vp rest (S i) lastZ closeIndex
  end.

(** Returns the shape points and the value left in [loopPt]. *)
Definition getClippedGridPlanePoints (vp : Viewport.t)
    (plane : Plane3dByOriginAndUnitNormal.t) : option (list Point3d.t * Point3d.t) :=
  let frust := Viewport.getFrustum vp in
  let geom :=
    ClipUtilities_loopsOfConvexClipPlaneIntersectionWithRange
      (ConvexClipPlaneSet.createPlanes [ClipPlane.createPlane plane])
      (Frustum_toRange frust) true false true in
  match geom with
  | Some [loop] =>
      match loop with
      | Loop [child] =>
          match child with
          | LineString3d points =>
              let convexSet := Frustum_getRangePlanes frust false false 0 in
              let finalPoints := ConvexClipPlaneSet_polygonClip convexSet points in
              if Nat.ltb (length finalPoints) 4 then None
              else
                let shapePoints := finalPoints in
                let closeIndex :=
                  if Viewport.isCameraOn vp
                  then closeIndexFrom vp shapePoints 0 0 0
                  else 0%nat in
                Some (shapePoints, default Point3d.createZero (shapePoints !! closeIndex))
          | _ => None
          end
      | _ => None
      end
  | _ => None
  end.

(** The scratch arguments [thisPt] and [thisRay] are local here; the
    planes come back unchanged but for their origin, which every call
    overwrites. *)
Definition getCurrentGridRefSeparation (lastPt thisPt0 thisPt1 : Point3d.t)
    (planeX planeY : Plane3dByOriginAndUnitNormal.t) : float :=
  let thisRay :=
    Ray3d.mk thisPt0 (Vector3d_normalizeInPlace (Vector3d_createStartEnd thisPt0 thisPt1)) in
  let planeX := Plane3dByOriginAndUnitNormal.setOrigin planeX lastPt in
  let planeY := Plane3dByOriginAndUnitNormal.setOrigin planeY lastPt in
  let dotX :=
    abs (Vector3d_dotProduct (Plane3dByOriginAndUnitNormal.normal planeX)
           (Ray3d.direction thisRay)) in
  let dotY :=
    abs (Vector3d_dotProduct (Plane3dByOriginAndUnitNormal.normal planeY)
           (Ray3d.direction thisRay)) in
  match Ray3d_intersectionWithPlane thisRay (if dotY <? dotX then planeX else planeY) with
  | Some thisPt => Point3d_distance lastPt thisPt
  | None => 0
  end.

(** [const refScale = (0 === gridsPerRef) ? 1.0 : gridsPerRef]. *)
Definition refScale (gridsPerRef : float) : float :=
  if 0 =? gridsPerRef then 1 else gridsPerRef.

Definition refSpacing (spacing : Vector2d.t) (gridsPerRef : float) : Vector2d.t :=
  Vector2d.scale (Vector2d.create (Vector2d.x spacing) (Vector2d.y spacing))
                 (refScale gridsPerRef).

Definition drawRefLines (spacing : Vector2d.t) (gridsPerRef meterPerPixel : float) : bool :=
  let refSpacing := refSpacing spacing gridsPerRef in
  negb ((Vector2d.x refSpacing / meterPerPixel <? minSeparation)
        || (Vector2d.y refSpacing / meterPerPixel <? minSeparation)).

Definition drawGridLines (drawRefX drawRefY : bool) (spacing : Vector2d.t)
    (gridsPerRef meterPerPixel : float) : bool :=
  drawRefX && drawRefY &&
  ((1 <? gridsPerRef) &&
   negb ((Vector2d.x spacing / meterPerPixel <? minSeparation)
         || (Vector2d.y spacing / meterPerPixel <? minSeparation))).

Definition fadeRefSteps : float := 8.
Definition fadeRefTransparencyStep : float := (255 - refTransparency) / (fadeRefSteps + 2).

(** What the reference-line loops carry from one iteration, and from one
    loop, to the next. *)
Record RefLineState : Type := mkRefLineState {
  rl_builder : GraphicBuilder.t;
  rl_refColor : ColorDef.t;
  rl_lastDist : float;
  rl_lastPt : Point3d.t;
  rl_nGridRepetitions : float;
}.

(** The two reference-line loops of [drawStandardGrid] are one loop up to
    the axis: [line r] is the local segment at coordinate [r] across the
    other axis, [iRef] is [xRef]/[yRef], [ref] is [refY]/[refX], [doFade]
    is [doFadeX]/[doFadeY] and [iFade] is [xFade]/[yFade].  [None]: the
    loop is still running after [fuel] iterations. *)
Fixpoint refLineLoop (fuel : nat) (vp : Viewport.t) (transform : Transform.t)
    (line : float -> Point3d.t * Point3d.t) (nRefRepetitions : float) (unambiguous : bool)
    (refStep : float) (planeColor : ColorDef.t) (linePat : LinePixels.t)
    (planeX planeY : Plane3dByOriginAndUnitNormal.t)
    (iRef ref : float) (doFade : bool) (iFade : float) (st : RefLineState)
    : option RefLineState :=
  if (iRef <=? nRefRepetitions) && (iFade <? fadeRefSteps) then
    match fuel with
    | O => None
    | S fuel =>
        let linePoints :=
          Transform_multiplyPoint3dArrayInPlace transform [fst (line ref); snd (line ref)] in
        let thisPt0 :=
          Point3d.setZ
            (Viewport.worldToView vp (Transform_multiplyPoint3d transform (fst (line ref)))) 0 in
        let thisPt1 :=
          Point3d.setZ
            (Viewport.worldToView vp (Transform_multiplyPoint3d transform (snd (line ref)))) 0 in
        let '(doFade, iFade, st) :=
          if doFade then
            let iFade := iFade + 1 in
            let refColor :=
              ColorDef_withTransparency (rl_refColor st)
                (refTransparency + fadeRefTransparencyStep * iFade) in
            (true, iFade,
             mkRefLineState
               (GraphicBuilder.call (rl_builder st)
                  (GraphicBuilder.SetSymbology refColor planeColor 1 (Some linePat)))
               refColor (rl_lastDist st) (rl_lastPt st) (rl_nGridRepetitions st))
          else if (0 <? iRef) && (10 <? nRefRepetitions) then
            let '(doFade, lastDist) :=
              if maxRefLines <? iRef then (true, rl_lastDist st)
              else if unambiguous && Viewport.isCameraOn vp then
                let thisDist :=
                  getCurrentGridRefSeparation (rl_lastPt st) thisPt0 thisPt1 planeX planeY in
                (if thisDist <? minSeparation
                 then (if Viewport.isCameraOn vp
                       then (1 <? iRef) && (thisDist <? rl_lastDist st)
                       else true)
                 else false,
                 thisDist)
              else (false, rl_lastDist st) in
            (doFade, iFade,
             mkRefLineState (rl_builder st) (rl_refColor st) lastDist (rl_lastPt st)
               (if doFade then iRef else rl_nGridRepetitions st))
          else (false, iFade, st) in
        let lastPt := Point3d_interpolate thisPt0 0.5 thisPt1 in
        let st :=
          mkRefLineState
            (GraphicBuilder.call (rl_builder st) (GraphicBuilder.AddLineString linePoints))
            (rl_refColor st) (rl_lastDist st) lastPt (rl_nGridRepetitions st) in
        refLineLoop fuel vp transform line nRefRepetitions unambiguous refStep planeColor
          linePat planeX planeY (iRef + 1) (ref + refStep) doFade iFade st
    end
  else Some st.

(** The inner and the outer loop of the sub-grid lines, again up to the
    axis: [iGrid] is [yGrid]/[xGrid], [grid] is [gridY]/[gridX]. *)
Fixpoint gridLineInnerLoop (fuel : nat) (transform : Transform.t)
    (line : float -> Point3d.t * Point3d.t) (gridsPerRef gridStep : float)
    (fadeGridTransparencyStep : float) (planeColor : ColorDef.t) (doFade : bool)
    (iGrid grid : float) (st : GraphicBuilder.t * ColorDef.t)
    : option (GraphicBuilder.t * ColorDef.t) :=
  if iGrid <? gridsPerRef then
    match fuel with
    | O => None
    | S fuel =>
        let gridPoints :=
          Transform_multiplyPoint3dArrayInPlace transform [fst (line grid); snd (line grid)] in
        let '(builder, gridColor) :=
          if doFade then
            let gridColor :=
              ColorDef_withTransparency (snd st)
                (gridTransparency + fadeGridTransparencyStep * iGrid) in
            (GraphicBuilder.call (fst st)
               (GraphicBuilder.SetSymbology gridColor planeColor 1 None), gridColor)
          else st in
        gridLineInnerLoop fuel transform line gridsPerRef gridStep fadeGridTransparencyStep
          planeColor doFade (iGrid + 1) (grid + gridStep)
          (GraphicBuilder.call builder (GraphicBuilder.AddLineString gridPoints), gridColor)
    end
  else Some st.

Fixpoint gridLineOuterLoop (fuel : nat) (transform : Transform.t)
    (line : float -> Point3d.t * Point3d.t) (nGridRepetitions nRefRepetitions : float)
    (refStep gridsPerRef gridStep fadeGridTransparencyStep : float) (planeColor : ColorDef.t)
    (iRef ref : float) (st : GraphicBuilder.t * ColorDef.t)
    : option (GraphicBuilder.t * ColorDef.t) :=
  if iRef <? nGridRepetitions then
    match fuel with
    | O => None
    | S fuel' =>
        let doFade := (nGridRepetitions <? nRefRepetitions) && (iRef =? nGridRepetitions - 1) in
        match gridLineInnerLoop fuel transform line gridsPerRef gridStep
                fadeGridTransparencyStep planeColor doFade 1 (ref + gridStep) st with
        | None => None
        | Some st =>
            gridLineOuterLoop fuel' transform line nGridRepetitions nRefRepetitions refStep
              gridsPerRef gridStep fadeGridTransparencyStep planeColor (iRef + 1)
              (ref + refStep) st
        end
    end
  else Some st.

(** The constants that the block guarded by [if (drawRefLines)] computes
    before its loops. *)
Record GridLocals : Type := mkGridLocals {
  gl_transform : Transform.t;
  gl_minX : float; gl_maxX : float; gl_minY : float; gl_maxY : float;
  gl_nRefRepetitionsX : float; gl_nRefRepetitionsY : float;
  gl_unambiguousX : bool; gl_unambiguousY : bool;
  gl_reverseX : bool; gl_reverseY : bool;
  gl_refStepX : float; gl_refStepY : float;
  gl_planeX : Plane3dByOriginAndUnitNormal.t;
  gl_planeY : Plane3dByOriginAndUnitNormal.t;
  gl_linePat : LinePixels.t;
  gl_drawRefX : bool; gl_drawRefY : bool;
}.

Definition gridLocals (vp : Viewport.t) (gridOrigin : Point3d.t) (rMatrix : Matrix3d.t)
    (spacing : Vector2d.t) (gridsPerRef : float) (shapePoints : list Point3d.t)
    (viewZ : Vector3d.t) (eyeDot : float) : GridLocals :=
  let refSpacing := refSpacing spacing gridsPerRef in
  let invMatrix := Matrix3d_inverse rMatrix in
  let transform := Transform.createRefs gridOrigin invMatrix in
  let localRange := Range3d_createInverseTransformedArray transform shapePoints in

  let minX := Math_floor (Point3d.x (Range3d.low localRange) / Vector2d.x refSpacing) in
  let maxX := Math_ceil (Point3d.x (Range3d.high localRange) / Vector2d.x refSpacing) in
  let minY := Math_floor (Point3d.y (Range3d.low localRange) / Vector2d.y refSpacing) in
  let maxY := Math_ceil (Point3d.y (Range3d.high localRange) / Vector2d.y refSpacing) in

  let nRefRepetitionsX := maxY - minY in
  let nRefRepetitionsY := maxX - minX in

  let minX := minX * Vector2d.x refSpacing in
  let maxX := maxX * Vector2d.x refSpacing in
  let minY := minY * Vector2d.y refSpacing in
  let maxY := maxY * Vector2d.y refSpacing in

  let dirPoints :=
    Transform_multiplyPoint3dArrayInPlace transform
      [Point3d.createXY minX minY;
       Point3d.createXY minX (minY + Vector2d.y refSpacing);
       Point3d.createXY (minX + Vector2d.x refSpacing) minY] in
  let dirPoint (i : nat) := default Point3d.createZero (dirPoints !! i) in

  let xDir :=
    Vector3d_normalizeInPlace (Vector3d_createStartEnd (dirPoint 0%nat) (dirPoint 1%nat)) in
  let yDir :=
    Vector3d_normalizeInPlace (Vector3d_createStartEnd (dirPoint 0%nat) (dirPoint 2%nat)) in
  let dotX := Vector3d_dotProduct xDir viewZ in
  let dotY := Vector3d_dotProduct yDir viewZ in
  let unambiguousX := 0.25 <? abs dotX in
  let unambiguousY := 0.25 <? abs dotY in
  let reverseX := 0 <? dotX in
  let reverseY := 0 <? dotY in
  let refStepX := if reverseY then - Vector2d.x refSpacing else Vector2d.x refSpacing in
  let refStepY := if reverseX then - Vector2d.y refSpacing else Vector2d.y refSpacing in

  let lastPt := Point3d.createZero in
  (* [Plane3dByOriginAndUnitNormal.create(lastPt, unit)!]: the source
     asserts the result is defined; on a unit normal it is the plane of
     that origin and normal. *)
  let planeX :=
    default (Plane3dByOriginAndUnitNormal.mk lastPt Vector3d.unitX)
            (Plane3dByOriginAndUnitNormal_create lastPt Vector3d.unitX) in
  let planeY :=
    default (Plane3dByOriginAndUnitNormal.mk lastPt Vector3d.unitY)
            (Plane3dByOriginAndUnitNormal_create lastPt Vector3d.unitY) in

  let linePat := if eyeDot <? 0 then LinePixels.Code2 else LinePixels.Solid in

  let drawRefX := (nRefRepetitionsX <? maxRefLines) || (Viewport.isCameraOn vp && unambiguousX) in
  let drawRefY := (nRefRepetitionsY <? maxRefLines) || (Viewport.isCameraOn vp && unambiguousY) in
  mkGridLocals transform minX maxX minY maxY nRefRepetitionsX nRefRepetitionsY
    unambiguousX unambiguousY reverseX reverseY refStepX refStepY planeX planeY linePat
    drawRefX drawRefY.

(** The local segment at coordinate [r] across the x axis, and across the
    y axis. *)
Definition lineAcrossX (L : GridLocals) (r : float) : Point3d.t * Point3d.t :=
  (Point3d.createXY (gl_minX L) r, Point3d.createXY (gl_maxX L) r).
Definition lineAcrossY (L : GridLocals) (r : float) : Point3d.t * Point3d.t :=
  (Point3d.createXY r (gl_minY L), Point3d.createXY r (gl_maxY L)).

(** [if (drawRefX) {...}] and [if (drawRefY) {...}]: the builder after the
    reference lines, with [nGridRepetitionsX] and [nGridRepetitionsY]. *)
Definition drawReferenceLines (fuel : nat) (vp : Viewport.t) (L : GridLocals)
    (color planeColor : ColorDef.t) (builder : GraphicBuilder.t)
    : option (GraphicBuilder.t * float * float) :=
  let lastDist := 0 in
  let lastPt := Point3d.createZero in
  let refColor := ColorDef_withTransparency color refTransparency in
  let st := mkRefLineState builder refColor lastDist lastPt (gl_nRefRepetitionsX L) in
  st ← (if gl_drawRefX L then
          let st :=
            mkRefLineState
              (GraphicBuilder.call (rl_builder st)
                 (GraphicBuilder.SetSymbology (rl_refColor st) planeColor 1
                    (Some (gl_linePat L))))
              (rl_refColor st) (rl_lastDist st) (rl_lastPt st) (rl_nGridRepetitions st) in
          refLineLoop fuel vp (gl_transform L) (lineAcrossX L) (gl_nRefRepetitionsX L)
            (gl_unambiguousX L) (gl_refStepY L) planeColor (gl_linePat L) (gl_planeX L)
            (gl_planeY L) 0 (if gl_reverseX L then gl_maxY L else gl_minY L) false 0 st
        else Some st);
  let nGridRepetitionsX := rl_nGridRepetitions st in
  let st :=
    mkRefLineState (rl_builder st) (rl_refColor st) (rl_lastDist st) (rl_lastPt st)
      (gl_nRefRepetitionsY L) in
  st ← (if gl_drawRefY L then
          let refColor := ColorDef_withTransparency (rl_refColor st) refTransparency in
          let st :=
            mkRefLineState
              (GraphicBuilder.call (rl_builder st)
                 (GraphicBuilder.SetSymbology refColor planeColor 1 (Some (gl_linePat L))))
              refColor (rl_lastDist st) (rl_lastPt st) (rl_nGridRepetitions st) in
          refLineLoop fuel vp (gl_transform L) (lineAcrossY L) (gl_nRefRepetitionsY L)
            (gl_unambiguousY L) (gl_refStepX L) planeColor (gl_linePat L) (gl_planeX L)
            (gl_planeY L) 0 (if gl_reverseY L then gl_maxX L else gl_minX L) false 0 st
        else Some st);
  let nGridRepetitionsY := rl_nGridRepetitions st in
  Some (rl_builder st, nGridRepetitionsX, nGridRepetitionsY).

(** [if (drawGridLines) {...}]: the one place that divides by
    [gridsPerRef]. *)
Definition drawSubGridLines (fuel : nat) (L : GridLocals) (gridsPerRef : float)
    (nGridRepetitionsX nGridRepetitionsY : float) (color planeColor : ColorDef.t)
    (builder : GraphicBuilder.t) : option GraphicBuilder.t :=
  let gridStepX := gl_refStepX L / gridsPerRef in
  let gridStepY := gl_refStepY L / gridsPerRef in
  let gridColor := color in
  let fadeGridTransparencyStep := (255 - gridTransparency) / (gridsPerRef + 2) in
  g ← (if 1 <? nGridRepetitionsX then
         let gridColor := ColorDef_withTransparency gridColor gridTransparency in
         let builder :=
           GraphicBuilder.call builder (GraphicBuilder.SetSymbology gridColor planeColor 1 None) in
         gridLineOuterLoop fuel (gl_transform L) (lineAcrossX L) nGridRepetitionsX
           (gl_nRefRepetitionsX L) (gl_refStepY L) gridsPerRef gridStepY
           fadeGridTransparencyStep planeColor 0
           (if gl_reverseX L then gl_maxY L else gl_minY L) (builder, gridColor)
       else Some (builder, gridColor));
  g ← (if 1 <? nGridRepetitionsY then
         let gridColor := ColorDef_withTransparency (snd g) gridTransparency in
         let builder :=
           GraphicBuilder.call (fst g) (GraphicBuilder.SetSymbology gridColor planeColor 1 None) in
         gridLineOuterLoop fuel (gl_transform L) (lineAcrossY L) nGridRepetitionsY
           (gl_nRefRepetitionsY L) (gl_refStepX L) gridsPerRef gridStepX
           fadeGridTransparencyStep planeColor 0
           (if gl_reverseY L then gl_maxX L else gl_minX L) (builder, gridColor)
       else Some g);
  Some (fst g).

(** The block of [drawStandardGrid] guarded by [if (drawRefLines)]: the
    builder after the reference lines and the sub-grid lines. *)
Definition drawStandardGrid_lines (fuel : nat) (vp : Viewport.t) (gridOrigin : Point3d.t)
    (rMatrix : Matrix3d.t) (spacing : Vector2d.t) (gridsPerRef : float)
    (shapePoints : list Point3d.t) (meterPerPixel : float) (viewZ : Vector3d.t)
    (eyeDot : float) (color planeColor : ColorDef.t) (builder : GraphicBuilder.t)
    : option GraphicBuilder.t :=
  let L := gridLocals vp gridOrigin rMatrix spacing gridsPerRef shapePoints viewZ eyeDot in
  match drawReferenceLines fuel vp L color planeColor builder with
  | None => None
  | Some (builder, nGridRepetitionsX, nGridRepetitionsY) =>
      if drawGridLines (gl_drawRefX L) (gl_drawRefY L) spacing gridsPerRef meterPerPixel
      then drawSubGridLines fuel L gridsPerRef nGridRepetitionsX nGridRepetitionsY
             color planeColor builder
      else Some builder
  end.

(** [drawStandardGrid(gridOrigin, rMatrix, spacing, gridsPerRef)]; the
    arguments [_isoGrid] and [_fixedRepetitions] are not read.  [None]:
    one of the loops is still running after [fuel] iterations. *)
Definition drawStandardGrid `{BuildConfig} (fuel : nat) (gridOrigin : Point3d.t)
    (rMatrix : Matrix3d.t) (spacing : Vector2d.t) (gridsPerRef : float)
    (this : DecorateContext.t) : option (DecorateContext.t * Completion unit) :=
  let vp := DecorateContext.viewport this in
  let eyePoint := Viewport.worldToViewMap_transform1_columnZ vp in
  let eyeDir :=
    Vector3d.createFrom (Point4d.x eyePoint) (Point4d.y eyePoint) (Point4d.z eyePoint) in
  let aa := Geometry_conditionalDivideFraction 1 (Point4d.w eyePoint) in
  let eyeDir :=
    match aa with
    | Some aa =>
        let xyzEye := Vector3d_scale eyeDir aa in
        Point3d_vectorTo gridOrigin xyzEye
    | None => eyeDir
    end in
  match Vector3d_normalize eyeDir with
  | None => Some (this, Returned tt)
  | Some eyeDir =>
  let zVec := Matrix3d_rowZ rMatrix in
  let eyeDot := Vector3d_dotProduct eyeDir zVec in
  if negb (Viewport.isCameraOn vp) && (abs eyeDot <? 0.005) then Some (this, Returned tt)
  else
  match Plane3dByOriginAndUnitNormal_create gridOrigin zVec with
  | None => Some (this, Returned tt)
  | Some plane =>
  match getClippedGridPlanePoints vp plane with
  | None => Some (this, Returned tt)
  | Some (shapePoints, loopPt) =>
  let meterPerPixel := Viewport.getPixelSizeAtPoint vp loopPt in
  let drawRefLines := drawRefLines spacing gridsPerRef meterPerPixel in

  let viewZ := Viewport.rotation_getRow2 vp in
  let gridOffset :=
    Point3d.create (Vector3d.x viewZ * meterPerPixel) (Vector3d.y viewZ * meterPerPixel)
                   (Vector3d.z viewZ * meterPerPixel) in
  let builder :=
    DecorateContext.createGraphicBuilder GraphicType.WorldDecoration
      (Some (Transform_createTranslation gridOffset)) None in
  let color := Viewport.getContrastToBackgroundColor vp in
  let planeColor :=
    ColorDef_withTransparency (if eyeDot <? 0 then ColorDef_red else color)
      planeTransparency in

  let builder := GraphicBuilder.call builder (GraphicBuilder.SetBlankingFill planeColor) in
  let builder := GraphicBuilder.call builder (GraphicBuilder.AddShape shapePoints) in

  builder ← (if drawRefLines
             then drawStandardGrid_lines fuel vp gridOrigin rMatrix spacing gridsPerRef
                    shapePoints meterPerPixel viewZ eyeDot color planeColor builder
             else Some builder);
  Some (DecorateContext.addDecorationFromBuilder builder this)
  end end end.
End WithGeometry.
End StandardGrid.

(** ** SceneContext *)

Record RenderPlanarClassifier : Type := { classifierHandle : positive }.
Record TileTreeReference : Type := { treeHandle : positive }.

Module SpatialClassificationProps.
(** Of the classifier's properties the context reads [modelId]. *)
Record Classifier : Type := mk { modelId : Id64String; name : string }.
End SpatialClassificationProps.

Module Tile.
(** A tile is an object: its identity, and its load status when looked at. *)
Record t : Type := mk { handle : positive; loadStatus : TileLoadStatus.t }.
End Tile.

Module RenderTarget.
(** The two methods of the viewport's render target that the scene context
    calls; their sources are not part of this development. *)
Record t : Type := mk {
  getPlanarClassifier : Id64String -> option RenderPlanarClassifier;
  createPlanarClassifier : SpatialClassificationProps.Classifier -> option RenderPlanarClassifier;
}.
End RenderTarget.

Module Scene.
(** Modelled from the spec: [Scene] of render/Scene, which is not among the
    sources: the foreground, background and overlay graphic lists and the
    map from model id to planar classifier. *)
Record t : Type := mk {
  foreground : GraphicList;
  background : GraphicList;
  overlay : GraphicList;
  planarClassifiers : gmap Id64String RenderPlanarClassifier;
}.

(** [new Scene()]. *)
Definition new : t := mk [] [] [] ∅.

Definition set_foreground (v : GraphicList) (s : t) : t :=
  mk v (background s) (overlay s) (planarClassifiers s).
Definition set_background (v : GraphicList) (s : t) : t :=
  mk (foreground s) v (overlay s) (planarClassifiers s).
Definition set_overlay (v : GraphicList) (s : t) : t :=
  mk (foreground s) (background s) v (planarClassifiers s).
Definition set_planarClassifiers (v : gmap Id64String RenderPlanarClassifier) (s : t) : t :=
  mk (foreground s) (background s) (overlay s) v.
End Scene.

Module SceneContext.
Record t : Type := mk {
  _missingChildTiles : bool;
  scene : Scene.t;
  (** a set of tile objects *)
  missingTiles : gset positive;
  _graphicType : TileGraphicType.t;
  (** [viewport.target] *)
  target : RenderTarget.t;
  (** Observation of the classifiers: the calls of [collectGraphics] so
      far, oldest first, each with its classified tree and its tile tree. *)
  collectGraphicsCalls : list (RenderPlanarClassifier * TileTreeReference * TileTreeReference);
}.

(** [new SceneContext(vp)]: the field initialisers. *)
Definition new (target : RenderTarget.t) : t :=
  mk false Scene.new ∅ TileGraphicType.Scene target [].

Definition set_missingChildTiles (v : bool) (c : t) : t :=
  mk v (scene c) (missingTiles c) (_graphicType c) (target c) (collectGraphicsCalls c).
Definition set_scene (v : Scene.t) (c : t) : t :=
  mk (_missingChildTiles c) v (missingTiles c) (_graphicType c) (target c)
     (collectGraphicsCalls c).
Definition set_missingTiles (v : gset positive) (c : t) : t :=
  mk (_missingChildTiles c) (scene c) v (_graphicType c) (target c) (collectGraphicsCalls c).
Definition set_graphicType (v : TileGraphicType.t) (c : t) : t :=
  mk (_missingChildTiles c) (scene c) (missingTiles c) v (target c) (collectGraphicsCalls c).
Definition set_collectGraphicsCalls
    (v : list (RenderPlanarClassifier * TileTreeReference * TileTreeReference)) (c : t) : t :=
  mk (_missingChildTiles c) (scene c) (missingTiles c) (_graphicType c) (target c) v.

Definition markChildrenLoading : Js t unit :=
  js_modify (set_missingChildTiles true).

Definition hasMissingTiles (c : t) : bool :=
  _missingChildTiles c || Nat.ltb 0 (size (missingTiles c)).

Definition graphicType (c : t) : TileGraphicType.t := _graphicType c.

Definition graphics (c : t) : GraphicList := Scene.foreground (scene c).
Definition backgroundGraphics (c : t) : GraphicList := Scene.background (scene c).
Definition overlayGraphics (c : t) : GraphicList := Scene.overlay (scene c).
Definition planarClassifiers (c : t) : gmap Id64String RenderPlanarClassifier :=
  Scene.planarClassifiers (scene c).

Definition outputGraphic (graphic : RenderGraphic) : Js t unit :=
  fun c =>
    match _graphicType c with
    | TileGraphicType.BackgroundMap =>
        js_modify
          (fun c => set_scene (Scene.set_background (backgroundGraphics c ++ [graphic]) (scene c)) c)
          c
    | TileGraphicType.Overlay =>
        js_modify
          (fun c => set_scene (Scene.set_overlay (overlayGraphics c ++ [graphic]) (scene c)) c)
          c
    | _ =>
        js_modify
          (fun c => set_scene (Scene.set_foreground (graphics c ++ [graphic]) (scene c)) c)
          c
    end.

Definition insertMissingTile (tile : Tile.t) : Js t unit :=
  match Tile.loadStatus tile with
  | TileLoadStatus.NotLoaded
  | TileLoadStatus.Queued
  | TileLoadStatus.Loading =>
      js_modify (fun c => set_missingTiles ({[Tile.handle tile]} ∪ missingTiles c) c)
  | _ => js_ret tt
  end.

(** [classifier.collectGraphics(this, classifiedTree, tileTree)]: the call
    is recorded; what the classifier does with it is its own. *)
Definition collectGraphics (classifier : RenderPlanarClassifier)
    (classifiedTree tileTree : TileTreeReference) : Js t unit :=
  js_modify (fun c =>
    set_collectGraphicsCalls
      (collectGraphicsCalls c ++ [(classifier, classifiedTree, tileTree)]) c).

Definition addPlanarClassifier (props : SpatialClassificationProps.Classifier)
    (tileTree classifiedTree : TileTreeReference) : Js t (option RenderPlanarClassifier) :=
  fun c =>
    let id := SpatialClassificationProps.modelId props in
    match planarClassifiers c !! id with
    | Some classifier => js_ret (Some classifier) c
    | None =>
        let classifier := RenderTarget.getPlanarClassifier (target c) id in
        let classifier :=
          match classifier with
          | None => RenderTarget.createPlanarClassifier (target c) props
          | Some _ => classifier
          end in
        match classifier with
        | Some cl =>
            (js_modify (fun c =>
               set_scene (Scene.set_planarClassifiers (<[id := cl]> (planarClassifiers c))
                            (scene c)) c) ;;;
             collectGraphics cl classifiedTree tileTree ;;;
             js_ret classifier)%js c
        | None => js_ret classifier c
        end
    end.

Definition withGraphicType (type : TileGraphicType.t) (func : Js t unit) : Js t unit :=
  fun c =>
    let prevType := _graphicType c in
    (js_modify (set_graphicType type) ;;;
     func ;;;
     js_modify (set_graphicType prevType))%js c.

(** A caller's use of the context, one call after another. *)
Inductive Call : Type :=
| CallMarkChildrenLoading
| CallInsertMissingTile (tile : Tile.t)
| CallOutputGraphic (graphic : RenderGraphic)
| CallAddPlanarClassifier (props : SpatialClassificationProps.Classifier)
                          (tileTree classifiedTree : TileTreeReference).

Definition perform (call : Call) : Js t unit :=
  match call with
  | CallMarkChildrenLoading => markChildrenLoading
  | CallInsertMissingTile tile => insertMissingTile tile
  | CallOutputGraphic graphic => outputGraphic graphic
  | CallAddPlanarClassifier props tileTree classifiedTree =>
      (addPlanarClassifier props tileTree classifiedTree ;;; js_ret tt)%js
  end.

Fixpoint performAll (calls : list Call) : Js t unit :=
  match calls with
  | [] => js_ret tt
  | call :: rest => (perform call ;;; performAll rest)%js
  end.

Definition isMarkChildrenLoading (call : Call) : bool :=
  match call with CallMarkChildrenLoading => true | _ => false end.
End SceneContext.

(** ** What the statements below speak of *)

(** The add-calls among a decorator's calls that are made before its first
    throw. *)
Definition isAddCall (call : DecorateCall) : bool :=
  match call with
  | CallAddDecorationFromBuilder _ | CallAddDecoration _ _
  | CallAddCanvasDecoration _ _ | CallAddHtmlDecoration _ => true
  | _ => false
  end.

Fixpoint addCallsMade (calls : list DecorateCall) : nat :=
  match calls with
  | [] => 0
  | CallThrow _ :: _ => 0
  | call :: rest => (if isAddCall call then 1 else 0) + addCallsMade rest
  end.

(** The ordered decorations of a frame, by type: the four graphic lists, the
    canvas list and the children of the HTML container.  The view background
    and the sky box are one graphic each, with no order among them; they are
    part of [frame] below. *)
Record DecorationOrdering : Type := mkDecorationOrdering {
  ord_normal : option GraphicList;
  ord_world : option GraphicList;
  ord_worldOverlay : option GraphicList;
  ord_viewOverlay : option GraphicList;
  ord_canvas : option (list CanvasDecoration);
  ord_html : list HTMLElement;
}.

Definition decorationOrdering (c : DecorateContext.t) : DecorationOrdering :=
  let d := DecorateContext._decorations c in
  mkDecorationOrdering (Decorations.normal d) (Decorations.world d)
    (Decorations.worldOverlay d) (Decorations.viewOverlay d)
    (Decorations.canvasDecorations d) (Viewport.decorationDiv (DecorateContext.viewport c)).

(** A decorator that sets the sky box or the background directly. *)
Definition isDirectSet (call : DecorateCall) : bool :=
  match call with CallSetSkyBox _ | CallSetViewBackground _ => true | _ => false end.

(** How many entries the cache holds for a decorator. *)
Definition cachedCount (c : DecorateContext.t)
    (decorator : ViewportDecorator.t DecorateContext.t) : nat :=
  length (default [] (Viewport.getCachedDecorations (DecorateContext.viewport c) decorator)).

(** How often a decorator's [decorate] has been entered. *)
Definition timesDecorated (c : DecorateContext.t)
    (decorator : ViewportDecorator.t DecorateContext.t) : nat :=
  length (filter (fun h => h = ViewportDecorator.handle decorator)
                 (DecorateContext.decorateEntered c)).

(** One call of [addFromDecorator] after another, whatever way each ends:
    the caller goes on to the next decorator on the context as it is. *)
Fixpoint addFromDecorators `{BuildConfig}
    (decorators : list (ViewportDecorator.t DecorateContext.t))
    (c : DecorateContext.t) : DecorateContext.t :=
  match decorators with
  | [] => c
  | d :: rest => addFromDecorators rest (fst (DecorateContext.addFromDecorator d c))
  end.

(** The line strings a graphic was built from. *)
Definition lineStrings (g : RenderGraphic) : nat :=
  match g with
  | BuiltGraphic b =>
      length (filter (fun c => GraphicBuilder.isAddLineString c = true) (GraphicBuilder.commands b))
  | _ => 0
  end.

(** The statuses the spec names for a missing tile. *)
Definition isMissingStatus (s : TileLoadStatus.t) : bool :=
  match s with
  | TileLoadStatus.NotLoaded | TileLoadStatus.Queued | TileLoadStatus.Loading => true
  | TileLoadStatus.Other _ => false
  end.

(** The bucket of the scene a graphic type stands for. *)
Definition bucket (type : TileGraphicType.t) (c : SceneContext.t) : GraphicList :=
  match type with
  | TileGraphicType.BackgroundMap => SceneContext.backgroundGraphics c
  | TileGraphicType.Overlay => SceneContext.overlayGraphics c
  | TileGraphicType.Scene => SceneContext.graphics c
  end.

(** The clip of the frustum against the grid plane gives nothing to draw. *)
Inductive DegenerateClip `{GeometryCore} (vp : Viewport.t)
    (plane : Plane3dByOriginAndUnitNormal.t) : Prop :=
| NoGeometry :
    ClipUtilities_loopsOfConvexClipPlaneIntersectionWithRange
      (ConvexClipPlaneSet.createPlanes [ClipPlane.createPlane plane])
      (Frustum_toRange (Viewport.getFrustum vp)) true false true = None ->
    DegenerateClip vp plane
| NotOneLoop geom :
    ClipUtilities_loopsOfConvexClipPlaneIntersectionWithRange
      (ConvexClipPlaneSet.createPlanes [ClipPlane.createPlane plane])
      (Frustum_toRange (Viewport.getFrustum vp)) true false true = Some geom ->
    length geom <> 1 ->
    DegenerateClip vp plane
| NotALoop tag :
    ClipUtilities_loopsOfConvexClipPlaneIntersectionWithRange
      (ConvexClipPlaneSet.createPlanes [ClipPlane.createPlane plane])
      (Frustum_toRange (Viewport.getFrustum vp)) true false true
      = Some [OtherGeometryQuery tag] ->
    DegenerateClip vp plane
| NotOneChild children :
    ClipUtilities_loopsOfConvexClipPlaneIntersectionWithRange
      (ConvexClipPlaneSet.createPlanes [ClipPlane.createPlane plane])
      (Frustum_toRange (Viewport.getFrustum vp)) true false true
      = Some [Loop children] ->
    length children <> 1 ->
    DegenerateClip vp plane
| NotALineString tag :
    ClipUtilities_loopsOfConvexClipPlaneIntersectionWithRange
      (ConvexClipPlaneSet.createPlanes [ClipPlane.createPlane plane])
      (Frustum_toRange (Viewport.getFrustum vp)) true false true
      = Some [Loop [OtherCurvePrimitive tag]] ->
    DegenerateClip vp plane
| TooFewPoints points :
    ClipUtilities_loopsOfConvexClipPlaneIntersectionWithRange
      (ConvexClipPlaneSet.createPlanes [ClipPlane.createPlane plane])
      (Frustum_toRange (Viewport.getFrustum vp)) true false true
      = Some [Loop [LineString3d points]] ->
    length (ConvexClipPlaneSet_polygonClip
              (Frustum_getRangePlanes (Viewport.getFrustum vp) false false 0%float) points) < 4 ->
    DegenerateClip vp plane.

(** ** A concrete setting

    An orthographic top view of the plane z = 0, with a plain
    implementation of the geometry the grid needs there; the result of the
    frustum clip is left open so that every shape of it can be tried. *)

Module TopView.
Local Open Scope float_scope.

Definition sub3 (p q : Point3d.t) : Vector3d.t :=
  Vector3d.create (Point3d.x p - Point3d.x q) (Point3d.y p - Point3d.y q)
                  (Point3d.z p - Point3d.z q).

Definition dot (u v : Vector3d.t) : float :=
  Vector3d.x u * Vector3d.x v + Vector3d.y u * Vector3d.y v + Vector3d.z u * Vector3d.z v.

Definition scale (v : Vector3d.t) (s : float) : Vector3d.t :=
  Vector3d.create (Vector3d.x v * s) (Vector3d.y v * s) (Vector3d.z v * s).

Definition normalize (v : Vector3d.t) : option Vector3d.t :=
  let m := sqrt (dot v v) in
  if 0 <? m then Some (scale v (1 / m)) else None.

Definition minf (a b : float) : float := if b <? a then b else a.
Definition maxf (a b : float) : float := if a <? b then b else a.

Definition rangeOf (pts : list Point3d.t) : Range3d.t :=
  match pts with
  | [] => Range3d.create Point3d.createZero Point3d.createZero
  | p :: rest =>
      fold_left
        (fun r q =>
           Range3d.create
             (Point3d.create (minf (Point3d.x (Range3d.low r)) (Point3d.x q))
                             (minf (Point3d.y (Range3d.low r)) (Point3d.y q))
                             (minf (Point3d.z (Range3d.low r)) (Point3d.z q)))
             (Point3d.create (maxf (Point3d.x (Range3d.high r)) (Point3d.x q))
                             (maxf (Point3d.y (Range3d.high r)) (Point3d.y q))
                             (maxf (Point3d.z (Range3d.high r)) (Point3d.z q))))
        rest (Range3d.create p p)
  end.

Definition translate (tr : Transform.t) (p : Point3d.t) : Point3d.t :=
  Point3d.create (Point3d.x p + Point3d.x (Transform.origin tr))
                 (Point3d.y p + Point3d.y (Transform.origin tr))
                 (Point3d.z p + Point3d.z (Transform.origin tr)).

Definition untranslate (tr : Transform.t) (p : Point3d.t) : Point3d.t :=
  Point3d.create (Point3d.x p - Point3d.x (Transform.origin tr))
                 (Point3d.y p - Point3d.y (Transform.origin tr))
                 (Point3d.z p - Point3d.z (Transform.origin tr)).

(** Unrotated matrices only; [clip] is what the frustum clip returns. *)
Definition geometry (clip : option (list GeometryQuery)) : GeometryCore := {|
  Geometry_conditionalDivideFraction n d := if d =? 0 then None else Some (n / d);
  Vector3d_scale := scale;
  Vector3d_normalize := normalize;
  Vector3d_normalizeInPlace v := default v (normalize v);
  Vector3d_dotProduct := dot;
  Vector3d_createStartEnd p q := sub3 q p;
  Point3d_vectorTo p v :=
    Vector3d.create (Vector3d.x v - Point3d.x p) (Vector3d.y v - Point3d.y p)
                    (Vector3d.z v - Point3d.z p);
  Point3d_distance p q := sqrt (dot (sub3 q p) (sub3 q p));
  Point3d_interpolate p f q :=
    Point3d.create (Point3d.x p + f * (Point3d.x q - Point3d.x p))
                   (Point3d.y p + f * (Point3d.y q - Point3d.y p))
                   (Point3d.z p + f * (Point3d.z q - Point3d.z p));
  Matrix3d_rowZ _ := Vector3d.create 0 0 1;
  Matrix3d_inverse m := Some m;
  Plane3dByOriginAndUnitNormal_create o n :=
    Plane3dByOriginAndUnitNormal.mk o <$> normalize n;
  Ray3d_intersectionWithPlane _ _ := None;
  Transform_createTranslation p := Transform.createRefs p None;
  Transform_multiplyPoint3d := translate;
  Range3d_createInverseTransformedArray tr pts := rangeOf (map (untranslate tr) pts);
  Frustum_toRange f := rangeOf (Frustum.points f);
  Frustum_getRangePlanes _ _ _ _ := ConvexClipPlaneSet.createPlanes [];
  ClipUtilities_loopsOfConvexClipPlaneIntersectionWithRange _ _ _ _ _ := clip;
  ConvexClipPlaneSet_polygonClip _ pts := pts;
  ColorDef_red := ColorDef.fromTbgr 255;
  ColorDef_withTransparency c _ := c;
|}.

(** The square from (0,0) to (100,100) of the plane z = 0, closed. *)
Definition square : list Point3d.t :=
  [Point3d.createXY 0 0; Point3d.createXY 100 0; Point3d.createXY 100 100;
   Point3d.createXY 0 100; Point3d.createXY 0 0].

Definition squareLoop : option (list GeometryQuery) := Some [Loop [LineString3d square]].

Definition identity : Matrix3d.t := Matrix3d.create [1; 0; 0; 0; 1; 0; 0; 0; 1].

(** Camera off, looking down the z axis, [meterPerPixel] metres to the pixel. *)
Definition viewport (meterPerPixel : float) : Viewport.t := {|
  Viewport.isCameraOn := false;
  Viewport.worldToViewMap_transform1_columnZ := Point4d.create 0 0 1 0;
  Viewport.getFrustum :=
    Frustum.mk [Point3d.create 0 0 (-1); Point3d.create 100 0 (-1);
                Point3d.create 0 100 (-1); Point3d.create 100 100 (-1);
                Point3d.create 0 0 1; Point3d.create 100 0 1;
                Point3d.create 0 100 1; Point3d.create 100 100 1];
  Viewport.worldToView p := p;
  Viewport.getPixelSizeAtPoint _ := meterPerPixel;
  Viewport.rotation_getRow2 := Vector3d.create 0 0 1;
  Viewport.getContrastToBackgroundColor := ColorDef.fromTbgr 0;
  Viewport._decorationCache := ∅;
  Viewport.decorationDiv := [];
|}.

Definition context (meterPerPixel : float) : DecorateContext.t :=
  DecorateContext.new (viewport meterPerPixel) Decorations.empty.

Definition debug : BuildConfig := {| assertionsEnabled := true |}.

Definition origin : Point3d.t := Point3d.createZero.
Definition plane : Plane3dByOriginAndUnitNormal.t :=
  Plane3dByOriginAndUnitNormal.mk origin (Vector3d.create 0 0 1).

(** The line strings of the world decoration a grid call leaves behind. *)
Definition worldLineStrings (r : option (DecorateContext.t * Completion unit)) : option nat :=
  match r with
  | Some (c, Returned _) =>
      match Decorations.world (DecorateContext._decorations c) with
      | Some [g] => Some (lineStrings g)
      | _ => None
      end
  | _ => None
  end.

(** A clip that leaves three boundary points. *)
Definition triangleLoop : option (list GeometryQuery) :=
  Some [Loop [LineString3d [Point3d.createXY 0%float 0%float; Point3d.createXY 100%float 0%float;
                            Point3d.createXY 0%float 100%float]]].

Definition first : CanvasDecoration := {| canvasHandle := 1 |}.
Definition second : CanvasDecoration := {| canvasHandle := 2 |}.
Definition third : CanvasDecoration := {| canvasHandle := 3 |}.

Definition target : RenderTarget.t := {|
  RenderTarget.getPlanarClassifier _ := None;
  RenderTarget.createPlanarClassifier _ := Some {| classifierHandle := 1 |};
|}.
End TopView.


(** ** Pure readings of the context's operations, for the proofs *)

(** The [switch] of [addDecoration] on the bundle. *)
Definition placeGraphic (type : GraphicType.t) (g : RenderGraphic) (d : Decorations.t)
    : Decorations.t :=
  match type with
  | GraphicType.Scene => Decorations.set_normal (pushOrCreate (Decorations.normal d) g) d
  | GraphicType.WorldDecoration =>
      Decorations.set_world (pushOrCreate (Decorations.world d) g) d
  | GraphicType.WorldOverlay =>
      Decorations.set_worldOverlay (pushOrCreate (Decorations.worldOverlay d) g) d
  | GraphicType.ViewOverlay =>
      Decorations.set_viewOverlay (pushOrCreate (Decorations.viewOverlay d) g) d
  | GraphicType.ViewBackground => Decorations.set_viewBackground (Some g) d
  end.

(** The insertion of [addCanvasDecoration] into an existing list. *)
Definition insertCanvas (decoration : CanvasDecoration) (atFront : bool)
    (l : list CanvasDecoration) : list CanvasDecoration :=
  match l with
  | [] => [decoration]
  | _ :: _ => if atFront then l ++ [decoration] else decoration :: l
  end.

Definition placeCanvas (decoration : CanvasDecoration) (atFront : bool) (d : Decorations.t)
    : Decorations.t :=
  Decorations.set_canvasDecorations
    (Some (insertCanvas decoration atFront (default [] (Decorations.canvasDecorations d)))) d.

(** What a cached decoration does to the frame when it is restored, and
    what a recorded call leaves in the cache. *)
Definition restoreOne (e : CachedDecoration) (c : DecorateContext.t) : DecorateContext.t :=
  match e with
  | CachedGraphic g type =>
      DecorateContext.set_decorations (placeGraphic type g (DecorateContext._decorations c)) c
  | CachedCanvas dec atFront =>
      DecorateContext.set_decorations (placeCanvas dec atFront (DecorateContext._decorations c)) c
  | CachedHtml el =>
      DecorateContext.set_viewport (Viewport.appendChild el (DecorateContext.viewport c)) c
  end.

Definition entryOf (call : DecorateCall) : option CachedDecoration :=
  match call with
  | CallAddDecorationFromBuilder b =>
      Some (CachedGraphic (createGraphicOwner (GraphicBuilder_finish b)) (GraphicBuilder.type b))
  | CallAddDecoration type g => Some (CachedGraphic (createGraphicOwner g) type)
  | CallAddCanvasDecoration dec atFront => Some (CachedCanvas dec (default false atFront))
  | CallAddHtmlDecoration el => Some (CachedHtml el)
  | _ => None
  end.

Fixpoint entriesOf (calls : list DecorateCall) : list CachedDecoration :=
  match calls with
  | [] => []
  | CallThrow _ :: _ => []
  | call :: rest => option_list (entryOf call) ++ entriesOf rest
  end.

(** The calls up to the first throw. *)
Fixpoint callsMade (calls : list DecorateCall) : list DecorateCall :=
  match calls with
  | [] => []
  | CallThrow _ :: _ => []
  | call :: rest => call :: callsMade rest
  end.

(** A decorator's call of [setSkyBox] or [setViewBackground]. *)
Definition directSet (call : DecorateCall) (c : DecorateContext.t) : DecorateContext.t :=
  match call with
  | CallSetSkyBox g =>
      DecorateContext.set_decorations
        (Decorations.set_skyBox (Some g) (DecorateContext._decorations c)) c
  | CallSetViewBackground g =>
      DecorateContext.set_decorations
        (Decorations.set_viewBackground (Some g) (DecorateContext._decorations c)) c
  | _ => c
  end.

(** What an add-call puts into the frame when nothing is recorded: the
    decoration as it was given. *)
Definition plainEntryOf (call : DecorateCall) : option CachedDecoration :=
  match call with
  | CallAddDecorationFromBuilder b =>
      Some (CachedGraphic (GraphicBuilder_finish b) (GraphicBuilder.type b))
  | CallAddDecoration type g => Some (CachedGraphic g type)
  | CallAddCanvasDecoration dec atFront => Some (CachedCanvas dec (default false atFront))
  | CallAddHtmlDecoration el => Some (CachedHtml el)
  | _ => None
  end.

Definition cacheOf (c : DecorateContext.t) : gmap (option positive) (list CachedDecoration) :=
  Viewport._decorationCache (DecorateContext.viewport c).

(** The cache after [decoration] has been recorded for [decorator]. *)
Definition recordOne (decorator : positive) (decoration : CachedDecoration)
    (c : DecorateContext.t) : DecorateContext.t :=
  DecorateContext.set_viewport
    (Viewport.addCachedDecoration (Some decorator) decoration (DecorateContext.viewport c)) c.

(** A decorator's sequence in the cache after [es] has been appended. *)
Definition appendEntries (old : option (list CachedDecoration)) (es : list CachedDecoration)
    : option (list CachedDecoration) :=
  match es with
  | [] => old
  | _ :: _ => Some (default [] old ++ es)
  end.

(** A restored decoration on the ordered decorations of a frame. *)
Definition applyOrdering (e : CachedDecoration) (o : DecorationOrdering) : DecorationOrdering :=
  match e with
  | CachedGraphic g GraphicType.Scene =>
      mkDecorationOrdering (pushOrCreate (ord_normal o) g) (ord_world o) (ord_worldOverlay o)
        (ord_viewOverlay o) (ord_canvas o) (ord_html o)
  | CachedGraphic g GraphicType.WorldDecoration =>
      mkDecorationOrdering (ord_normal o) (pushOrCreate (ord_world o) g) (ord_worldOverlay o)
        (ord_viewOverlay o) (ord_canvas o) (ord_html o)
  | CachedGraphic g GraphicType.WorldOverlay =>
      mkDecorationOrdering (ord_normal o) (ord_world o) (pushOrCreate (ord_worldOverlay o) g)
        (ord_viewOverlay o) (ord_canvas o) (ord_html o)
  | CachedGraphic g GraphicType.ViewOverlay =>
      mkDecorationOrdering (ord_normal o) (ord_world o) (ord_worldOverlay o)
        (pushOrCreate (ord_viewOverlay o) g) (ord_canvas o) (ord_html o)
  | CachedGraphic g GraphicType.ViewBackground => o
  | CachedCanvas dec atFront =>
      mkDecorationOrdering (ord_normal o) (ord_world o) (ord_worldOverlay o)
        (ord_viewOverlay o) (Some (insertCanvas dec atFront (default [] (ord_canvas o))))
        (ord_html o)
  | CachedHtml el =>
      mkDecorationOrdering (ord_normal o) (ord_world o) (ord_worldOverlay o)
        (ord_viewOverlay o) (ord_canvas o) (filter (fun e => e <> el) (ord_html o) ++ [el])
  end.

(** One call of a decorator as a function of the context, while the
    decorator is recorded and while nothing is. *)
Definition stepRecording (d : positive) (call : DecorateCall) (c : DecorateContext.t)
    : DecorateContext.t :=
  match entryOf call with
  | Some e => restoreOne e (recordOne d e c)
  | None => directSet call c
  end.

Definition stepIdle (call : DecorateCall) (c : DecorateContext.t)
    : DecorateContext.t :=
  match plainEntryOf call with
  | Some e => restoreOne e c
  | None => directSet call c
  end.

(** The whole frame: the bundle and the children of the HTML container. *)
Definition frame (c : DecorateContext.t) : Decorations.t * list HTMLElement :=
  (DecorateContext._decorations c, Viewport.decorationDiv (DecorateContext.viewport c)).

(** The assertion at the entry of [addFromDecorator] does not throw. *)
Definition entryAssertionPasses `{BuildConfig} (c : DecorateContext.t) : Prop :=
  assertionsEnabled = false \/ DecorateContext._curCacheableDecorator c = None.

(** Three canvas decorations added to a context, with [atFront] false,
    false and true. *)
Definition addThreeCanvasDecorations `{BuildConfig} (d1 d2 d3 : CanvasDecoration)
    : Js DecorateContext.t unit :=
  (DecorateContext.addCanvasDecoration d1 (Some false) ;;;
   DecorateContext.addCanvasDecoration d2 (Some false) ;;;
   DecorateContext.addCanvasDecoration d3 (Some true))%js.

(** A length of the grid plane shows as fewer pixels than the minimum
    separation, and as exactly the minimum separation. *)
Definition fewerPixelsThanMinSeparation (len meterPerPixel : float) : bool :=
  PrimFloat.ltb (PrimFloat.div len meterPerPixel) gridConstants.minSeparation.
Definition exactlyMinSeparation (len meterPerPixel : float) : bool :=
  PrimFloat.eqb (PrimFloat.div len meterPerPixel) gridConstants.minSeparation.

(** The counter of a loop after [k] increments from 0. *)
Definition counter (k : nat) : float :=
  Nat.iter k (fun v => PrimFloat.add v 1%float) 0%float.

(** A grid graphic that is the blanking plane alone. *)
Definition planeOnly (b : GraphicBuilder.t) : Prop :=
  GraphicBuilder.type b = GraphicType.WorldDecoration
  /\ exists color points,
       GraphicBuilder.commands b
       = [GraphicBuilder.SetBlankingFill color; GraphicBuilder.AddShape points].

(** The block guarded by [if (drawRefLines)] without its sub-grid part. *)
Definition referenceLinesOnly `{GeometryCore} (fuel : nat) (vp : Viewport.t)
    (gridOrigin : Point3d.t) (rMatrix : Matrix3d.t) (spacing : Vector2d.t)
    (gridsPerRef : float) (shapePoints : list Point3d.t) (viewZ : Vector3d.t)
    (eyeDot : float) (color planeColor : ColorDef.t) (builder : GraphicBuilder.t)
    : option GraphicBuilder.t :=
  match StandardGrid.drawReferenceLines fuel vp
          (StandardGrid.gridLocals vp gridOrigin rMatrix spacing gridsPerRef shapePoints
             viewZ eyeDot)
          color planeColor builder with
  | Some (builder, _, _) => Some builder
  | None => None
  end.

(** Decorators used in the examples. *)
Module Decorators.
Definition canvasCalls : list DecorateCall :=
  [CallAddCanvasDecoration TopView.first None;
   CallAddDecoration GraphicType.ViewOverlay (Graphic 1);
   CallAddHtmlDecoration {| elementHandle := 1 |}].
Definition failing (useCachedDecorations : option bool)
    : ViewportDecorator.t DecorateContext.t :=
  @DecorateContext.scripted TopView.debug 9 useCachedDecorations
    [CallAddCanvasDecoration TopView.second (Some true); CallThrow (ThrownError 1);
     CallAddCanvasDecoration TopView.third None].
(** A decorator that, against the rules, invokes another one on the context
    it is given. *)
Definition reentrant (useCachedDecorations : option bool)
    : ViewportDecorator.t DecorateContext.t :=
  ViewportDecorator.mk 10 useCachedDecorations
    (@DecorateContext.addFromDecorator TopView.debug (failing (Some true))).
End Decorators.

(** ** More of the decorations: what a script leaves where *)

Global Instance GraphicType_eq_dec : EqDecision GraphicType.t.
Proof. solve_decision. Defined.

(** An optional list after [new] has been pushed onto it, element by
    element: created when undefined, and left undefined when nothing is
    pushed. *)
Definition appended {A} (old : option (list A)) (new : list A) : option (list A) :=
  match new with
  | [] => old
  | _ :: _ => Some (default [] old ++ new)
  end.

(** The graphic a call hands to [addDecoration], with its type. *)
Definition graphicOf (call : DecorateCall) : option (GraphicType.t * RenderGraphic) :=
  match call with
  | CallAddDecorationFromBuilder b => Some (GraphicBuilder.type b, GraphicBuilder_finish b)
  | CallAddDecoration type g => Some (type, g)
  | _ => None
  end.

Definition graphicOfType (type : GraphicType.t) (call : DecorateCall) : option RenderGraphic :=
  match graphicOf call with
  | Some (t, g) => if decide (t = type) then Some g else None
  | None => None
  end.

(** The graphics of one type that a script adds before its first throw, in
    the order of the calls. *)
Definition graphicsOfType (type : GraphicType.t) (calls : list DecorateCall)
    : list RenderGraphic :=
  omap (graphicOfType type) (callsMade calls).

(** What the context puts into the bundle for a graphic it is given: its
    owner while a decorator is recorded, the graphic itself otherwise. *)
Definition asPlaced (slot : option positive) (g : RenderGraphic) : RenderGraphic :=
  match slot with
  | Some _ => createGraphicOwner g
  | None => g
  end.

(** The list of the bundle that a graphic type stands for; the view
    background is one graphic and has none. *)
Definition listOfType (type : GraphicType.t) (d : Decorations.t) : option GraphicList :=
  match type with
  | GraphicType.Scene => Decorations.normal d
  | GraphicType.WorldDecoration => Decorations.world d
  | GraphicType.WorldOverlay => Decorations.worldOverlay d
  | GraphicType.ViewOverlay => Decorations.viewOverlay d
  | GraphicType.ViewBackground => None
  end.

(** A slot of the bundle that is assigned, not pushed to: the last of the
    values assigned, or the old value when there is none. *)
Definition lastOr {A} (old : option A) (l : list A) : option A :=
  match last l with
  | Some x => Some x
  | None => old
  end.

(** The view backgrounds a script sets before its first throw, through
    [addDecoration] or [setViewBackground], and the sky boxes it sets. *)
Definition backgroundOf (slot : option positive) (call : DecorateCall)
    : option RenderGraphic :=
  match call with
  | CallSetViewBackground g => Some g
  | _ => asPlaced slot <$> graphicOfType GraphicType.ViewBackground call
  end.

Definition skyBoxOf (call : DecorateCall) : option RenderGraphic :=
  match call with CallSetSkyBox g => Some g | _ => None end.

(** The canvas decorations a script adds before its first throw, each with
    its [atFront] as the method reads it. *)
Definition canvasOf (call : DecorateCall) : option (CanvasDecoration * bool) :=
  match call with
  | CallAddCanvasDecoration dec atFront => Some (dec, default false atFront)
  | _ => None
  end.

(** The error of the first throw of a script, if it throws. *)
Fixpoint firstThrow (calls : list DecorateCall) : option JsError :=
  match calls with
  | [] => None
  | CallThrow e :: _ => Some e
  | _ :: rest => firstThrow rest
  end.

(** How a script ends. *)
Definition completionOf (calls : list DecorateCall) : Completion unit :=
  match firstThrow calls with
  | Some e => Thrown e
  | None => Returned tt
  end.

(** One [addCanvasDecoration] after another, each with the same [atFront]
    argument. *)
Fixpoint addCanvasDecorations `{BuildConfig} (decorations : list CanvasDecoration)
    (atFront : option bool) : Js DecorateContext.t unit :=
  match decorations with
  | [] => js_ret tt
  | d :: rest =>
      (DecorateContext.addCanvasDecoration d atFront ;;; addCanvasDecorations rest atFront)%js
  end.

(** The canvas decorations of a context, none when the list is undefined. *)
Definition canvasList (c : DecorateContext.t) : list CanvasDecoration :=
  default [] (Decorations.canvasDecorations (DecorateContext._decorations c)).

(** One call of a script as a function of the context, by the state of the
    slot. *)
Definition stepWith (slot : option positive) (call : DecorateCall) (c : DecorateContext.t)
    : DecorateContext.t :=
  match slot with
  | Some h => stepRecording h call c
  | None => stepIdle call c
  end.

(** The view-background graphic of a cached entry. *)
Definition backgroundOfEntry (e : CachedDecoration) : option RenderGraphic :=
  match e with
  | CachedGraphic g GraphicType.ViewBackground => Some g
  | _ => None
  end.

(** ** More of the standard grid *)

(** The eye direction that [drawStandardGrid] computes before it normalizes
    it: column z of the view-to-world map, taken from the grid origin where
    that column has a weight. *)
Definition eyeDirection `{GeometryCore} (vp : Viewport.t) (gridOrigin : Point3d.t)
    : Vector3d.t :=
  let eyePoint := Viewport.worldToViewMap_transform1_columnZ vp in
  let eyeDir :=
    Vector3d.createFrom (Point4d.x eyePoint) (Point4d.y eyePoint) (Point4d.z eyePoint) in
  match Geometry_conditionalDivideFraction 1%float (Point4d.w eyePoint) with
  | Some aa => Point3d_vectorTo gridOrigin (Vector3d_scale eyeDir aa)
  | None => eyeDir
  end.

(** The three tests of [drawStandardGrid] that come before the clip. *)
Inductive NothingToDraw `{GeometryCore} (vp : Viewport.t) (gridOrigin : Point3d.t)
    (rMatrix : Matrix3d.t) : Prop :=
| NoEyeDirection :
    Vector3d_normalize (eyeDirection vp gridOrigin) = None ->
    NothingToDraw vp gridOrigin rMatrix
| EdgeOn eyeDir :
    Vector3d_normalize (eyeDirection vp gridOrigin) = Some eyeDir ->
    Viewport.isCameraOn vp = false ->
    PrimFloat.ltb (PrimFloat.abs (Vector3d_dotProduct eyeDir (Matrix3d_rowZ rMatrix)))
      0.005%float = true ->
    NothingToDraw vp gridOrigin rMatrix
| NoPlane :
    Plane3dByOriginAndUnitNormal_create gridOrigin (Matrix3d_rowZ rMatrix) = None ->
    NothingToDraw vp gridOrigin rMatrix.

(** The commands of the lines: symbology and line strings. *)
Definition isLineCommand (c : GraphicBuilder.Command) : bool :=
  match c with
  | GraphicBuilder.SetSymbology _ _ _ _ | GraphicBuilder.AddLineString _ => true
  | _ => false
  end.

Definition lineStringsIn (commands : list GraphicBuilder.Command) : nat :=
  length (filter (fun c => GraphicBuilder.isAddLineString c = true) commands).

(** [b'] is the builder [b] after more line commands, at most [n] of them
    line strings. *)
Definition linesAdded (n : nat) (b b' : GraphicBuilder.t) : Prop :=
  exists extra : list GraphicBuilder.Command,
    b' = GraphicBuilder.mk (GraphicBuilder.type b) (GraphicBuilder.placement b)
           (GraphicBuilder.pickableId b) (GraphicBuilder.commands b ++ extra)
    /\ forallb isLineCommand extra = true
    /\ lineStringsIn extra <= n.

(** The builder of the grid as [drawStandardGrid] has it before the lines:
    a world decoration that is not pickable, with the blanking fill and the
    shape of the plane. *)
Definition planeBuilder (transform : Transform.t) (planeColor : ColorDef.t)
    (shapePoints : list Point3d.t) : GraphicBuilder.t :=
  GraphicBuilder.mk GraphicType.WorldDecoration (Some transform) None
    [GraphicBuilder.SetBlankingFill planeColor; GraphicBuilder.AddShape shapePoints].

(** The plane colour of [drawStandardGrid], and the builder it has when it
    comes to the lines: the plane, offset by one pixel along the view z. *)
Definition gridPlaneColor `{GeometryCore} (vp : Viewport.t) (eyeDot : float) : ColorDef.t :=
  ColorDef_withTransparency
    (if PrimFloat.ltb eyeDot 0%float then ColorDef_red
     else Viewport.getContrastToBackgroundColor vp)
    gridConstants.planeTransparency.

Definition gridPlaneBuilder `{GeometryCore} (vp : Viewport.t) (eyeDot : float)
    (shapePoints : list Point3d.t) (meterPerPixel : float) : GraphicBuilder.t :=
  let viewZ := Viewport.rotation_getRow2 vp in
  let gridOffset :=
    Point3d.create (PrimFloat.mul (Vector3d.x viewZ) meterPerPixel)
                   (PrimFloat.mul (Vector3d.y viewZ) meterPerPixel)
                   (PrimFloat.mul (Vector3d.z viewZ) meterPerPixel) in
  planeBuilder (Transform_createTranslation gridOffset) (gridPlaneColor vp eyeDot) shapePoints.

(** The end of [drawStandardGrid]: the builder the lines leave goes to
    [addDecorationFromBuilder]; [None] while a loop is still running. *)
Definition gridDecorated `{BuildConfig} (this : DecorateContext.t)
    (lines : option GraphicBuilder.t) : option (DecorateContext.t * Completion unit) :=
  builder ← lines; Some (DecorateContext.addDecorationFromBuilder builder this).

(** The view z of a world point. *)
Definition viewZ (vp : Viewport.t) (p : Point3d.t) : float :=
  Point3d.z (Viewport.worldToView vp p).

(** A perspective view of the same square: the camera is on, and the view z
    of a point is its world x. *)
Module CameraView.
Definition viewport : Viewport.t := {|
  Viewport.isCameraOn := true;
  Viewport.worldToViewMap_transform1_columnZ := Point4d.create 0 0 1 0;
  Viewport.getFrustum := Viewport.getFrustum (TopView.viewport 1);
  Viewport.worldToView p := Point3d.create (Point3d.x p) (Point3d.y p) (Point3d.x p);
  Viewport.getPixelSizeAtPoint _ := 1%float;
  Viewport.rotation_getRow2 := Vector3d.create 0 0 1;
  Viewport.getContrastToBackgroundColor := ColorDef.fromTbgr 0;
  Viewport._decorationCache := ∅;
  Viewport.decorationDiv := [];
|}.
End CameraView.

(** Case analysis on every condition of a goal, reducing the matches the
    cases decide. *)
Ltac split_ifs :=
  repeat (match goal with
          | |- context [if ?b then _ else _] => destruct b eqn:?
          end; cbn beta iota zeta).

(** A view along the x axis, camera off: edge-on to the plane z = 0. *)
Module SideView.
Definition viewport : Viewport.t := {|
  Viewport.isCameraOn := false;
  Viewport.worldToViewMap_transform1_columnZ := Point4d.create 1 0 0 0;
  Viewport.getFrustum := Viewport.getFrustum (TopView.viewport 1);
  Viewport.worldToView p := p;
  Viewport.getPixelSizeAtPoint _ := 1%float;
  Viewport.rotation_getRow2 := Vector3d.create 1 0 0;
  Viewport.getContrastToBackgroundColor := ColorDef.fromTbgr 0;
  Viewport._decorationCache := ∅;
  Viewport.decorationDiv := [];
|}.

Definition context : DecorateContext.t := DecorateContext.new viewport Decorations.empty.
End SideView.

(** ** DynamicsContext *)

Module DynamicsContext.
Record t : Type := mk {
  _dynamics : option GraphicList;
  (** Observation of the viewport: the argument of each of its
      [changeDynamics] calls so far, as it was at the call, oldest first. *)
  changeDynamicsCalls : list (option GraphicList);
}.

(** [new DynamicsContext(vp)]. *)
Definition new : t := mk None [].

Definition addGraphic (graphic : RenderGraphic) : Js t unit :=
  js_modify (fun c => mk (pushOrCreate (_dynamics c) graphic) (changeDynamicsCalls c)).

(** [this.viewport.changeDynamics(this._dynamics)]. *)
Definition changeDynamics : Js t unit :=
  js_modify (fun c => mk (_dynamics c) (changeDynamicsCalls c ++ [_dynamics c])).

(** One [addGraphic] after another. *)
Fixpoint addGraphics (graphics : list RenderGraphic) : Js t unit :=
  match graphics with
  | [] => js_ret tt
  | g :: rest => (addGraphic g ;;; addGraphics rest)%js
  end.
End DynamicsContext.

(** ** The rest of SceneContext *)

Record RenderTextureDrape : Type := { drapeHandle : positive }.

Module TileTree.
(** Of a tile tree the context reads [modelId]. *)
Record t : Type := mk { modelId : Id64String }.
End TileTree.

(** The scene context with the fields and the surroundings that the
    operations modelled so far leave alone. *)
Module FullSceneContext.
Record t : Type := mk {
  base : SceneContext.t;
  modelClassifiers : gmap Id64String Id64String;
  (** [scene.textureDrapes] *)
  textureDrapes : gmap Id64String RenderTextureDrape;
  (** [scene.volumeClassifier] *)
  volumeClassifier : option (SpatialClassificationProps.Classifier * Id64String);
  (** [drapedTreeRef.treeOwner.tileTree]: undefined until the tree is loaded *)
  treeOwner_tileTree : TileTreeReference -> option TileTree.t;
  (** [viewport.target.getTextureDrape] *)
  getTextureDrape : Id64String -> option RenderTextureDrape;
  (** [viewport.displayStyle.backgroundDrapeMap] *)
  backgroundDrapeMap : TileTreeReference;
  (** [viewport.target.renderSystem.createBackgroundMapDrape] *)
  createBackgroundMapDrape : TileTreeReference -> TileTreeReference -> option RenderTextureDrape;
  (** Observation of the render system: the draped trees of its
      [createBackgroundMapDrape] calls so far, oldest first. *)
  createBackgroundMapDrapeCalls : list TileTreeReference;
  (** Observation of the tile admin: the tile sets of its [requestTiles]
      calls so far, as they were at the call, oldest first. *)
  requestTilesCalls : list (gset positive);
}.

(** [new SceneContext(vp)], in its surroundings. *)
Definition new (target : RenderTarget.t)
    (treeOwner_tileTree : TileTreeReference -> option TileTree.t)
    (getTextureDrape : Id64String -> option RenderTextureDrape)
    (backgroundDrapeMap : TileTreeReference)
    (createBackgroundMapDrape : TileTreeReference -> TileTreeReference
                                -> option RenderTextureDrape) : t :=
  mk (SceneContext.new target) ∅ ∅ None treeOwner_tileTree getTextureDrape backgroundDrapeMap
     createBackgroundMapDrape [] [].

Definition set_base (v : SceneContext.t) (c : t) : t :=
  mk v (modelClassifiers c) (textureDrapes c) (volumeClassifier c) (treeOwner_tileTree c)
     (getTextureDrape c) (backgroundDrapeMap c) (createBackgroundMapDrape c)
     (createBackgroundMapDrapeCalls c) (requestTilesCalls c).
Definition set_modelClassifiers (v : gmap Id64String Id64String) (c : t) : t :=
  mk (base c) v (textureDrapes c) (volumeClassifier c) (treeOwner_tileTree c)
     (getTextureDrape c) (backgroundDrapeMap c) (createBackgroundMapDrape c)
     (createBackgroundMapDrapeCalls c) (requestTilesCalls c).
Definition set_textureDrapes (v : gmap Id64String RenderTextureDrape) (c : t) : t :=
  mk (base c) (modelClassifiers c) v (volumeClassifier c) (treeOwner_tileTree c)
     (getTextureDrape c) (backgroundDrapeMap c) (createBackgroundMapDrape c)
     (createBackgroundMapDrapeCalls c) (requestTilesCalls c).
Definition set_volumeClassifier
    (v : option (SpatialClassificationProps.Classifier * Id64String)) (c : t) : t :=
  mk (base c) (modelClassifiers c) (textureDrapes c) v (treeOwner_tileTree c)
     (getTextureDrape c) (backgroundDrapeMap c) (createBackgroundMapDrape c)
     (createBackgroundMapDrapeCalls c) (requestTilesCalls c).
Definition set_createBackgroundMapDrapeCalls (v : list TileTreeReference) (c : t) : t :=
  mk (base c) (modelClassifiers c) (textureDrapes c) (volumeClassifier c)
     (treeOwner_tileTree c) (getTextureDrape c) (backgroundDrapeMap c)
     (createBackgroundMapDrape c) v (requestTilesCalls c).
Definition set_requestTilesCalls (v : list (gset positive)) (c : t) : t :=
  mk (base c) (modelClassifiers c) (textureDrapes c) (volumeClassifier c)
     (treeOwner_tileTree c) (getTextureDrape c) (backgroundDrapeMap c)
     (createBackgroundMapDrape c) (createBackgroundMapDrapeCalls c) v.

(** An operation of the fields modelled so far, run on this context. *)
Definition lift {A} (m : Js SceneContext.t A) : Js t A :=
  fun c => match m (base c) with (b', r) => (set_base b' c, r) end.

(** [IModelApp.tileAdmin.requestTiles(this.viewport, this.missingTiles)]. *)
Definition requestMissingTiles : Js t unit :=
  js_modify (fun c =>
    set_requestTilesCalls (requestTilesCalls c ++ [SceneContext.missingTiles (base c)]) c).

Definition getPlanarClassifierForModel (modelId : Id64String) (c : t)
    : option RenderPlanarClassifier :=
  let classifierId := modelClassifiers c !! modelId in
  match classifierId with
  | None => None
  | Some classifierId => SceneContext.planarClassifiers (base c) !! classifierId
  end.

Definition getTextureDrapeForModel (modelId : Id64String) (c : t)
    : option RenderTextureDrape :=
  textureDrapes c !! modelId.

(** The argument [_heightRange] is not read. *)
Definition addBackgroundDrapedModel (drapedTreeRef : TileTreeReference)
    : Js t (option RenderTextureDrape) :=
  fun c =>
    match treeOwner_tileTree c drapedTreeRef with
    | None => js_ret None c
    | Some drapedTree =>
        let id := TileTree.modelId drapedTree in
        match getTextureDrapeForModel id c with
        | Some drape => js_ret (Some drape) c
        | None =>
            (let! drape :=
               match getTextureDrape c id with
               | Some drape => js_ret (Some drape)
               | None =>
                   js_modify (fun c =>
                     set_createBackgroundMapDrapeCalls
                       (createBackgroundMapDrapeCalls c ++ [drapedTreeRef]) c) ;;;
                   js_ret (createBackgroundMapDrape c drapedTreeRef (backgroundDrapeMap c))
               end in
             match drape with
             | Some d =>
                 js_modify (fun c => set_textureDrapes (<[id := d]> (textureDrapes c)) c) ;;;
                 js_ret drape
             | None => js_ret drape
             end)%js c
        end
    end.

Definition setVolumeClassifier (classifier : SpatialClassificationProps.Classifier)
    (modelId : Id64String) : Js t unit :=
  js_modify (set_volumeClassifier (Some (classifier, modelId))).

(** A caller's [context.modelClassifiers.set(modelId, classifierId)]. *)
Definition modelClassifiers_set (modelId classifierId : Id64String) : Js t unit :=
  js_modify (fun c => set_modelClassifiers (<[modelId := classifierId]> (modelClassifiers c)) c).
End FullSceneContext.

(** The tiles a caller's calls insert with a status that counts as missing,
    by their handles, in the order of the calls. *)
Definition missingInserted (calls : list SceneContext.Call) : list positive :=
  omap (fun call =>
          match call with
          | SceneContext.CallInsertMissingTile tile =>
              if isMissingStatus (Tile.loadStatus tile) then Some (Tile.handle tile) else None
          | _ => None
          end) calls.

(** One [outputGraphic] after another. *)
Fixpoint outputGraphics (graphics : list RenderGraphic) : Js SceneContext.t unit :=
  match graphics with
  | [] => js_ret tt
  | g :: rest => (SceneContext.outputGraphic g ;;; outputGraphics rest)%js
  end.

(** The graphics that go to the list of [type'] when [graphics] are output
    under [type]. *)
Definition outputTo (type' type : TileGraphicType.t) (graphics : list RenderGraphic)
    : list RenderGraphic :=
  if bool_decide (type' = type) then graphics else [].

(** Surroundings for the examples: one loaded tree, whose drape the render
    system can create. *)
Module DrapeExample.
Definition loaded : TileTreeReference := {| treeHandle := 1 |}.
Definition unloaded : TileTreeReference := {| treeHandle := 2 |}.
Definition context : FullSceneContext.t :=
  FullSceneContext.new TopView.target
    (fun ref => if bool_decide (treeHandle ref = 1%positive)
                then Some (TileTree.mk "0x1c") else None)
    (fun _ => None)
    {| treeHandle := 3 |}
    (fun _ _ => Some {| drapeHandle := 1 |}).
End DrapeExample.

(** Case analysis on every condition of a goal. *)
Ltac split_conditionals :=
  repeat match goal with
         | |- context [if ?b then _ else _] => destruct b
         end.

(* ================================================================== *)
(** * Part II: facts *)
(* ================================================================== *)

(** ** Binary64 comparisons and the multiplication by one *)

Module FloatFacts.
Local Open Scope float_scope.

Lemma eqb_not_ltb (a b : float) : (a =? b) = true -> (a <? b) = false.
Proof.
  rewrite FloatAxioms.eqb_spec, FloatAxioms.ltb_spec. unfold SFeqb, SFltb.
  destruct (SFcompare (Prim2SF a) (Prim2SF b)) as [[]|]; congruence.
Qed.

Lemma SFcompare_antisym (x y : spec_float) :
  SFcompare y x = option_map CompOpp (SFcompare x y).
Proof.
  destruct x as [sx|sx| |sx mx ex], y as [sy|sy| |sy my ey]; simpl;
    try reflexivity; try (destruct sx; reflexivity); try (destruct sy; reflexivity);
    try (destruct sx, sy; reflexivity).
  destruct sx, sy; simpl; try reflexivity.
  - rewrite (Z.compare_antisym ey ex). destruct (ey ?= ex)%Z; simpl; try reflexivity.
    rewrite (Pos.compare_cont_antisym mx my Eq). simpl. reflexivity.
  - rewrite (Z.compare_antisym ey ex). destruct (ey ?= ex)%Z; simpl; try reflexivity.
    rewrite (Pos.compare_cont_antisym mx my Eq). simpl.
    destruct (Pos.compare_cont Eq mx my); reflexivity.
Qed.

Lemma leb_not_gtb (a b : float) : (a <=? b) = true -> (b <? a) = false.
Proof.
  rewrite FloatAxioms.leb_spec, FloatAxioms.ltb_spec. unfold SFleb, SFltb.
  rewrite (SFcompare_antisym (Prim2SF a) (Prim2SF b)).
  destruct (SFcompare (Prim2SF a) (Prim2SF b)) as [[]|]; simpl; congruence.
Qed.

Lemma zero_not_gt_one (g : float) : (0 =? g) = true -> (1 <? g) = false.
Proof.
  rewrite FloatAxioms.eqb_spec, FloatAxioms.ltb_spec. unfold SFeqb, SFltb.
  change (Prim2SF 0) with (S754_zero false).
  change (Prim2SF 1) with (S754_finite false 4503599627370496 (-52)).
  destruct (Prim2SF g) as [s|s| |s m e]; simpl; try congruence; destruct s; congruence.
Qed.

Lemma le_101_gt_10 (n : float) : (101 <=? n) = true -> (10 <? n) = true.
Proof.
  rewrite FloatAxioms.leb_spec, FloatAxioms.ltb_spec. unfold SFleb, SFltb.
  change (Prim2SF 101) with (S754_finite false 7107243161944064 (-46)).
  change (Prim2SF 10) with (S754_finite false 5629499534213120 (-49)).
  destruct (Prim2SF n) as [s|s| |s m e]; cbn [SFcompare].
  - discriminate.
  - destruct s; [discriminate|reflexivity].
  - discriminate.
  - destruct s; [discriminate|].
    destruct (Z.compare_spec (-46) e) as [He|He|He]; try discriminate.
    + subst e. reflexivity.
    + intros _. destruct (Z.compare_spec (-49) e) as [?|?|?]; [lia|reflexivity|lia].
Qed.

Lemma iter_shr_1_xO (k : nat) (m : positive) :
  Nat.iter k shr_1 {| shr_m := Zpos (Nat.iter k xO m); shr_r := false; shr_s := false |}
  = {| shr_m := Zpos m; shr_r := false; shr_s := false |}.
Proof.
  induction k as [|k IH]; [reflexivity|].
  rewrite Nat.iter_succ_r. simpl. exact IH.
Qed.

Lemma digits2_iter_xO (k : nat) (m : positive) :
  Zpos (digits2_pos (Nat.iter k xO m)) = (Zpos (digits2_pos m) + Z.of_nat k)%Z.
Proof.
  induction k as [|k IH]; [simpl; lia|].
  change (Nat.iter (S k) xO m) with (xO (Nat.iter k xO m)).
  change (digits2_pos (xO (Nat.iter k xO m))) with (Pos.succ (digits2_pos (Nat.iter k xO m))).
  rewrite Pos2Z.inj_succ, IH. lia.
Qed.

(** The mantissa of 1 is 2^52: the product shifts the other mantissa left
    by 52 bits, and rounding shifts it back without loss. *)
Lemma mul_1_r (x : float) : x * 1 = x.
Proof.
  apply Prim2SF_inj. rewrite mul_spec.
  pose proof (Prim2SF_valid x) as Hv.
  change (Prim2SF 1) with (S754_finite false 4503599627370496 (-52)).
  destruct (Prim2SF x) as [s|s| |s m e].
  - destruct s; reflexivity.
  - destruct s; reflexivity.
  - reflexivity.
  - cbn [valid_binary] in Hv. unfold bounded, canonical_mantissa in Hv.
    apply andb_prop in Hv as [Hc Hb]. apply Z.eqb_eq in Hc.
    unfold SF64mul, SFmul. rewrite Pos.mul_comm.
    change (4503599627370496 * m)%positive with (Nat.iter 52 xO m).
    unfold binary_round_aux, shr_fexp.
    cbn [Zdigits2 shr_record_of_loc].
    rewrite digits2_iter_xO.
    replace (Z.pos (digits2_pos m) + Z.of_nat 52 + (e + -52))%Z
      with (Z.pos (digits2_pos m) + e)%Z by lia.
    rewrite Hc.
    replace (e - (e + -52))%Z with 52%Z by lia.
    cbn [shr].
    change (SpecFloat.iter_pos shr_1 52 ?r) with (Nat.iter 52 shr_1 r).
    rewrite iter_shr_1_xO.
    cbn [shr_m loc_of_shr_record round_nearest_even Zdigits2].
    replace (e + -52 + 52)%Z with e by lia.
    rewrite Hc, Z.sub_diag. cbn [shr shr_m]. rewrite Hb.
    destruct s; reflexivity.
Qed.
End FloatFacts.

(** ** SceneContext *)

Module SceneContextFacts.
Import SceneContext.

Lemma set_missingTiles_same (c : t) : set_missingTiles (missingTiles c) c = c.
Proof. destruct c; reflexivity. Qed.

(** Every call of the context returns, and raises the children-loading
    flag exactly when it is [markChildrenLoading]. *)
Lemma perform_flag (call : Call) (c : t) :
  exists c', perform call c = (c', Returned tt)
             /\ _missingChildTiles c' = _missingChildTiles c || isMarkChildrenLoading call.
Proof.
  destruct call as [|tile|graphic|props tileTree classifiedTree]; cbn.
  - eexists; split; [reflexivity|]. cbn. symmetry. apply orb_true_r.
  - unfold insertMissingTile.
    destruct (Tile.loadStatus tile); eexists; (split; [reflexivity|]);
      cbn; symmetry; apply orb_false_r.
  - unfold outputGraphic.
    destruct (_graphicType c); eexists; (split; [reflexivity|]);
      cbn; symmetry; apply orb_false_r.
  - unfold js_bind, addPlanarClassifier.
    destruct (planarClassifiers c !! SpatialClassificationProps.modelId props);
      [eexists; split; [reflexivity|]; cbn; symmetry; apply orb_false_r|].
    destruct (RenderTarget.getPlanarClassifier (target c) _);
      [eexists; split; [reflexivity|]; cbn; symmetry; apply orb_false_r|].
    destruct (RenderTarget.createPlanarClassifier (target c) props);
      eexists; (split; [reflexivity|]); cbn; symmetry; apply orb_false_r.
Qed.

Lemma performAll_flag (calls : list Call) (c : t) :
  _missingChildTiles (fst (performAll calls c))
  = _missingChildTiles c || existsb isMarkChildrenLoading calls.
Proof.
  revert c. induction calls as [|call rest IH]; intros c; cbn.
  - symmetry; apply orb_false_r.
  - destruct (perform_flag call c) as (c' & Hc' & Hflag).
    unfold js_bind. rewrite Hc'. rewrite IH, Hflag. symmetry. apply orb_assoc.
Qed.

(** C2, as the code has it: [withGraphicType(type, func)] runs [func] on the
    context with the current graphic type set to [type]; when [func]
    returns, the previous type is put back; when [func] throws, the
    exception leaves [withGraphicType] at once, with the context as [func]
    left it.  While the type is [type], [outputGraphic] appends to the list
    that [type] stands for and to no other. *)
Theorem withGraphicType_scoped (type : TileGraphicType.t) (func : Js t unit) (c : t) :
  let started := set_graphicType type c in
  withGraphicType type func c =
    match func started with
    | (c', Returned _) => (set_graphicType (_graphicType c) c', Returned tt)
    | (c', Thrown e) => (c', Thrown e)
    end
  /\ _graphicType started = type
  /\ match func started with
     | (_, Returned _) => _graphicType (fst (withGraphicType type func c)) = _graphicType c
     | (c', Thrown _) => fst (withGraphicType type func c) = c'
     end
  /\ forall (graphic : RenderGraphic) (type' : TileGraphicType.t),
       snd (outputGraphic graphic started) = Returned tt
       /\ bucket type' (fst (outputGraphic graphic started))
          = if bool_decide (type' = type) then bucket type' c ++ [graphic] else bucket type' c.
Proof.
  cbn zeta.
  assert (Heq : withGraphicType type func c =
    match func (set_graphicType type c) with
    | (c', Returned _) => (set_graphicType (_graphicType c) c', Returned tt)
    | (c', Thrown e) => (c', Thrown e)
    end).
  { unfold withGraphicType, js_bind, js_modify.
    destruct (func (set_graphicType type c)) as [c' [[]|e]]; reflexivity. }
  split; [exact Heq|]. split; [reflexivity|]. split.
  - rewrite Heq. destruct (func (set_graphicType type c)) as [c' [[]|e]]; reflexivity.
  - intros graphic type'. unfold outputGraphic.
    destruct type, type'; (split; [reflexivity|]); reflexivity.
Qed.

(** C2, as the spec has it, fails: a callback that throws leaves the graphic
    type it was given in place. *)
Lemma withGraphicType_throw_not_restored :
  let c := SceneContext.new TopView.target in
  let r := withGraphicType TileGraphicType.Overlay (js_throw (ThrownError 1)) c in
  snd r = Thrown (ThrownError 1)
  /\ _graphicType c = TileGraphicType.Scene
  /\ _graphicType (fst r) = TileGraphicType.Overlay
  /\ _graphicType (fst r) <> _graphicType c.
Proof. cbn. repeat split; discriminate. Qed.

(** C8: [insertMissingTile] adds the tile to the missing tiles exactly when
    its load status is NotLoaded, Queued or Loading, and changes nothing
    otherwise; [hasMissingTiles] is true exactly when the set is not empty or
    the children-loading flag is up; and after any calls on a new context the
    flag is up exactly when one of them was [markChildrenLoading]. *)
Theorem insertMissingTile_hasMissingTiles (tile : Tile.t) (c : t) :
  insertMissingTile tile c =
    (if isMissingStatus (Tile.loadStatus tile)
     then set_missingTiles ({[Tile.handle tile]} ∪ missingTiles c) c
     else c, Returned tt)
  /\ hasMissingTiles c = _missingChildTiles c || negb (bool_decide (missingTiles c = ∅))
  /\ markChildrenLoading c = (set_missingChildTiles true c, Returned tt)
  /\ forall (calls : list Call) (target : RenderTarget.t),
       _missingChildTiles (fst (performAll calls (SceneContext.new target)))
       = existsb isMarkChildrenLoading calls.
Proof.
  split; [|split; [|split]].
  - unfold insertMissingTile. destruct (Tile.loadStatus tile); reflexivity.
  - unfold hasMissingTiles. f_equal.
    destruct (decide (missingTiles c = ∅)) as [He|Hne].
    + rewrite He, size_empty. rewrite bool_decide_eq_true_2 by reflexivity. reflexivity.
    + rewrite bool_decide_eq_false_2 by exact Hne.
      destruct (size (missingTiles c)) eqn:Hsize; [|reflexivity].
      exfalso. apply Hne. apply leibniz_equiv. apply size_empty_inv. exact Hsize.
  - reflexivity.
  - intros calls target. rewrite performAll_flag. reflexivity.
Qed.

(** C9: [addPlanarClassifier] returns the classifier the scene already holds
    for the model id, touching nothing; otherwise it takes the target's
    classifier for the id, or else the one the target creates, records it in
    the scene's map, has it collect its graphics, and returns it; when the
    target has none and creates none, it returns undefined and touches
    nothing.  A second call for the same properties returns what the first
    returned and collects nothing again. *)
Theorem addPlanarClassifier_memoized (props : SpatialClassificationProps.Classifier)
    (tileTree classifiedTree : TileTreeReference) (c : t) :
  let id := SpatialClassificationProps.modelId props in
  addPlanarClassifier props tileTree classifiedTree c =
    match planarClassifiers c !! id with
    | Some classifier => (c, Returned (Some classifier))
    | None =>
        match match RenderTarget.getPlanarClassifier (target c) id with
              | Some held => Some held
              | None => RenderTarget.createPlanarClassifier (target c) props
              end with
        | Some classifier =>
            (set_collectGraphicsCalls
               (collectGraphicsCalls c ++ [(classifier, classifiedTree, tileTree)])
               (set_scene
                  (Scene.set_planarClassifiers (<[id := classifier]> (planarClassifiers c))
                     (scene c)) c),
             Returned (Some classifier))
        | None => (c, Returned None)
        end
    end
  /\ forall tileTree' classifiedTree' : TileTreeReference,
       addPlanarClassifier props tileTree' classifiedTree'
         (fst (addPlanarClassifier props tileTree classifiedTree c))
       = (fst (addPlanarClassifier props tileTree classifiedTree c),
          snd (addPlanarClassifier props tileTree classifiedTree c)).
Proof.
  cbn zeta. set (id := SpatialClassificationProps.modelId props).
  assert (Heq : addPlanarClassifier props tileTree classifiedTree c =
    match planarClassifiers c !! id with
    | Some classifier => (c, Returned (Some classifier))
    | None =>
        match match RenderTarget.getPlanarClassifier (target c) id with
              | Some held => Some held
              | None => RenderTarget.createPlanarClassifier (target c) props
              end with
        | Some classifier =>
            (set_collectGraphicsCalls
               (collectGraphicsCalls c ++ [(classifier, classifiedTree, tileTree)])
               (set_scene
                  (Scene.set_planarClassifiers (<[id := classifier]> (planarClassifiers c))
                     (scene c)) c),
             Returned (Some classifier))
        | None => (c, Returned None)
        end
    end).
  { unfold addPlanarClassifier. fold id.
    destruct (planarClassifiers c !! id); [reflexivity|].
    destruct (RenderTarget.getPlanarClassifier (target c) id); [reflexivity|].
    destruct (RenderTarget.createPlanarClassifier (target c) props); reflexivity. }
  split; [exact Heq|].
  intros tileTree' classifiedTree'. rewrite Heq.
  destruct (planarClassifiers c !! id) as [held|] eqn:Hmap.
  - cbn [fst snd]. unfold addPlanarClassifier. fold id. rewrite Hmap. reflexivity.
  - destruct (match RenderTarget.getPlanarClassifier (target c) id with
              | Some held => Some held
              | None => RenderTarget.createPlanarClassifier (target c) props
              end) as [classifier|] eqn:Hobtain.
    + cbn [fst snd]. unfold addPlanarClassifier. fold id.
      cbn [planarClassifiers scene set_collectGraphicsCalls set_scene
           Scene.planarClassifiers Scene.set_planarClassifiers].
      unfold planarClassifiers. rewrite lookup_insert_eq. reflexivity.
    + cbn [fst snd]. unfold addPlanarClassifier. fold id. rewrite Hmap.
      destruct (RenderTarget.getPlanarClassifier (target c) id); [discriminate|].
      rewrite Hobtain. reflexivity.
Qed.
End SceneContextFacts.

(** ** The state monad *)

Lemma js_try_finally_fst {S A} (body : Js S A) (cleanup : S -> S) (s : S) :
  fst (js_try_finally body cleanup s) = cleanup (fst (body s)).
Proof. unfold js_try_finally. destruct (body s); reflexivity. Qed.

Lemma js_try_finally_snd {S A} (body : Js S A) (cleanup : S -> S) (s : S) :
  snd (js_try_finally body cleanup s) = snd (body s).
Proof. unfold js_try_finally. destruct (body s); reflexivity. Qed.

(** ** DecorateContext: the add-paths *)

Module DecorateContextFacts.
Import DecorateContext.

Section WithConfig.
Context `{BuildConfig}.

Lemma is_Some_slot_true (c : t) (h : positive) :
  _curCacheableDecorator c = Some h ->
  bool_decide (is_Some (_curCacheableDecorator c)) = true.
Proof. intros ->. apply bool_decide_eq_true_2. eauto. Qed.

Lemma is_Some_slot_false (c : t) :
  _curCacheableDecorator c = None ->
  bool_decide (is_Some (_curCacheableDecorator c)) = false.
Proof. intros ->. apply bool_decide_eq_false_2. intros [? ?]; discriminate. Qed.

Lemma appendToCache_recording (h : positive) (e : CachedDecoration) (c : t) :
  _curCacheableDecorator c = Some h ->
  _appendToCache e c = (recordOne h e c, Returned tt).
Proof.
  intros Hslot. unfold _appendToCache, js_bind, js_assert.
  rewrite (is_Some_slot_true c h Hslot), andb_false_r.
  unfold js_ret, js_modify, recordOne. rewrite Hslot. reflexivity.
Qed.

Lemma insertion_rule (dec : CanvasDecoration) (atFront : bool) (l : list CanvasDecoration) :
  (if Nat.eqb 0 (length l) || bool_decide (atFront = true) then l ++ [dec] else dec :: l)
  = insertCanvas dec atFront l.
Proof. destruct l, atFront; reflexivity. Qed.

(** An add-call while nothing is recorded. *)
Lemma perform_idle (call : DecorateCall) (c : t) :
  _curCacheableDecorator c = None ->
  perform call c =
    match call with
    | CallThrow e => (c, Thrown e)
    | _ => (match plainEntryOf call with
            | Some e => restoreOne e c
            | None => directSet call c
            end, Returned tt)
    end.
Proof.
  intros Hslot.
  destruct call as [b|type g|dec atFront|el|g|g|e]; cbn [perform plainEntryOf directSet restoreOne].
  - unfold addDecorationFromBuilder, addDecoration, js_bind.
    rewrite (is_Some_slot_false c Hslot). cbn.
    destruct (GraphicBuilder.type b); reflexivity.
  - unfold addDecoration, js_bind. rewrite (is_Some_slot_false c Hslot). cbn.
    destruct type; reflexivity.
  - unfold addCanvasDecoration, js_bind. rewrite (is_Some_slot_false c Hslot). cbn.
    unfold placeCanvas. rewrite <- insertion_rule. reflexivity.
  - unfold addHtmlDecoration, js_bind. rewrite (is_Some_slot_false c Hslot). reflexivity.
  - reflexivity.
  - reflexivity.
  - reflexivity.
Qed.

(** An add-call while [h] is recorded. *)
Lemma perform_recording (h : positive) (call : DecorateCall) (c : t) :
  _curCacheableDecorator c = Some h ->
  perform call c =
    match call with
    | CallThrow e => (c, Thrown e)
    | _ => (match entryOf call with
            | Some e => restoreOne e (recordOne h e c)
            | None => directSet call c
            end, Returned tt)
    end.
Proof.
  intros Hslot.
  destruct call as [b|type g|dec atFront|el|g|g|e]; cbn [perform entryOf directSet restoreOne].
  - unfold addDecorationFromBuilder, addDecoration, js_bind.
    rewrite (is_Some_slot_true c h Hslot).
    rewrite (appendToCache_recording h _ c Hslot). cbn.
    destruct (GraphicBuilder.type b); reflexivity.
  - unfold addDecoration, js_bind. rewrite (is_Some_slot_true c h Hslot).
    rewrite (appendToCache_recording h _ c Hslot). cbn.
    destruct type; reflexivity.
  - unfold addCanvasDecoration, js_bind. rewrite (is_Some_slot_true c h Hslot).
    rewrite (appendToCache_recording h _ c Hslot). cbn.
    unfold placeCanvas. rewrite <- insertion_rule. reflexivity.
  - unfold addHtmlDecoration, js_bind. rewrite (is_Some_slot_true c h Hslot).
    rewrite (appendToCache_recording h _ c Hslot). reflexivity.
  - reflexivity.
  - reflexivity.
  - reflexivity.
Qed.

(** Restoring happens while nothing is recorded: each entry goes through
    its add-path and lands in the frame, in the stored order. *)
Lemma restoreCache_idle (es : list CachedDecoration) (c : t) :
  _curCacheableDecorator c = None ->
  restoreCache es c = (fold_left (fun c e => restoreOne e c) es c, Returned tt).
Proof.
  revert c. induction es as [|e es IH]; intros c Hslot; [reflexivity|].
  cbn [restoreCache fold_left]. unfold js_bind.
  assert (Hstep :
    match e with
    | CachedGraphic graphicOwner graphicType => addDecoration graphicType graphicOwner
    | CachedCanvas canvasDecoration atFront => addCanvasDecoration canvasDecoration (Some atFront)
    | CachedHtml htmlElement => addHtmlDecoration htmlElement
    end c = (restoreOne e c, Returned tt)).
  { destruct e as [g type|dec atFront|el].
    - exact (perform_idle (CallAddDecoration type g) c Hslot).
    - exact (perform_idle (CallAddCanvasDecoration dec (Some atFront)) c Hslot).
    - exact (perform_idle (CallAddHtmlDecoration el) c Hslot). }
  rewrite Hstep. apply IH. destruct e; exact Hslot.
Qed.

Lemma performAll_idle (calls : list DecorateCall) (c : t) :
  _curCacheableDecorator c = None ->
  fst (performAll calls c) = fold_left (fun c call => stepIdle call c) (callsMade calls) c.
Proof.
  revert c. induction calls as [|call rest IH]; intros c Hslot; [reflexivity|].
  cbn [performAll]. unfold js_bind. rewrite (perform_idle call c Hslot).
  destruct call; cbn [callsMade fold_left fst]; try reflexivity;
    (rewrite IH; [reflexivity|]); cbn; exact Hslot.
Qed.

Lemma performAll_recording (h : positive) (calls : list DecorateCall) (c : t) :
  _curCacheableDecorator c = Some h ->
  fst (performAll calls c)
  = fold_left (fun c call => stepRecording h call c) (callsMade calls) c.
Proof.
  revert c. induction calls as [|call rest IH]; intros c Hslot; [reflexivity|].
  cbn [performAll]. unfold js_bind. rewrite (perform_recording h call c Hslot).
  destruct call; cbn [callsMade fold_left fst]; try reflexivity;
    (rewrite IH; [reflexivity|]); cbn; exact Hslot.
Qed.

(** What a step leaves alone. *)
Lemma stepIdle_keeps (call : DecorateCall) (c : t) :
  _curCacheableDecorator (stepIdle call c) = _curCacheableDecorator c
  /\ cacheOf (stepIdle call c) = cacheOf c
  /\ decorateEntered (stepIdle call c) = decorateEntered c.
Proof. destruct call as [b|type g|dec atFront|el|g|g|e]; repeat split; reflexivity. Qed.

Lemma fold_stepIdle_keeps (calls : list DecorateCall) (c : t) :
  let c' := fold_left (fun c call => stepIdle call c) calls c in
  _curCacheableDecorator c' = _curCacheableDecorator c
  /\ cacheOf c' = cacheOf c
  /\ decorateEntered c' = decorateEntered c.
Proof.
  revert c. induction calls as [|call rest IH]; intros c; [repeat split|].
  cbn [fold_left]. cbn zeta in IH.
  destruct (IH (stepIdle call c)) as (H1 & H2 & H3).
  destruct (stepIdle_keeps call c) as (K1 & K2 & K3).
  cbn zeta. rewrite H1, H2, H3. auto.
Qed.

Lemma addCachedDecoration_lookup (h : positive) (e : CachedDecoration)
    (vp : Viewport.t) :
  Viewport._decorationCache (Viewport.addCachedDecoration (Some h) e vp)
    !! Some (h)
  = appendEntries (Viewport._decorationCache vp !! Some (h)) [e].
Proof.
  unfold Viewport.addCachedDecoration. cbn. rewrite lookup_insert_eq. reflexivity.
Qed.

Lemma appendEntries_snoc (old : option (list CachedDecoration)) (e : CachedDecoration)
    (es : list CachedDecoration) :
  appendEntries (appendEntries old [e]) es = appendEntries old (e :: es).
Proof.
  destruct es as [|e' es]; [reflexivity|]. cbn. rewrite <- app_assoc. reflexivity.
Qed.

Lemma stepRecording_keeps (h : positive) (call : DecorateCall) (c : t) :
  _curCacheableDecorator (stepRecording h call c) = _curCacheableDecorator c
  /\ decorateEntered (stepRecording h call c) = decorateEntered c
  /\ cacheOf (stepRecording h call c) !! Some (h)
     = appendEntries (cacheOf c !! Some (h))
         (option_list (entryOf call)).
Proof.
  unfold stepRecording.
  destruct call as [b|type g|dec atFront|el|g|g|e]; cbn [entryOf option_list];
    (split; [reflexivity|split; [reflexivity|]]); try reflexivity;
    apply addCachedDecoration_lookup.
Qed.

Lemma fold_stepRecording_keeps (h : positive) (calls : list DecorateCall) (c : t) :
  let c' := fold_left (fun c call => stepRecording h call c) (callsMade calls) c in
  _curCacheableDecorator c' = _curCacheableDecorator c
  /\ decorateEntered c' = decorateEntered c
  /\ cacheOf c' !! Some (h)
     = appendEntries (cacheOf c !! Some (h)) (entriesOf calls).
Proof.
  revert c. induction calls as [|call rest IH]; intros c; [repeat split|].
  assert (Hcons : forall c0,
    (let c' := fold_left (fun c call => stepRecording h call c) (callsMade rest)
                 (stepRecording h call c0) in
     _curCacheableDecorator c' = _curCacheableDecorator c0
     /\ decorateEntered c' = decorateEntered c0
     /\ cacheOf c' !! Some (h)
        = appendEntries (cacheOf c0 !! Some (h))
            (option_list (entryOf call) ++ entriesOf rest))).
  { intros c0. cbn zeta.
    destruct (IH (stepRecording h call c0)) as (H1 & H2 & H3).
    destruct (stepRecording_keeps h call c0) as (K1 & K2 & K3).
    rewrite H1, H2, H3, K1, K2, K3. repeat split.
    destruct (entryOf call) as [e|]; cbn [option_list app]; [|reflexivity].
    apply appendEntries_snoc. }
  destruct call; cbn [callsMade entriesOf fold_left]; try apply Hcons.
  repeat split.
Qed.

Lemma length_entriesOf (calls : list DecorateCall) :
  length (entriesOf calls) = addCallsMade calls.
Proof.
  induction calls as [|call rest IH]; [reflexivity|].
  destruct call; cbn [entriesOf addCallsMade isAddCall entryOf option_list];
    rewrite ?length_app; cbn [length]; rewrite ?IH; reflexivity.
Qed.

(** The ordered decorations after a restored entry depend on the ordered
    decorations before it alone. *)
Lemma ordering_restoreOne (e : CachedDecoration) (c : t) :
  decorationOrdering (restoreOne e c) = applyOrdering e (decorationOrdering c).
Proof. destruct e as [g type|dec atFront|el]; [destruct type|..]; reflexivity. Qed.

Lemma ordering_stepRecording (h : positive) (call : DecorateCall) (c : t) :
  decorationOrdering (stepRecording h call c)
  = fold_left (fun o e => applyOrdering e o) (option_list (entryOf call))
      (decorationOrdering c).
Proof.
  unfold stepRecording.
  destruct call as [b|type g|dec atFront|el|g|g|e]; cbn [entryOf option_list fold_left];
    try reflexivity; rewrite ordering_restoreOne; reflexivity.
Qed.

Lemma ordering_recorded (h : positive) (calls : list DecorateCall) (c : t) :
  decorationOrdering (fold_left (fun c call => stepRecording h call c) (callsMade calls) c)
  = fold_left (fun o e => applyOrdering e o) (entriesOf calls) (decorationOrdering c).
Proof.
  revert c. induction calls as [|call rest IH]; intros c; [reflexivity|].
  assert (Hcons :
    decorationOrdering
      (fold_left (fun c call => stepRecording h call c) (callsMade rest)
         (stepRecording h call c))
    = fold_left (fun o e => applyOrdering e o) (option_list (entryOf call) ++ entriesOf rest)
        (decorationOrdering c)).
  { rewrite IH, ordering_stepRecording, fold_left_app. reflexivity. }
  destruct call; cbn [callsMade entriesOf fold_left]; try exact Hcons. reflexivity.
Qed.

Lemma ordering_restored (es : list CachedDecoration) (c : t) :
  decorationOrdering (fold_left (fun c e => restoreOne e c) es c)
  = fold_left (fun o e => applyOrdering e o) es (decorationOrdering c).
Proof.
  revert c. induction es as [|e es IH]; intros c; [reflexivity|].
  cbn [fold_left]. rewrite IH, ordering_restoreOne. reflexivity.
Qed.

Lemma frame_restoreOne (e : CachedDecoration) (c r : t) :
  frame c = frame r -> frame (restoreOne e c) = frame (restoreOne e r).
Proof.
  unfold frame. intros Heq. injection Heq as Hd Hdiv.
  destruct e as [g type|dec atFront|el]; cbn; rewrite ?Hd, ?Hdiv; reflexivity.
Qed.

Lemma frame_recordOne (h : positive) (e : CachedDecoration) (c : t) :
  frame (recordOne h e c) = frame c.
Proof. reflexivity. Qed.

Lemma frame_recorded (h : positive) (calls : list DecorateCall) (c r : t) :
  existsb isDirectSet (callsMade calls) = false ->
  frame c = frame r ->
  frame (fold_left (fun c call => stepRecording h call c) (callsMade calls) c)
  = frame (fold_left (fun c e => restoreOne e c) (entriesOf calls) r).
Proof.
  revert c r. induction calls as [|call rest IH]; intros c r Hno Heq; [exact Heq|].
  destruct call as [b|type g|dec atFront|el|g|g|e];
    cbn [callsMade entriesOf entryOf option_list app fold_left existsb isDirectSet orb] in *;
    try discriminate; try exact Heq;
    (apply IH; [exact Hno|]); unfold stepRecording; cbn [entryOf];
    (etransitivity; [apply frame_restoreOne; apply frame_recordOne|]);
    apply frame_restoreOne; exact Heq.
Qed.

(** ** [addFromDecorator], case by case *)

Lemma entry_assert (c : t) :
  entryAssertionPasses c ->
  js_assert assertionsEnabled (bool_decide (_curCacheableDecorator c = None)) c
  = (c, Returned tt).
Proof.
  unfold js_assert. intros [Hoff|Hidle].
  - rewrite Hoff. reflexivity.
  - rewrite bool_decide_eq_true_2 by exact Hidle. rewrite andb_false_r. reflexivity.
Qed.

Lemma addFromDecorator_uncached (d : ViewportDecorator.t t) (c : t) :
  entryAssertionPasses c ->
  truthy (ViewportDecorator.useCachedDecorations d) = false ->
  addFromDecorator d c
  = (set_curCacheableDecorator None (fst (decorate d c)), snd (decorate d c)).
Proof.
  intros Hassert Hoff. unfold addFromDecorator, js_bind.
  rewrite (entry_assert c Hassert). unfold js_try_finally, js_bind. rewrite Hoff.
  cbn [js_ret]. destruct (decorate d c); reflexivity.
Qed.

Lemma addFromDecorator_replay (d : ViewportDecorator.t t) (cached : list CachedDecoration)
    (c : t) :
  _curCacheableDecorator c = None ->
  truthy (ViewportDecorator.useCachedDecorations d) = true ->
  Viewport.getCachedDecorations (viewport c) d = Some cached ->
  addFromDecorator d c = restoreCache cached c.
Proof.
  intros Hidle Hon Hcached. unfold addFromDecorator, js_bind.
  rewrite (entry_assert c (or_intror Hidle)). unfold js_try_finally, js_bind.
  rewrite Hon, Hcached. rewrite (restoreCache_idle cached c Hidle). cbn [js_ret].
  f_equal.
  assert (Hkeep : forall es c0, _curCacheableDecorator c0 = None ->
            _curCacheableDecorator (fold_left (fun c e => restoreOne e c) es c0) = None).
  { induction es as [|e es IH]; intros c0 H0; [exact H0|].
    cbn [fold_left]. apply IH. destruct e; exact H0. }
  specialize (Hkeep cached c Hidle).
  destruct (fold_left (fun c e => restoreOne e c) cached c) as [slot decs vp entered].
  cbn in Hkeep. subst slot. reflexivity.
Qed.

Lemma addFromDecorator_record (d : ViewportDecorator.t t) (c : t) :
  _curCacheableDecorator c = None ->
  truthy (ViewportDecorator.useCachedDecorations d) = true ->
  Viewport.getCachedDecorations (viewport c) d = None ->
  addFromDecorator d c
  = (set_curCacheableDecorator None
       (fst (decorate d (set_curCacheableDecorator (Some (ViewportDecorator.handle d)) c))),
     snd (decorate d (set_curCacheableDecorator (Some (ViewportDecorator.handle d)) c))).
Proof.
  intros Hidle Hon Hnone. unfold addFromDecorator, js_bind.
  rewrite (entry_assert c (or_intror Hidle)). unfold js_try_finally, js_bind.
  rewrite Hon, Hnone. cbn [js_modify js_ret].
  destruct (decorate d (set_curCacheableDecorator (Some (ViewportDecorator.handle d)) c));
    reflexivity.
Qed.

Lemma timesDecorated_entered (d : ViewportDecorator.t t) (c c' : t) :
  decorateEntered c' = decorateEntered c ++ [ViewportDecorator.handle d] ->
  timesDecorated c' d = timesDecorated c d + 1.
Proof.
  unfold timesDecorated. intros ->. rewrite filter_app, length_app. f_equal.
  cbn. rewrite decide_True by reflexivity. reflexivity.
Qed.

Lemma fold_restoreOne_keeps (es : list CachedDecoration) (c : t) :
  let c' := fold_left (fun c e => restoreOne e c) es c in
  _curCacheableDecorator c' = _curCacheableDecorator c
  /\ cacheOf c' = cacheOf c
  /\ decorateEntered c' = decorateEntered c.
Proof.
  revert c. induction es as [|e es IH]; intros c; [repeat split|].
  cbn [fold_left]. cbn zeta in *. destruct (IH (restoreOne e c)) as (H1 & H2 & H3).
  rewrite H1, H2, H3. destruct e; repeat split.
Qed.

(** What one invocation of a decorator that does not cache does, when its
    [decorate] makes the calls [calls]. *)
Lemma addFromDecorator_uncached_effect (h : positive) (flag : option bool)
    (calls : list DecorateCall) (c : t) :
  _curCacheableDecorator c = None ->
  truthy flag = false ->
  let c1 := fst (addFromDecorator (scripted h flag calls) c) in
  _curCacheableDecorator c1 = None
  /\ cacheOf c1 = cacheOf c
  /\ decorateEntered c1 = decorateEntered c ++ [h].
Proof.
  intros Hidle Hoff. cbn zeta.
  rewrite (addFromDecorator_uncached (scripted h flag calls) c (or_intror Hidle) Hoff).
  cbn [fst]. split; [reflexivity|].
  unfold decorate, js_bind, js_modify. cbn [scripted ViewportDecorator.handle
    ViewportDecorator.decorate].
  set (cL := set_decorateEntered (decorateEntered c ++ [h]) c).
  assert (HL : _curCacheableDecorator cL = None) by exact Hidle.
  rewrite (surjective_pairing (performAll calls cL)). cbn [fst].
  rewrite (performAll_idle _ cL HL).
  destruct (fold_stepIdle_keeps (callsMade calls) cL) as (_ & K2 & K3).
  split; [exact K2|exact K3].
Qed.

(** What the first invocation of a caching decorator does, when its
    [decorate] makes the calls [calls]. *)
Lemma addFromDecorator_record_effect (h : positive) (flag : option bool)
    (calls : list DecorateCall) (c : t) :
  _curCacheableDecorator c = None ->
  truthy flag = true ->
  Viewport.getCachedDecorations (viewport c) (scripted h flag calls) = None ->
  let c1 := fst (addFromDecorator (scripted h flag calls) c) in
  let es := entriesOf calls in
  _curCacheableDecorator c1 = None
  /\ decorateEntered c1 = decorateEntered c ++ [h]
  /\ Viewport.getCachedDecorations (viewport c1) (scripted h flag calls)
     = appendEntries None es
  /\ decorationOrdering c1
     = fold_left (fun o e => applyOrdering e o) es (decorationOrdering c)
  /\ forall r, existsb isDirectSet (callsMade calls) = false ->
       frame r = frame c ->
       frame c1 = frame (fold_left (fun c e => restoreOne e c) es r).
Proof.
  intros Hidle Hon Hnone. cbn zeta.
  rewrite (addFromDecorator_record (scripted h flag calls) c Hidle Hon Hnone). cbn [fst].
  split; [reflexivity|].
  unfold decorate, js_bind, js_modify. cbn [scripted ViewportDecorator.handle
    ViewportDecorator.decorate].
  set (cL := set_decorateEntered (decorateEntered c ++ [h])
               (set_curCacheableDecorator (Some h) c)).
  assert (HL : _curCacheableDecorator cL = Some h) by reflexivity.
  rewrite (surjective_pairing (performAll calls cL)). cbn [fst].
  rewrite (performAll_recording h _ cL HL).
  destruct (fold_stepRecording_keeps h calls cL) as (_ & K2 & K3).
  split; [exact K2|]. split.
  { unfold Viewport.getCachedDecorations. cbn. unfold cacheOf in K3. rewrite K3.
    unfold Viewport.getCachedDecorations in Hnone. cbn in Hnone |- *. rewrite Hnone.
    reflexivity. }
  split.
  { exact (ordering_recorded h calls cL). }
  intros r Hno Hframe.
  exact (frame_recorded h calls cL r Hno (eq_sym Hframe)).
Qed.

(** C1, as the code has it: [addCanvasDecoration] pushes the decoration at
    the end of the list when the list is empty or [atFront] is true, and
    puts it at the start otherwise; three decorations added to a new
    context with [atFront] false, false and true end up in the order
    second, first, third. *)
Theorem addCanvasDecoration_order (decoration : CanvasDecoration) (atFront : option bool)
    (c : t) (vp : Viewport.t) (d1 d2 d3 : CanvasDecoration) :
  (let list := default [] (Decorations.canvasDecorations (_decorations c)) in
   Decorations.canvasDecorations
     (_decorations (fst (addCanvasDecoration decoration atFront c)))
   = Some (if bool_decide (list = []) || default false atFront
           then list ++ [decoration]
           else decoration :: list))
  /\ snd (addThreeCanvasDecorations d1 d2 d3 (DecorateContext.new vp Decorations.empty))
     = Returned tt
  /\ Decorations.canvasDecorations
       (_decorations
          (fst (addThreeCanvasDecorations d1 d2 d3
                  (DecorateContext.new vp Decorations.empty))))
     = Some [d2; d1; d3].
Proof.
  split.
  - cbn zeta.
    assert (Hrule : forall l : list CanvasDecoration,
      insertCanvas decoration (default false atFront) l
      = if bool_decide (l = []) || default false atFront
        then l ++ [decoration] else decoration :: l).
    { intros [|x l]; [reflexivity|].
      rewrite bool_decide_eq_false_2 by discriminate. reflexivity. }
    rewrite <- Hrule.
    destruct (_curCacheableDecorator c) as [h|] eqn:Hslot.
    + pose proof (perform_recording h (CallAddCanvasDecoration decoration atFront) c Hslot)
        as Hp. cbn [perform entryOf] in Hp. rewrite Hp. reflexivity.
    + pose proof (perform_idle (CallAddCanvasDecoration decoration atFront) c Hslot) as Hp.
      cbn [perform plainEntryOf] in Hp. rewrite Hp. reflexivity.
  - assert (Hrun :
      addThreeCanvasDecorations d1 d2 d3 (DecorateContext.new vp Decorations.empty)
      = (fold_left (fun c call => stepIdle call c)
           [CallAddCanvasDecoration d1 (Some false); CallAddCanvasDecoration d2 (Some false);
            CallAddCanvasDecoration d3 (Some true)]
           (DecorateContext.new vp Decorations.empty), Returned tt)).
    { unfold addThreeCanvasDecorations, js_bind.
      pose proof (perform_idle (CallAddCanvasDecoration d1 (Some false))) as P1.
      pose proof (perform_idle (CallAddCanvasDecoration d2 (Some false))) as P2.
      pose proof (perform_idle (CallAddCanvasDecoration d3 (Some true))) as P3.
      cbn [perform] in P1, P2, P3.
      rewrite P1 by reflexivity. rewrite P2 by reflexivity. rewrite P3 by reflexivity.
      reflexivity. }
    rewrite Hrun. split; reflexivity.
Qed.

(** Re-entering [addFromDecorator] while a decorator is active is the one
    way past the [finally]: the entry assertion, when enabled, throws before
    the [try], and the context stays as it was. *)
Lemma addFromDecorator_reentered (d : ViewportDecorator.t t) (active : positive) (c : t) :
  assertionsEnabled = true ->
  _curCacheableDecorator c = Some active ->
  addFromDecorator d c = (c, Thrown AssertionError).
Proof.
  intros Hon Hactive. unfold addFromDecorator, js_bind, js_assert.
  rewrite Hon, bool_decide_eq_false_2 by (rewrite Hactive; discriminate). reflexivity.
Qed.

(** C4: an invocation of [addFromDecorator] that gets past its entry
    assertion leaves no decorator in the slot, whatever [decorate] does to
    the context and however it ends; the entry assertion of the next
    invocation passes, and so on for any further decorators run on the same
    context. *)
Theorem addFromDecorator_releases (d : ViewportDecorator.t t) (c : t) :
  entryAssertionPasses c ->
  let c1 := fst (addFromDecorator d c) in
  _curCacheableDecorator c1 = None
  /\ js_assert assertionsEnabled (bool_decide (_curCacheableDecorator c1 = None)) c1
     = (c1, Returned tt)
  /\ forall rest : list (ViewportDecorator.t t),
       _curCacheableDecorator (addFromDecorators (d :: rest) c) = None.
Proof.
  assert (Hone : forall d0 c0, entryAssertionPasses c0 ->
            _curCacheableDecorator (fst (addFromDecorator d0 c0)) = None).
  { intros d0 c0 Hpass. unfold addFromDecorator, js_bind.
    rewrite (entry_assert c0 Hpass). rewrite js_try_finally_fst. reflexivity. }
  intros Hpass. cbn zeta. split; [exact (Hone d c Hpass)|]. split.
  - apply entry_assert. right. exact (Hone d c Hpass).
  - intros rest. cbn [addFromDecorators].
    generalize (Hone d c Hpass). generalize (fst (addFromDecorator d c)).
    induction rest as [|d' rest IH]; intros c0 H0; [exact H0|].
    cbn [addFromDecorators]. apply IH. apply Hone. right. exact H0.
Qed.

(** The log of the decorators entered is no concern of the add-paths: a
    call made on a context with another log does the same, and leaves that
    log. *)
Lemma stepIdle_logged (l : list positive) (call : DecorateCall) (c : t) :
  stepIdle call (set_decorateEntered l c) = set_decorateEntered l (stepIdle call c).
Proof. destruct call as [b|type g|dec atFront|el|g|g|e]; reflexivity. Qed.

Lemma perform_logged (l : list positive) (call : DecorateCall) (c : t) :
  _curCacheableDecorator c = None ->
  perform call (set_decorateEntered l c)
  = (set_decorateEntered l (fst (perform call c)), snd (perform call c)).
Proof.
  intros Hslot.
  rewrite (perform_idle call (set_decorateEntered l c) Hslot), (perform_idle call c Hslot).
  pose proof (stepIdle_logged l call c) as Hstep. unfold stepIdle in Hstep.
  destruct call as [b|type g|dec atFront|el|g|g|e]; cbn [fst snd];
    try (rewrite Hstep; reflexivity).
  reflexivity.
Qed.

Lemma performAll_logged (l : list positive) (calls : list DecorateCall) (c : t) :
  _curCacheableDecorator c = None ->
  performAll calls (set_decorateEntered l c)
  = (set_decorateEntered l (fst (performAll calls c)), snd (performAll calls c)).
Proof.
  revert c. induction calls as [|call rest IH]; intros c Hslot; [reflexivity|].
  cbn [performAll]. unfold js_bind. rewrite (perform_logged l call c Hslot).
  rewrite (perform_idle call c Hslot).
  destruct call as [b|type g|dec atFront|el|g|g|e]; cbn [fst snd plainEntryOf];
    try (apply IH; exact Hslot).
  reflexivity.
Qed.

Lemma frame_logged (l : list positive) (c : t) :
  frame (set_curCacheableDecorator None (set_decorateEntered l c)) = frame c.
Proof. reflexivity. Qed.

(** C6: an invocation of [addFromDecorator] for a decorator whose
    [useCachedDecorations] is not true is the decorator's own [decorate],
    run on the context as it is (no decorator in the slot) and followed by
    the clearing of the slot: the context and the completion it leaves are
    those [decorate] leaves, whatever [decorate] does.  A second invocation
    runs [decorate] again, on the context the first one left, and [n]
    invocations run it [n] times.  When [decorate] is a sequence of calls on
    the context's public methods, the frame and the completion are those of
    these calls, each invocation is one more entry into [decorate], and none
    of them changes the decoration cache: no entry is created for the
    decorator. *)
Theorem uncached_decorator_always_decorates (d : ViewportDecorator.t t) (c : t) :
  ViewportDecorator.useCachedDecorations d <> Some true ->
  _curCacheableDecorator c = None ->
  let given := fun c0 : t =>
    set_decorateEntered (decorateEntered c0 ++ [ViewportDecorator.handle d]) c0 in
  let invoked := fun c0 : t => ViewportDecorator.decorate d (given c0) in
  let after := fun c0 : t => set_curCacheableDecorator None (fst (invoked c0)) in
  addFromDecorator d c = (after c, snd (invoked c))
  /\ addFromDecorator d (after c) = (after (after c), snd (invoked (after c)))
  /\ (forall n : nat, addFromDecorators (replicate n d) c = Nat.iter n after c)
  /\ forall calls : list DecorateCall,
       ViewportDecorator.decorate d = performAll calls ->
       snd (addFromDecorator d c) = snd (performAll calls c)
       /\ frame (fst (addFromDecorator d c)) = frame (fst (performAll calls c))
       /\ forall n : nat,
            timesDecorated (addFromDecorators (replicate n d) c) d = timesDecorated c d + n
            /\ cacheOf (addFromDecorators (replicate n d) c) = cacheOf c
            /\ Viewport.getCachedDecorations (viewport (addFromDecorators (replicate n d) c)) d
               = Viewport.getCachedDecorations (viewport c) d.
Proof.
  intros Hnot Hidle. cbn zeta.
  assert (Hoff : truthy (ViewportDecorator.useCachedDecorations d) = false).
  { destruct (ViewportDecorator.useCachedDecorations d) as [[]|];
      [congruence|reflexivity..]. }
  assert (Hone : forall c0, _curCacheableDecorator c0 = None ->
            addFromDecorator d c0
            = (set_curCacheableDecorator None
                 (fst (ViewportDecorator.decorate d
                         (set_decorateEntered
                            (decorateEntered c0 ++ [ViewportDecorator.handle d]) c0))),
               snd (ViewportDecorator.decorate d
                      (set_decorateEntered
                         (decorateEntered c0 ++ [ViewportDecorator.handle d]) c0)))).
  { intros c0 H0. rewrite (addFromDecorator_uncached d c0 (or_intror H0) Hoff).
    reflexivity. }
  split; [exact (Hone c Hidle)|]. split; [apply Hone; reflexivity|]. split.
  { intros n. revert c Hidle. induction n as [|n IH]; intros c Hidle; [reflexivity|].
    cbn [replicate addFromDecorators]. rewrite (Hone c Hidle). cbn [fst].
    rewrite IH by reflexivity. rewrite Nat.iter_succ_r. reflexivity. }
  intros calls Hcalls.
  assert (Hd : d = scripted (ViewportDecorator.handle d)
                     (ViewportDecorator.useCachedDecorations d) calls).
  { destruct d as [h flag dec]. cbn in Hcalls. subst dec. reflexivity. }
  rewrite (Hone c Hidle), Hcalls. cbn [fst snd].
  rewrite (performAll_logged _ calls c Hidle). cbn [fst snd].
  split; [reflexivity|]. split; [apply frame_logged|].
  assert (Hn : forall n c0, _curCacheableDecorator c0 = None ->
            _curCacheableDecorator (addFromDecorators (replicate n d) c0) = None
            /\ timesDecorated (addFromDecorators (replicate n d) c0) d
               = timesDecorated c0 d + n
            /\ cacheOf (addFromDecorators (replicate n d) c0) = cacheOf c0).
  { induction n as [|n IH]; intros c0 H0.
    - cbn. rewrite Nat.add_0_r. auto.
    - cbn [replicate addFromDecorators].
      destruct (addFromDecorator_uncached_effect (ViewportDecorator.handle d)
                  (ViewportDecorator.useCachedDecorations d) calls c0 H0 Hoff)
        as (E1 & E2 & E3).
      rewrite <- Hd in E1, E2, E3.
      destruct (IH _ E1) as (I1 & I2 & I3).
      rewrite I2, I3, E2, (timesDecorated_entered d c0 _ E3). split; [exact I1|].
      split; [lia|]. reflexivity. }
  intros n. destruct (Hn n c Hidle) as (_ & T & C). split; [exact T|]. split; [exact C|].
  unfold Viewport.getCachedDecorations. unfold cacheOf in C. rewrite C. reflexivity.
Qed.

(** C3.  For a decorator that caches and has an entry in the cache,
    [addFromDecorator] does not invoke [decorate]: it is [restoreCache] of
    the entry, which restores the entries in their stored order, each
    through its add-path, and leaves the cache and the log of the decorators
    entered as they are.  The invocation that finds no entry is the
    decorator's own [decorate], run with the decorator in the slot.  When
    [decorate] is a sequence of calls on the context's public methods, that
    invocation leaves an entry once an add-call was made; the entry holds
    the decorations of the add-calls in the order of the calls, as many as
    add-calls were made, and a later invocation that starts from the same
    frame and finds that entry gives the same ordered decorations as the
    first did, and the same frame altogether when [decorate] did not set the
    sky box or the background directly. *)
Theorem cached_decorator_replays (d : ViewportDecorator.t t) (c : t) :
  ViewportDecorator.useCachedDecorations d = Some true ->
  _curCacheableDecorator c = None ->
  (forall cached : list CachedDecoration,
     Viewport.getCachedDecorations (viewport c) d = Some cached ->
     addFromDecorator d c = restoreCache cached c
     /\ restoreCache cached c = (fold_left (fun c e => restoreOne e c) cached c, Returned tt)
     /\ decorateEntered (fst (addFromDecorator d c)) = decorateEntered c
     /\ timesDecorated (fst (addFromDecorator d c)) d = timesDecorated c d
     /\ cacheOf (fst (addFromDecorator d c)) = cacheOf c)
  /\ (Viewport.getCachedDecorations (viewport c) d = None ->
      let given :=
        set_decorateEntered (decorateEntered c ++ [ViewportDecorator.handle d])
          (set_curCacheableDecorator (Some (ViewportDecorator.handle d)) c) in
      let c1 := fst (addFromDecorator d c) in
      addFromDecorator d c
      = (set_curCacheableDecorator None (fst (ViewportDecorator.decorate d given)),
         snd (ViewportDecorator.decorate d given))
      /\ forall calls : list DecorateCall,
           ViewportDecorator.decorate d = performAll calls ->
           (0 < addCallsMade calls ->
            is_Some (Viewport.getCachedDecorations (viewport c1) d))
           /\ forall cached : list CachedDecoration,
           Viewport.getCachedDecorations (viewport c1) d = Some cached ->
           timesDecorated c1 d = timesDecorated c d + 1
           /\ cached = entriesOf calls
           /\ length cached = addCallsMade calls
           /\ cachedCount c1 d = addCallsMade calls
           /\ forall c2 : t,
                _curCacheableDecorator c2 = None ->
                frame c2 = frame c ->
                Viewport.getCachedDecorations (viewport c2) d = Some cached ->
                let c3 := fst (addFromDecorator d c2) in
                addFromDecorator d c2 = restoreCache cached c2
                /\ timesDecorated c3 d = timesDecorated c2 d
                /\ decorationOrdering c3 = decorationOrdering c1
                /\ (existsb isDirectSet (callsMade calls) = false -> frame c3 = frame c1)).
Proof.
  intros Hflag Hidle.
  assert (Hon : truthy (ViewportDecorator.useCachedDecorations d) = true)
    by (rewrite Hflag; reflexivity).
  assert (Hreplayed : forall c0 cached,
            _curCacheableDecorator c0 = None ->
            Viewport.getCachedDecorations (viewport c0) d = Some cached ->
            addFromDecorator d c0 = restoreCache cached c0
            /\ restoreCache cached c0
               = (fold_left (fun c e => restoreOne e c) cached c0, Returned tt)
            /\ decorateEntered (fst (addFromDecorator d c0)) = decorateEntered c0
            /\ timesDecorated (fst (addFromDecorator d c0)) d = timesDecorated c0 d
            /\ cacheOf (fst (addFromDecorator d c0)) = cacheOf c0).
  { intros c0 cached H0 Hcached.
    pose proof (addFromDecorator_replay d cached c0 H0 Hon Hcached) as Hreplay.
    pose proof (restoreCache_idle cached c0 H0) as Hrestore.
    split; [exact Hreplay|]. split; [exact Hrestore|].
    rewrite Hreplay, Hrestore. cbn [fst].
    destruct (fold_restoreOne_keeps cached c0) as (_ & K2 & K3).
    split; [exact K3|]. split; [|exact K2]. unfold timesDecorated. rewrite K3. reflexivity. }
  split; [intros cached Hcached; exact (Hreplayed c cached Hidle Hcached)|].
  intros Hnone. cbn zeta.
  split; [exact (addFromDecorator_record d c Hidle Hon Hnone)|].
  intros calls Hcalls.
  assert (Hd : d = scripted (ViewportDecorator.handle d)
                     (ViewportDecorator.useCachedDecorations d) calls).
  { destruct d as [h flag dec]. cbn in Hcalls. subst dec. reflexivity. }
  assert (Hnone' : Viewport.getCachedDecorations (viewport c)
                     (scripted (ViewportDecorator.handle d)
                        (ViewportDecorator.useCachedDecorations d) calls) = None)
    by (rewrite <- Hd; exact Hnone).
  destruct (addFromDecorator_record_effect (ViewportDecorator.handle d)
              (ViewportDecorator.useCachedDecorations d) calls c Hidle Hon Hnone')
    as (_ & E2 & E3 & E4 & E5).
  rewrite <- Hd in E2, E3, E4, E5.
  set (c1 := fst (addFromDecorator d c)) in *.
  split.
  { intros Hpos. rewrite E3. rewrite <- length_entriesOf in Hpos.
    destruct (entriesOf calls) as [|e es]; [cbn in Hpos; lia|cbn; eauto]. }
  intros cached Hentry.
  assert (Hes : cached = entriesOf calls).
  { rewrite E3 in Hentry. destruct (entriesOf calls) as [|e es]; [discriminate|].
    cbn in Hentry. injection Hentry as <-. reflexivity. }
  assert (Hlen : length cached = addCallsMade calls)
    by (rewrite Hes; apply length_entriesOf).
  split; [exact (timesDecorated_entered d c c1 E2)|]. split; [exact Hes|].
  split; [exact Hlen|]. split; [unfold cachedCount; rewrite Hentry; exact Hlen|].
  intros c2 Hidle2 Hframe Hsame. cbn zeta.
  destruct (Hreplayed c2 cached Hidle2 Hsame) as (R1 & R2 & _ & R4 & _).
  split; [exact R1|]. split; [exact R4|].
  rewrite R1, R2. cbn [fst]. subst cached. split.
  - rewrite ordering_restored, E4. f_equal.
    unfold frame in Hframe. injection Hframe as Hdec Hdiv.
    unfold decorationOrdering. rewrite Hdec, Hdiv. reflexivity.
  - intros Hno. symmetry. apply E5; assumption.
Qed.

End WithConfig.

(** C1, as the spec has it, fails: the order is not third, first, second. *)
Lemma addCanvasDecoration_order_counterexample :
  Decorations.canvasDecorations
    (_decorations
       (fst (@addThreeCanvasDecorations TopView.debug TopView.first TopView.second TopView.third
               (TopView.context 1))))
  = Some [TopView.second; TopView.first; TopView.third]
  /\ Decorations.canvasDecorations
       (_decorations
          (fst (@addThreeCanvasDecorations TopView.debug TopView.first TopView.second
                  TopView.third (TopView.context 1))))
     <> Some [TopView.third; TopView.first; TopView.second].
Proof. split; [reflexivity|]. cbn. discriminate. Qed.

Lemma cached_decorator_replays_witness :
  let d := @scripted TopView.debug 8 (Some true) Decorators.canvasCalls in
  let c := TopView.context 1 in
  let c1 := fst (@addFromDecorator TopView.debug d c) in
  let c2 := DecorateContext.new (Viewport.set_decorationDiv [] (viewport c1)) Decorations.empty in
  let c3 := fst (@addFromDecorator TopView.debug d c2) in
  cachedCount c1 d = 3
  /\ timesDecorated c3 d = timesDecorated c2 d
  /\ decorationOrdering c3 = decorationOrdering c1
  /\ frame c3 = frame c1.
Proof.
  cbn zeta.
  destruct (@cached_decorator_replays TopView.debug
              (@scripted TopView.debug 8 (Some true) Decorators.canvasCalls)
              (TopView.context 1) eq_refl eq_refl) as [_ Hfirst].
  destruct (Hfirst eq_refl) as [_ Hscript].
  destruct (Hscript Decorators.canvasCalls eq_refl) as [_ Hentry].
  destruct (Hentry (entriesOf Decorators.canvasCalls) eq_refl)
    as (_ & _ & _ & Hcount & Hlater).
  split; [exact Hcount|].
  destruct (Hlater
              (DecorateContext.new
                 (Viewport.set_decorationDiv []
                    (viewport (fst (@addFromDecorator TopView.debug
                                      (@scripted TopView.debug 8 (Some true)
                                         Decorators.canvasCalls)
                                      (TopView.context 1)))))
                 Decorations.empty)
              eq_refl eq_refl eq_refl) as (_ & H1 & H2 & H3).
  split; [exact H1|]. split; [exact H2|]. exact (H3 eq_refl).
Defined.

Lemma addFromDecorator_releases_witness :
  (snd (@addFromDecorator TopView.debug (Decorators.failing (Some true)) (TopView.context 1))
   = Thrown (ThrownError 1)
   /\ _curCacheableDecorator
        (fst (@addFromDecorator TopView.debug (Decorators.failing (Some true))
                (TopView.context 1))) = None)
  /\ (snd (@addFromDecorator TopView.debug (Decorators.reentrant (Some true))
             (TopView.context 1))
      = Thrown AssertionError
      /\ _curCacheableDecorator
           (fst (@addFromDecorator TopView.debug (Decorators.reentrant (Some true))
                   (TopView.context 1))) = None).
Proof.
  split; (split; [reflexivity|]).
  - exact (proj1 (@addFromDecorator_releases TopView.debug (Decorators.failing (Some true))
                    (TopView.context 1) (or_intror eq_refl))).
  - exact (proj1 (@addFromDecorator_releases TopView.debug (Decorators.reentrant (Some true))
                    (TopView.context 1) (or_intror eq_refl))).
Defined.

Lemma uncached_decorator_always_decorates_witness :
  let d := @scripted TopView.debug 8 None Decorators.canvasCalls in
  snd (@addFromDecorator TopView.debug d (TopView.context 1)) = Returned tt
  /\ frame (fst (@addFromDecorator TopView.debug d (TopView.context 1)))
     = frame (fst (@performAll TopView.debug Decorators.canvasCalls (TopView.context 1)))
  /\ timesDecorated
       (fst (@addFromDecorator TopView.debug d
               (fst (@addFromDecorator TopView.debug d (TopView.context 1))))) d = 2
  /\ cacheOf
       (fst (@addFromDecorator TopView.debug d
               (fst (@addFromDecorator TopView.debug d (TopView.context 1))))) = ∅.
Proof.
  cbn zeta.
  destruct (@uncached_decorator_always_decorates TopView.debug
              (@scripted TopView.debug 8 None Decorators.canvasCalls)
              (TopView.context 1) ltac:(discriminate) eq_refl) as (_ & _ & _ & Hscript).
  destruct (Hscript Decorators.canvasCalls eq_refl) as (Hcompletion & Hframe & Hn).
  split; [exact Hcompletion|]. split; [exact Hframe|].
  destruct (Hn 2%nat) as (Htimes & Hcache & _).
  split; [exact Htimes|exact Hcache].
Defined.
End DecorateContextFacts.

(** ** The standard grid *)

Module StandardGridFacts.
Import StandardGrid gridConstants.
Local Open Scope float_scope.

Section WithGeometry.
Context `{GeometryCore} `{BuildConfig}.

Lemma degenerate_clip_no_points (vp : Viewport.t) (plane : Plane3dByOriginAndUnitNormal.t) :
  DegenerateClip vp plane -> getClippedGridPlanePoints vp plane = None.
Proof.
  intros Hdeg. unfold getClippedGridPlanePoints.
  destruct Hdeg as [Hgeom|geom Hgeom Hlen|tag Hgeom|children Hgeom Hlen|tag Hgeom
                   |points Hgeom Hlen]; rewrite Hgeom.
  - reflexivity.
  - destruct geom as [|loop [|loop' geom]]; [reflexivity|cbn in Hlen; lia|reflexivity].
  - reflexivity.
  - destruct children as [|child [|child' children]];
      [reflexivity|cbn in Hlen; lia|reflexivity].
  - reflexivity.
  - apply Nat.ltb_lt in Hlen. rewrite Hlen. reflexivity.
Qed.

(** C7: when the clip of the frustum against the grid plane is degenerate,
    [drawStandardGrid] returns with the context as it was: nothing is added
    to the decorations or to the cache, and nothing is thrown. *)
Theorem degenerate_clip_draws_nothing (fuel : nat) (gridOrigin : Point3d.t)
    (rMatrix : Matrix3d.t) (spacing : Vector2d.t) (gridsPerRef : float)
    (this : DecorateContext.t) (plane : Plane3dByOriginAndUnitNormal.t) :
  Plane3dByOriginAndUnitNormal_create gridOrigin (Matrix3d_rowZ rMatrix) = Some plane ->
  DegenerateClip (DecorateContext.viewport this) plane ->
  drawStandardGrid fuel gridOrigin rMatrix spacing gridsPerRef this
  = Some (this, Returned tt).
Proof.
  intros Hplane Hdeg. unfold drawStandardGrid.
  destruct (Vector3d_normalize _) as [eyeDir|]; [|reflexivity].
  destruct (negb _ && _); [reflexivity|].
  rewrite Hplane, (degenerate_clip_no_points _ _ Hdeg). reflexivity.
Qed.

(** *** The reference-line loops end

    Once a loop fades, its fade counter stops it after 8 more lines.  A loop
    that does not fade counts its lines; past 100 lines it fades, and it
    gets past 10 lines only where that rule applies.  So 110 iterations are
    enough for either loop, whatever the geometry. *)

Section Loops.
Variables (vp : Viewport.t) (transform : Transform.t)
  (line : float -> Point3d.t * Point3d.t) (nRefRepetitions : float) (unambiguous : bool)
  (refStep : float) (planeColor : ColorDef.t) (linePat : LinePixels.t)
  (planeX planeY : Plane3dByOriginAndUnitNormal.t).

Lemma refLineLoop_fading (fuel j : nat) (iRef ref : float) (st : RefLineState) :
  (j <= 8)%nat -> (8 - j <= fuel)%nat ->
  is_Some (refLineLoop fuel vp transform line nRefRepetitions unambiguous refStep planeColor
             linePat planeX planeY iRef ref true (counter j) st).
Proof.
  revert j iRef ref st. induction fuel as [|fuel IH]; intros j iRef ref st Hj Hfuel.
  - assert (j = 8%nat) by lia. subst j. cbn [refLineLoop].
    replace (counter 8 <? fadeRefSteps) with false by (vm_compute; reflexivity).
    rewrite andb_false_r. eauto.
  - cbn [refLineLoop].
    destruct ((iRef <=? nRefRepetitions) && (counter j <? fadeRefSteps)) eqn:Hcond; [|eauto].
    assert (j <> 8%nat).
    { intros ->. apply andb_prop in Hcond as [_ Hc]. vm_compute in Hc. discriminate. }
    apply (IH (S j)); lia.
Qed.

Lemma refLineLoop_counting (m k fuel : nat) (ref : float) (st : RefLineState) :
  (k + m = 101)%nat -> (m + 9 <= fuel)%nat ->
  is_Some (refLineLoop fuel vp transform line nRefRepetitions unambiguous refStep planeColor
             linePat planeX planeY (counter k) ref false 0 st).
Proof.
  revert k fuel ref st. induction m as [|m IH]; intros k fuel ref st Hk Hfuel.
  - replace k with 101%nat by lia. destruct fuel as [|fuel]; [lia|].
    cbn [refLineLoop].
    destruct ((counter 101 <=? nRefRepetitions) && (0 <? fadeRefSteps)) eqn:Hcond; [|eauto].
    apply andb_prop in Hcond as [Hle _].
    change (counter 101) with 101 in Hle |- *.
    rewrite (FloatFacts.le_101_gt_10 _ Hle).
    replace (0 <? 101) with true by (vm_compute; reflexivity).
    replace (maxRefLines <? 101) with true by (vm_compute; reflexivity).
    cbn [andb]. apply (refLineLoop_fading fuel 0); lia.
  - destruct fuel as [|fuel]; [lia|].
    cbn [refLineLoop].
    destruct ((counter k <=? nRefRepetitions) && (0 <? fadeRefSteps)) eqn:Hcond; [|eauto].
    split_conditionals;
      first [apply (refLineLoop_fading fuel 0); lia | apply (IH (S k)); lia].
Qed.

(** From its first line on. *)
Lemma refLineLoop_returns (fuel : nat) (ref : float) (st : RefLineState) :
  (110 <= fuel)%nat ->
  is_Some (refLineLoop fuel vp transform line nRefRepetitions unambiguous refStep planeColor
             linePat planeX planeY 0 ref false 0 st).
Proof. intros Hfuel. apply (refLineLoop_counting 101 0); lia. Qed.
End Loops.

Lemma drawReferenceLines_returns (fuel : nat) (vp : Viewport.t) (L : GridLocals)
    (color planeColor : ColorDef.t) (builder : GraphicBuilder.t) :
  (110 <= fuel)%nat ->
  is_Some (drawReferenceLines fuel vp L color planeColor builder).
Proof.
  intros Hfuel. unfold drawReferenceLines.
  destruct (gl_drawRefX L).
  - match goal with
    | |- context [refLineLoop fuel ?a ?b ?c ?d ?e ?f ?g ?h ?i ?j 0 ?r false 0 ?st] =>
        destruct (refLineLoop_returns a b c d e f g h i j fuel r st Hfuel) as [st1 ->]
    end.
    cbn [mbind option_bind].
    destruct (gl_drawRefY L); [|cbn; eauto].
    match goal with
    | |- context [refLineLoop fuel ?a ?b ?c ?d ?e ?f ?g ?h ?i ?j 0 ?r false 0 ?st] =>
        destruct (refLineLoop_returns a b c d e f g h i j fuel r st Hfuel) as [st2 ->]
    end.
    cbn. eauto.
  - cbn [mbind option_bind].
    destruct (gl_drawRefY L); [|cbn; eauto].
    match goal with
    | |- context [refLineLoop fuel ?a ?b ?c ?d ?e ?f ?g ?h ?i ?j 0 ?r false 0 ?st] =>
        destruct (refLineLoop_returns a b c d e f g h i j fuel r st Hfuel) as [st2 ->]
    end.
    cbn. eauto.
Qed.

Lemma referenceLinesOnly_returns (fuel : nat) (vp : Viewport.t) (gridOrigin : Point3d.t)
    (rMatrix : Matrix3d.t) (spacing : Vector2d.t) (gridsPerRef : float)
    (shapePoints : list Point3d.t) (viewZ : Vector3d.t) (eyeDot : float)
    (color planeColor : ColorDef.t) (builder : GraphicBuilder.t) :
  (110 <= fuel)%nat ->
  is_Some (referenceLinesOnly fuel vp gridOrigin rMatrix spacing gridsPerRef shapePoints viewZ
             eyeDot color planeColor builder).
Proof.
  intros Hfuel. unfold referenceLinesOnly.
  destruct (drawReferenceLines_returns fuel vp
              (gridLocals vp gridOrigin rMatrix spacing gridsPerRef shapePoints viewZ eyeDot)
              color planeColor builder Hfuel) as [[[b nx] ny] ->].
  eauto.
Qed.

Lemma drawRefLines_false (spacing : Vector2d.t) (gridsPerRef meterPerPixel : float) :
  fewerPixelsThanMinSeparation (Vector2d.x (refSpacing spacing gridsPerRef)) meterPerPixel
  || fewerPixelsThanMinSeparation (Vector2d.y (refSpacing spacing gridsPerRef)) meterPerPixel
  = negb (drawRefLines spacing gridsPerRef meterPerPixel).
Proof. unfold drawRefLines. rewrite negb_involutive. reflexivity. Qed.

Lemma refSpacing_zero (spacing : Vector2d.t) (gridsPerRef : float) :
  (0 =? gridsPerRef) = true -> refSpacing spacing gridsPerRef = spacing.
Proof.
  intros Hzero. unfold refSpacing, refScale, Vector2d.scale. rewrite Hzero.
  cbn [Vector2d.x Vector2d.y]. rewrite !FloatFacts.mul_1_r. destruct spacing; reflexivity.
Qed.

Lemma lines_without_subgrid (fuel : nat) (vp : Viewport.t) (gridOrigin : Point3d.t)
    (rMatrix : Matrix3d.t) (spacing : Vector2d.t) (gridsPerRef : float)
    (shapePoints : list Point3d.t) (meterPerPixel : float) (viewZ : Vector3d.t)
    (eyeDot : float) (color planeColor : ColorDef.t) (builder : GraphicBuilder.t) :
  (forall drawRefX drawRefY,
     drawGridLines drawRefX drawRefY spacing gridsPerRef meterPerPixel = false) ->
  drawStandardGrid_lines fuel vp gridOrigin rMatrix spacing gridsPerRef shapePoints
    meterPerPixel viewZ eyeDot color planeColor builder
  = referenceLinesOnly fuel vp gridOrigin rMatrix spacing gridsPerRef shapePoints viewZ
      eyeDot color planeColor builder.
Proof.
  intros Hoff. unfold drawStandardGrid_lines, referenceLinesOnly.
  destruct (drawReferenceLines _ _ _ _ _ _) as [[[b nx] ny]|]; [|reflexivity].
  rewrite Hoff. reflexivity.
Qed.

(** *** Past the early returns

    What [drawStandardGrid] does once the eye direction is normalized, the
    view is not edge-on, the plane is made and the clip has given its shape
    points: it measures the size of a pixel at the point the clip left in
    [loopPt], and the block guarded by [if (drawRefLines)] is run or
    skipped on the builder of the plane. *)
Lemma drawStandardGrid_past_returns (fuel : nat) (gridOrigin : Point3d.t)
    (rMatrix : Matrix3d.t) (spacing : Vector2d.t) (gridsPerRef : float)
    (this : DecorateContext.t) (eyeDir : Vector3d.t) (plane : Plane3dByOriginAndUnitNormal.t)
    (shapePoints : list Point3d.t) (loopPt : Point3d.t) :
  let vp := DecorateContext.viewport this in
  let eyeDot := Vector3d_dotProduct eyeDir (Matrix3d_rowZ rMatrix) in
  let meterPerPixel := Viewport.getPixelSizeAtPoint vp loopPt in
  let builder := gridPlaneBuilder vp eyeDot shapePoints meterPerPixel in
  Vector3d_normalize (eyeDirection vp gridOrigin) = Some eyeDir ->
  negb (Viewport.isCameraOn vp) && (abs eyeDot <? 0.005) = false ->
  Plane3dByOriginAndUnitNormal_create gridOrigin (Matrix3d_rowZ rMatrix) = Some plane ->
  getClippedGridPlanePoints vp plane = Some (shapePoints, loopPt) ->
  drawStandardGrid fuel gridOrigin rMatrix spacing gridsPerRef this
  = gridDecorated this
      (if drawRefLines spacing gridsPerRef meterPerPixel
       then drawStandardGrid_lines fuel vp gridOrigin rMatrix spacing gridsPerRef shapePoints
              meterPerPixel (Viewport.rotation_getRow2 vp) eyeDot
              (Viewport.getContrastToBackgroundColor vp) (gridPlaneColor vp eyeDot) builder
       else Some builder).
Proof.
  intros vp eyeDot meterPerPixel builder Hnorm Hedge Hplane Hclip.
  unfold drawStandardGrid. fold (eyeDirection (DecorateContext.viewport this) gridOrigin).
  fold vp. rewrite Hnorm. fold eyeDot. rewrite Hedge, Hplane, Hclip. reflexivity.
Qed.

(** Without the sub-grid lines the block is the reference lines, which 110
    iterations of either loop are enough to draw. *)
Lemma drawStandardGrid_without_subgrid (fuel : nat) (gridOrigin : Point3d.t)
    (rMatrix : Matrix3d.t) (spacing : Vector2d.t) (gridsPerRef : float)
    (this : DecorateContext.t) (eyeDir : Vector3d.t) (plane : Plane3dByOriginAndUnitNormal.t)
    (shapePoints : list Point3d.t) (loopPt : Point3d.t) :
  let vp := DecorateContext.viewport this in
  let eyeDot := Vector3d_dotProduct eyeDir (Matrix3d_rowZ rMatrix) in
  let meterPerPixel := Viewport.getPixelSizeAtPoint vp loopPt in
  let builder := gridPlaneBuilder vp eyeDot shapePoints meterPerPixel in
  Vector3d_normalize (eyeDirection vp gridOrigin) = Some eyeDir ->
  negb (Viewport.isCameraOn vp) && (abs eyeDot <? 0.005) = false ->
  Plane3dByOriginAndUnitNormal_create gridOrigin (Matrix3d_rowZ rMatrix) = Some plane ->
  getClippedGridPlanePoints vp plane = Some (shapePoints, loopPt) ->
  (forall drawRefX drawRefY,
     drawGridLines drawRefX drawRefY spacing gridsPerRef meterPerPixel = false) ->
  drawStandardGrid fuel gridOrigin rMatrix spacing gridsPerRef this
  = gridDecorated this
      (if drawRefLines spacing gridsPerRef meterPerPixel
       then referenceLinesOnly fuel vp gridOrigin rMatrix spacing gridsPerRef shapePoints
              (Viewport.rotation_getRow2 vp) eyeDot
              (Viewport.getContrastToBackgroundColor vp) (gridPlaneColor vp eyeDot) builder
       else Some builder)
  /\ ((110 <= fuel)%nat ->
      is_Some (drawStandardGrid fuel gridOrigin rMatrix spacing gridsPerRef this)).
Proof.
  intros vp eyeDot meterPerPixel builder Hnorm Hedge Hplane Hclip Hoff.
  rewrite (drawStandardGrid_past_returns fuel gridOrigin rMatrix spacing gridsPerRef this
             eyeDir plane shapePoints loopPt Hnorm Hedge Hplane Hclip).
  fold vp eyeDot meterPerPixel builder.
  rewrite (lines_without_subgrid fuel vp gridOrigin rMatrix spacing gridsPerRef shapePoints
             meterPerPixel _ eyeDot _ _ builder Hoff).
  split; [reflexivity|].
  intros Hfuel. destruct (drawRefLines spacing gridsPerRef meterPerPixel); [|cbn; eauto].
  destruct (referenceLinesOnly_returns fuel vp gridOrigin rMatrix spacing gridsPerRef
              shapePoints (Viewport.rotation_getRow2 vp) eyeDot
              (Viewport.getContrastToBackgroundColor vp) (gridPlaneColor vp eyeDot) builder
              Hfuel) as [b ->].
  cbn. eauto.
Qed.

(** C5, as the code has it, for a call of [drawStandardGrid] that is past
    its early returns; the size of a pixel is the one measured at the point
    [getClippedGridPlanePoints] left in [loopPt].  When the reference
    spacing of either axis shows as fewer than 20 pixels, no line is drawn:
    the decoration added is the blanking plane alone.  When the sub-grid
    divisions are not more than 1, or the spacing itself shows as fewer than
    20 pixels on either axis, the decoration is the plane with the reference
    lines alone (where these are not suppressed), which 110 iterations of
    either loop are enough to draw.  A separation of exactly 20 pixels is
    not below the minimum: with the reference spacing at exactly 20 pixels
    on both axes the block of the lines is run, and with the spacing itself
    at exactly 20 pixels on both axes, more than one division and the
    reference lines drawn on both axes, the block of the sub-grid lines is
    run after the reference lines. *)
Theorem grid_line_thresholds (fuel : nat) (gridOrigin : Point3d.t) (rMatrix : Matrix3d.t)
    (spacing : Vector2d.t) (gridsPerRef : float) (this : DecorateContext.t)
    (eyeDir : Vector3d.t) (plane : Plane3dByOriginAndUnitNormal.t)
    (shapePoints : list Point3d.t) (loopPt : Point3d.t) :
  let vp := DecorateContext.viewport this in
  let eyeDot := Vector3d_dotProduct eyeDir (Matrix3d_rowZ rMatrix) in
  let meterPerPixel := Viewport.getPixelSizeAtPoint vp loopPt in
  let viewZ := Viewport.rotation_getRow2 vp in
  let color := Viewport.getContrastToBackgroundColor vp in
  let planeColor := gridPlaneColor vp eyeDot in
  let builder := gridPlaneBuilder vp eyeDot shapePoints meterPerPixel in
  let L := gridLocals vp gridOrigin rMatrix spacing gridsPerRef shapePoints viewZ eyeDot in
  Vector3d_normalize (eyeDirection vp gridOrigin) = Some eyeDir ->
  negb (Viewport.isCameraOn vp) && (abs eyeDot <? 0.005) = false ->
  Plane3dByOriginAndUnitNormal_create gridOrigin (Matrix3d_rowZ rMatrix) = Some plane ->
  getClippedGridPlanePoints vp plane = Some (shapePoints, loopPt) ->
  (fewerPixelsThanMinSeparation (Vector2d.x (refSpacing spacing gridsPerRef)) meterPerPixel
   || fewerPixelsThanMinSeparation (Vector2d.y (refSpacing spacing gridsPerRef)) meterPerPixel
   = true ->
   planeOnly builder
   /\ drawStandardGrid fuel gridOrigin rMatrix spacing gridsPerRef this
      = Some (DecorateContext.addDecorationFromBuilder builder this))
  /\ ((gridsPerRef <=? 1) = true
      \/ (1 <? gridsPerRef) = false
      \/ fewerPixelsThanMinSeparation (Vector2d.x spacing) meterPerPixel = true
      \/ fewerPixelsThanMinSeparation (Vector2d.y spacing) meterPerPixel = true ->
      drawStandardGrid fuel gridOrigin rMatrix spacing gridsPerRef this
      = gridDecorated this
          (if drawRefLines spacing gridsPerRef meterPerPixel
           then referenceLinesOnly fuel vp gridOrigin rMatrix spacing gridsPerRef shapePoints
                  viewZ eyeDot color planeColor builder
           else Some builder)
      /\ ((110 <= fuel)%nat ->
          is_Some (drawStandardGrid fuel gridOrigin rMatrix spacing gridsPerRef this)))
  /\ (exactlyMinSeparation (Vector2d.x (refSpacing spacing gridsPerRef)) meterPerPixel = true ->
      exactlyMinSeparation (Vector2d.y (refSpacing spacing gridsPerRef)) meterPerPixel = true ->
      drawStandardGrid fuel gridOrigin rMatrix spacing gridsPerRef this
      = gridDecorated this
          (drawStandardGrid_lines fuel vp gridOrigin rMatrix spacing gridsPerRef shapePoints
             meterPerPixel viewZ eyeDot color planeColor builder))
  /\ (drawRefLines spacing gridsPerRef meterPerPixel = true ->
      gl_drawRefX L = true ->
      gl_drawRefY L = true ->
      (1 <? gridsPerRef) = true ->
      exactlyMinSeparation (Vector2d.x spacing) meterPerPixel = true ->
      exactlyMinSeparation (Vector2d.y spacing) meterPerPixel = true ->
      drawStandardGrid fuel gridOrigin rMatrix spacing gridsPerRef this
      = gridDecorated this
          match drawReferenceLines fuel vp L color planeColor builder with
          | Some (lined, nGridRepetitionsX, nGridRepetitionsY) =>
              drawSubGridLines fuel L gridsPerRef nGridRepetitionsX nGridRepetitionsY
                color planeColor lined
          | None => None
          end).
Proof.
  intros vp eyeDot meterPerPixel viewZ color planeColor builder L Hnorm Hedge Hplane Hclip.
  pose proof (drawStandardGrid_past_returns fuel gridOrigin rMatrix spacing gridsPerRef this
                eyeDir plane shapePoints loopPt Hnorm Hedge Hplane Hclip) as Hpast.
  cbn zeta in Hpast. fold vp eyeDot meterPerPixel builder viewZ color planeColor in Hpast.
  split; [|split; [|split]].
  - intros Hbelow. rewrite drawRefLines_false in Hbelow. apply negb_true_iff in Hbelow.
    split; [split; [reflexivity|eexists _, _; reflexivity]|].
    rewrite Hpast, Hbelow. reflexivity.
  - intros Hcases.
    apply (drawStandardGrid_without_subgrid fuel gridOrigin rMatrix spacing gridsPerRef this
             eyeDir plane shapePoints loopPt Hnorm Hedge Hplane Hclip).
    intros drawRefX drawRefY. unfold drawGridLines.
    unfold fewerPixelsThanMinSeparation in Hcases. fold vp meterPerPixel.
    destruct Hcases as [Hle|[Hnot|[Hx|Hy]]].
    + rewrite (FloatFacts.leb_not_gtb _ _ Hle). cbn. apply andb_false_r.
    + rewrite Hnot. cbn. apply andb_false_r.
    + rewrite Hx. cbn. rewrite andb_false_r. apply andb_false_r.
    + rewrite Hy, orb_true_r. cbn. rewrite andb_false_r. apply andb_false_r.
  - intros Hx Hy. rewrite Hpast. unfold drawRefLines.
    unfold exactlyMinSeparation in Hx, Hy.
    rewrite (FloatFacts.eqb_not_ltb _ _ Hx), (FloatFacts.eqb_not_ltb _ _ Hy). reflexivity.
  - intros Href HdrawX HdrawY Hmore Hx Hy. rewrite Hpast, Href.
    unfold drawStandardGrid_lines. fold L. rewrite HdrawX, HdrawY.
    unfold drawGridLines. unfold exactlyMinSeparation in Hx, Hy.
    rewrite Hmore, (FloatFacts.eqb_not_ltb _ _ Hx), (FloatFacts.eqb_not_ltb _ _ Hy).
    cbn [andb orb negb].
    destruct (drawReferenceLines fuel vp L color planeColor builder) as [[[b nx] ny]|];
      reflexivity.
Qed.

(** *** [gridsPerRef] of 0 *)

Lemma refSpacing_one (spacing : Vector2d.t) : refSpacing spacing 1 = spacing.
Proof.
  unfold refSpacing, refScale, Vector2d.scale. change (0 =? 1) with false.
  cbn [Vector2d.x Vector2d.y]. rewrite !FloatFacts.mul_1_r. destruct spacing; reflexivity.
Qed.

Lemma gridLocals_zero (gridsPerRef : float) (vp : Viewport.t) (gridOrigin : Point3d.t)
    (rMatrix : Matrix3d.t) (spacing : Vector2d.t) (shapePoints : list Point3d.t)
    (viewZ : Vector3d.t) (eyeDot : float) :
  (0 =? gridsPerRef) = true ->
  gridLocals vp gridOrigin rMatrix spacing gridsPerRef shapePoints viewZ eyeDot
  = gridLocals vp gridOrigin rMatrix spacing 1 shapePoints viewZ eyeDot.
Proof.
  intros Hzero. unfold gridLocals.
  rewrite (refSpacing_zero spacing gridsPerRef Hzero), refSpacing_one. reflexivity.
Qed.

Lemma drawGridLines_one (drawRefX drawRefY : bool) (spacing : Vector2d.t)
    (meterPerPixel : float) :
  drawGridLines drawRefX drawRefY spacing 1 meterPerPixel = false.
Proof. unfold drawGridLines. change (1 <? 1) with false. cbn. apply andb_false_r. Qed.

(** C10: with [gridsPerRef] equal to 0 the scale of the reference spacing is
    1.0 and the reference spacing is the spacing given, so that the
    divisions of the local range by the reference spacing, and the steps
    from one reference line to the next, are those by the spacing given;
    [drawStandardGrid] then does exactly what it does with [gridsPerRef]
    equal to 1.  Whatever [gridsPerRef] is, unless it is more than 1 (and 0
    is not) a call past the early returns stops after the reference lines:
    the block of the sub-grid lines, whose steps are the one division by
    [gridsPerRef], is not run. *)
Theorem gridsPerRef_zero_is_safe (gridsPerRef : float) :
  (0 =? gridsPerRef) = true ->
  refScale gridsPerRef = 1
  /\ (forall spacing : Vector2d.t, refSpacing spacing gridsPerRef = spacing)
  /\ (forall (vp : Viewport.t) (gridOrigin : Point3d.t) (rMatrix : Matrix3d.t)
             (spacing : Vector2d.t) (shapePoints : list Point3d.t) (viewZ : Vector3d.t)
             (eyeDot : float),
        let L := gridLocals vp gridOrigin rMatrix spacing gridsPerRef shapePoints viewZ eyeDot in
        let localRange := Range3d_createInverseTransformedArray (gl_transform L) shapePoints in
        let x := Vector2d.x spacing in
        let y := Vector2d.y spacing in
        gl_minX L = Math_floor (Point3d.x (Range3d.low localRange) / x) * x
        /\ gl_maxX L = Math_ceil (Point3d.x (Range3d.high localRange) / x) * x
        /\ gl_minY L = Math_floor (Point3d.y (Range3d.low localRange) / y) * y
        /\ gl_maxY L = Math_ceil (Point3d.y (Range3d.high localRange) / y) * y
        /\ gl_nRefRepetitionsX L
           = Math_ceil (Point3d.y (Range3d.high localRange) / y)
             - Math_floor (Point3d.y (Range3d.low localRange) / y)
        /\ gl_nRefRepetitionsY L
           = Math_ceil (Point3d.x (Range3d.high localRange) / x)
             - Math_floor (Point3d.x (Range3d.low localRange) / x)
        /\ gl_refStepX L = (if gl_reverseY L then - x else x)
        /\ gl_refStepY L = (if gl_reverseX L then - y else y))
  /\ (forall (fuel : nat) (gridOrigin : Point3d.t) (rMatrix : Matrix3d.t)
             (spacing : Vector2d.t) (this : DecorateContext.t),
        drawStandardGrid fuel gridOrigin rMatrix spacing gridsPerRef this
        = drawStandardGrid fuel gridOrigin rMatrix spacing 1 this)
  /\ (1 <? gridsPerRef) = false
  /\ (forall (anyGridsPerRef : float) (fuel : nat) (gridOrigin : Point3d.t)
             (rMatrix : Matrix3d.t) (spacing : Vector2d.t) (this : DecorateContext.t)
             (eyeDir : Vector3d.t) (plane : Plane3dByOriginAndUnitNormal.t)
             (shapePoints : list Point3d.t) (loopPt : Point3d.t),
        let vp := DecorateContext.viewport this in
        let eyeDot := Vector3d_dotProduct eyeDir (Matrix3d_rowZ rMatrix) in
        let meterPerPixel := Viewport.getPixelSizeAtPoint vp loopPt in
        let builder := gridPlaneBuilder vp eyeDot shapePoints meterPerPixel in
        (1 <? anyGridsPerRef) = false ->
        Vector3d_normalize (eyeDirection vp gridOrigin) = Some eyeDir ->
        negb (Viewport.isCameraOn vp) && (abs eyeDot <? 0.005) = false ->
        Plane3dByOriginAndUnitNormal_create gridOrigin (Matrix3d_rowZ rMatrix) = Some plane ->
        getClippedGridPlanePoints vp plane = Some (shapePoints, loopPt) ->
        drawStandardGrid fuel gridOrigin rMatrix spacing anyGridsPerRef this
        = gridDecorated this
            (if drawRefLines spacing anyGridsPerRef meterPerPixel
             then referenceLinesOnly fuel vp gridOrigin rMatrix spacing anyGridsPerRef
                    shapePoints (Viewport.rotation_getRow2 vp) eyeDot
                    (Viewport.getContrastToBackgroundColor vp) (gridPlaneColor vp eyeDot)
                    builder
             else Some builder)
        /\ ((110 <= fuel)%nat ->
            is_Some (drawStandardGrid fuel gridOrigin rMatrix spacing anyGridsPerRef this))).
Proof.
  intros Hzero.
  split; [unfold refScale; rewrite Hzero; reflexivity|].
  split; [intros spacing; apply refSpacing_zero; exact Hzero|].
  split.
  { intros vp gridOrigin rMatrix spacing shapePoints viewZ eyeDot. cbn zeta.
    unfold gridLocals. rewrite (refSpacing_zero spacing gridsPerRef Hzero).
    cbn [gl_transform gl_minX gl_maxX gl_minY gl_maxY gl_nRefRepetitionsX
         gl_nRefRepetitionsY gl_refStepX gl_refStepY gl_reverseX gl_reverseY].
    repeat split. }
  split.
  { intros fuel gridOrigin rMatrix spacing this. unfold drawStandardGrid.
    destruct (Vector3d_normalize _) as [eyeDir|]; [|reflexivity].
    destruct (negb _ && _); [reflexivity|].
    destruct (Plane3dByOriginAndUnitNormal_create _ _) as [plane|]; [|reflexivity].
    destruct (getClippedGridPlanePoints _ _) as [[shapePoints loopPt]|]; [|reflexivity].
    unfold drawRefLines, drawStandardGrid_lines.
    rewrite (refSpacing_zero spacing gridsPerRef Hzero), refSpacing_one.
    rewrite (gridLocals_zero gridsPerRef _ _ _ _ _ _ _ Hzero).
    rewrite drawGridLines_one.
    assert (Hoff : forall drawRefX drawRefY meterPerPixel,
              drawGridLines drawRefX drawRefY spacing gridsPerRef meterPerPixel = false).
    { intros. unfold drawGridLines. rewrite (FloatFacts.zero_not_gt_one _ Hzero).
      cbn. apply andb_false_r. }
    rewrite Hoff. reflexivity. }
  split; [exact (FloatFacts.zero_not_gt_one _ Hzero)|].
  intros anyGridsPerRef fuel gridOrigin rMatrix spacing this eyeDir plane shapePoints loopPt
    vp eyeDot meterPerPixel builder Hnot Hnorm Hedge Hplane Hclip.
  apply (drawStandardGrid_without_subgrid fuel gridOrigin rMatrix spacing anyGridsPerRef this
           eyeDir plane shapePoints loopPt Hnorm Hedge Hplane Hclip).
  intros drawRefX drawRefY. unfold drawGridLines. rewrite Hnot. cbn. apply andb_false_r.
Qed.

End WithGeometry.

(** C5, as the spec has it, fails: at a separation of exactly 20 pixels the
    lines are drawn.  With a spacing of 20 m at 1 m to the pixel the square
    of 100 m gets its 12 reference lines; with a spacing of 10 m in 2
    divisions at 0.5 m to the pixel it gets 10 sub-grid lines on top of
    them. *)
Lemma lines_drawn_at_min_separation :
  (exactlyMinSeparation (Vector2d.x (refSpacing (Vector2d.create 20 20) 1)) 1 = true
   /\ exactlyMinSeparation (Vector2d.y (refSpacing (Vector2d.create 20 20) 1)) 1 = true
   /\ TopView.worldLineStrings
        (@drawStandardGrid (TopView.geometry TopView.squareLoop) TopView.debug 200
           TopView.origin TopView.identity (Vector2d.create 20 20) 1 (TopView.context 1))
      = Some 12%nat)
  /\ (exactlyMinSeparation 10 0.5 = true
      /\ TopView.worldLineStrings
           (@drawStandardGrid (TopView.geometry TopView.squareLoop) TopView.debug 200
              TopView.origin TopView.identity (Vector2d.create 10 10) 2 (TopView.context 0.5))
         = Some 22%nat
      /\ TopView.worldLineStrings
           (@drawStandardGrid (TopView.geometry TopView.squareLoop) TopView.debug 200
              TopView.origin TopView.identity (Vector2d.create 20 20) 1 (TopView.context 0.5))
         = Some 12%nat).
Proof. repeat split; vm_compute; reflexivity. Qed.

(** At 19 m to the reference line on one axis and 1 m to the pixel the grid
    of the top view is the blanking plane alone; at 20 m on both axes the
    block of the lines is run. *)
Lemma grid_line_thresholds_witness :
  @drawStandardGrid (TopView.geometry TopView.squareLoop) TopView.debug 200 TopView.origin
    TopView.identity (Vector2d.create 19 20) 1 (TopView.context 1)
  = Some (@DecorateContext.addDecorationFromBuilder TopView.debug
            (@gridPlaneBuilder (TopView.geometry TopView.squareLoop) (TopView.viewport 1) 1
               TopView.square 1)
            (TopView.context 1))
  /\ @drawStandardGrid (TopView.geometry TopView.squareLoop) TopView.debug 200 TopView.origin
       TopView.identity (Vector2d.create 20 20) 1 (TopView.context 1)
     = @gridDecorated TopView.debug (TopView.context 1)
         (@drawStandardGrid_lines (TopView.geometry TopView.squareLoop) 200
            (TopView.viewport 1) TopView.origin TopView.identity (Vector2d.create 20 20) 1
            TopView.square 1 (Vector3d.create 0 0 1) 1 (ColorDef.fromTbgr 0)
            (@gridPlaneColor (TopView.geometry TopView.squareLoop) (TopView.viewport 1) 1)
            (@gridPlaneBuilder (TopView.geometry TopView.squareLoop) (TopView.viewport 1) 1
               TopView.square 1)).
Proof.
  split.
  - apply (proj1 (@grid_line_thresholds (TopView.geometry TopView.squareLoop) TopView.debug
                    200 TopView.origin TopView.identity (Vector2d.create 19 20) 1
                    (TopView.context 1) (Vector3d.create 0 0 1) TopView.plane TopView.square
                    (Point3d.createXY 0 0) eq_refl eq_refl eq_refl eq_refl)).
    vm_compute. reflexivity.
  - apply (proj1 (proj2 (proj2
             (@grid_line_thresholds (TopView.geometry TopView.squareLoop) TopView.debug
                200 TopView.origin TopView.identity (Vector2d.create 20 20) 1
                (TopView.context 1) (Vector3d.create 0 0 1) TopView.plane TopView.square
                (Point3d.createXY 0 0) eq_refl eq_refl eq_refl eq_refl))));
      vm_compute; reflexivity.
Defined.

Lemma degenerate_clip_draws_nothing_witness :
  @drawStandardGrid (TopView.geometry TopView.triangleLoop) TopView.debug 200 TopView.origin
    TopView.identity (Vector2d.create 20 20) 1 (TopView.context 1)
  = Some (TopView.context 1, Returned tt).
Proof.
  apply (@degenerate_clip_draws_nothing (TopView.geometry TopView.triangleLoop) TopView.debug
           200 TopView.origin TopView.identity (Vector2d.create 20 20) 1 (TopView.context 1)
           TopView.plane).
  - vm_compute. reflexivity.
  - eapply (@TooFewPoints (TopView.geometry TopView.triangleLoop)).
    + reflexivity.
    + cbn. lia.
Defined.

(** With [gridsPerRef] 0 the grid of the top view at 20 m and 1 m to the
    pixel is the grid of [gridsPerRef] 1: the 12 reference lines. *)
Lemma gridsPerRef_zero_is_safe_witness :
  refScale 0 = 1
  /\ refSpacing (Vector2d.create 20 30) 0 = Vector2d.create 20 30
  /\ @drawStandardGrid (TopView.geometry TopView.squareLoop) TopView.debug 200 TopView.origin
       TopView.identity (Vector2d.create 20 20) 0 (TopView.context 1)
     = @drawStandardGrid (TopView.geometry TopView.squareLoop) TopView.debug 200 TopView.origin
         TopView.identity (Vector2d.create 20 20) 1 (TopView.context 1)
  /\ TopView.worldLineStrings
       (@drawStandardGrid (TopView.geometry TopView.squareLoop) TopView.debug 200
          TopView.origin TopView.identity (Vector2d.create 20 20) 0 (TopView.context 1))
     = Some 12%nat.
Proof.
  destruct (@gridsPerRef_zero_is_safe (TopView.geometry TopView.squareLoop) TopView.debug 0
              eq_refl) as (Hscale & Hspacing & _ & Hone & _).
  split; [exact Hscale|]. split; [apply Hspacing|]. split; [apply Hone|].
  rewrite Hone. vm_compute. reflexivity.
Defined.
End StandardGridFacts.

(** ** DecorateContext: the add-paths in every state *)

Module AddPathFacts.
Import DecorateContext DecorateContextFacts.

Section WithConfig.
Context `{BuildConfig}.

(** A call of a script in either state of the slot. *)
Lemma perform_either (call : DecorateCall) (c : t) :
  perform call c =
    match call with
    | CallThrow e => (c, Thrown e)
    | _ => (match _curCacheableDecorator c with
            | Some h => stepRecording h call c
            | None => stepIdle call c
            end, Returned tt)
    end.
Proof.
  destruct (_curCacheableDecorator c) as [h|] eqn:Hslot.
  - rewrite (perform_recording h call c Hslot). destruct call; reflexivity.
  - rewrite (perform_idle call c Hslot). destruct call; reflexivity.
Qed.

Lemma perform_slot (call : DecorateCall) (c : t) :
  _curCacheableDecorator (fst (perform call c)) = _curCacheableDecorator c.
Proof.
  rewrite perform_either.
  destruct (_curCacheableDecorator c) as [h|] eqn:Hslot.
  - destruct (stepRecording_keeps h call c) as (K & _ & _).
    destruct call; cbn [fst]; try exact K; exact Hslot.
  - destruct (stepIdle_keeps call c) as (K & _ & _).
    destruct call; cbn [fst]; try exact K; exact Hslot.
Qed.

Lemma perform_completion (call : DecorateCall) (c : t) :
  snd (perform call c) = match call with CallThrow e => Thrown e | _ => Returned tt end.
Proof. rewrite perform_either. destruct call; reflexivity. Qed.

Lemma restoreCache_either (es : list CachedDecoration) (c : t) :
  snd (restoreCache es c) = Returned tt
  /\ _curCacheableDecorator (fst (restoreCache es c)) = _curCacheableDecorator c.
Proof.
  revert c. induction es as [|e es IH]; intros c; [split; reflexivity|].
  cbn [restoreCache]. unfold js_bind.
  set (call := match e with
               | CachedGraphic g type => CallAddDecoration type g
               | CachedCanvas dec atFront => CallAddCanvasDecoration dec (Some atFront)
               | CachedHtml el => CallAddHtmlDecoration el
               end).
  assert (Hstep :
    match e with
    | CachedGraphic graphicOwner graphicType => addDecoration graphicType graphicOwner
    | CachedCanvas canvasDecoration atFront => addCanvasDecoration canvasDecoration (Some atFront)
    | CachedHtml htmlElement => addHtmlDecoration htmlElement
    end c = perform call c) by (destruct e; reflexivity).
  rewrite Hstep.
  pose proof (perform_completion call c) as Hc. pose proof (perform_slot call c) as Hs.
  destruct (perform call c) as [c' r]. cbn [fst snd] in Hc, Hs.
  assert (Hr : r = Returned tt) by (rewrite Hc; destruct e; reflexivity).
  rewrite Hr. destruct (IH c') as (I1 & I2). rewrite I1, I2, Hs. split; reflexivity.
Qed.

(** X1: no add-path of the context throws or changes the slot of the
    decorator being recorded, in either state of the slot and in either
    build; so the assertion of [_appendToCache] is never reached with the
    slot empty.  Called on its own with the slot empty, [_appendToCache]
    throws when assertions are checked, and files the decoration under the
    key [undefined] when they are not. *)
Theorem add_paths_return (c : t) :
  (forall (type : GraphicType.t) (g : RenderGraphic),
     snd (addDecoration type g c) = Returned tt
     /\ _curCacheableDecorator (fst (addDecoration type g c)) = _curCacheableDecorator c)
  /\ (forall b : GraphicBuilder.t,
        snd (addDecorationFromBuilder b c) = Returned tt
        /\ _curCacheableDecorator (fst (addDecorationFromBuilder b c))
           = _curCacheableDecorator c)
  /\ (forall (dec : CanvasDecoration) (atFront : option bool),
        snd (addCanvasDecoration dec atFront c) = Returned tt
        /\ _curCacheableDecorator (fst (addCanvasDecoration dec atFront c))
           = _curCacheableDecorator c)
  /\ (forall el : HTMLElement,
        snd (addHtmlDecoration el c) = Returned tt
        /\ _curCacheableDecorator (fst (addHtmlDecoration el c)) = _curCacheableDecorator c)
  /\ (forall es : list CachedDecoration,
        snd (restoreCache es c) = Returned tt
        /\ _curCacheableDecorator (fst (restoreCache es c)) = _curCacheableDecorator c)
  /\ (forall e : CachedDecoration,
        _appendToCache e c =
          match _curCacheableDecorator c with
          | Some h => (recordOne h e c, Returned tt)
          | None =>
              if assertionsEnabled then (c, Thrown AssertionError)
              else (set_viewport (Viewport.addCachedDecoration None e (viewport c)) c,
                    Returned tt)
          end).
Proof.
  split; [|split; [|split; [|split; [|split]]]].
  - intros type g. split.
    + exact (perform_completion (CallAddDecoration type g) c).
    + exact (perform_slot (CallAddDecoration type g) c).
  - intros b. split.
    + exact (perform_completion (CallAddDecorationFromBuilder b) c).
    + exact (perform_slot (CallAddDecorationFromBuilder b) c).
  - intros dec atFront. split.
    + exact (perform_completion (CallAddCanvasDecoration dec atFront) c).
    + exact (perform_slot (CallAddCanvasDecoration dec atFront) c).
  - intros el. split.
    + exact (perform_completion (CallAddHtmlDecoration el) c).
    + exact (perform_slot (CallAddHtmlDecoration el) c).
  - intros es. apply restoreCache_either.
  - intros e. destruct (_curCacheableDecorator c) as [h|] eqn:Hslot.
    + exact (appendToCache_recording h e c Hslot).
    + unfold _appendToCache, js_bind, js_assert.
      rewrite (is_Some_slot_false c Hslot). cbn [negb]. rewrite andb_true_r.
      destruct assertionsEnabled; [reflexivity|].
      unfold js_ret, js_modify. rewrite Hslot. reflexivity.
Qed.

(** *** A script as a fold *)

Lemma performAll_either (calls : list DecorateCall) (c : t) :
  fst (performAll calls c)
  = fold_left (fun c' call => stepWith (_curCacheableDecorator c) call c') (callsMade calls) c.
Proof.
  destruct (_curCacheableDecorator c) as [h|] eqn:Hslot.
  - rewrite (performAll_recording h calls c Hslot). reflexivity.
  - rewrite (performAll_idle calls c Hslot). reflexivity.
Qed.

Lemma performAll_completion (calls : list DecorateCall) (c : t) :
  snd (performAll calls c) = completionOf calls.
Proof.
  revert c. induction calls as [|call rest IH]; intros c; [reflexivity|].
  cbn [performAll]. unfold js_bind.
  pose proof (perform_completion call c) as Hc.
  destruct (perform call c) as [c' r]. cbn [snd] in Hc. subst r.
  destruct call; try apply IH. reflexivity.
Qed.

Lemma appended_app {A} (old : option (list A)) (l1 l2 : list A) :
  appended (appended old l1) l2 = appended old (l1 ++ l2).
Proof.
  destruct l1 as [|x l1]; [reflexivity|].
  destruct l2 as [|y l2]; cbn; [rewrite app_nil_r; reflexivity|].
  rewrite <- app_assoc. reflexivity.
Qed.

Lemma lastOr_app {A} (old : option A) (l1 l2 : list A) :
  lastOr (lastOr old l1) l2 = lastOr old (l1 ++ l2).
Proof.
  unfold lastOr. rewrite last_app.
  destruct (last l2); [reflexivity|]. destruct (last l1); reflexivity.
Qed.

Lemma stepWith_list (slot : option positive) (call : DecorateCall) (c : t)
    (type : GraphicType.t) :
  type <> GraphicType.ViewBackground ->
  listOfType type (_decorations (stepWith slot call c))
  = appended (listOfType type (_decorations c))
      (option_list (asPlaced slot <$> graphicOfType type call)).
Proof.
  intros Hlist. unfold stepWith, stepRecording, stepIdle, graphicOfType.
  destruct slot as [h|], call as [b|t g|dec atFront|el|g|g|e];
    cbn [entryOf plainEntryOf graphicOf directSet restoreOne];
    try (destruct type; reflexivity);
    try (destruct (GraphicBuilder.type b), type; try congruence; reflexivity);
    destruct t, type; try congruence; reflexivity.
Qed.

Lemma stepWith_background (slot : option positive) (call : DecorateCall) (c : t) :
  Decorations.viewBackground (_decorations (stepWith slot call c))
  = lastOr (Decorations.viewBackground (_decorations c)) (option_list (backgroundOf slot call)).
Proof.
  unfold stepWith, stepRecording, stepIdle, backgroundOf, graphicOfType.
  destruct slot as [h|], call as [b|t g|dec atFront|el|g|g|e];
    cbn [entryOf plainEntryOf graphicOf directSet restoreOne];
    try reflexivity;
    try (destruct (GraphicBuilder.type b); reflexivity);
    destruct t; reflexivity.
Qed.

Lemma stepWith_skyBox (slot : option positive) (call : DecorateCall) (c : t) :
  Decorations.skyBox (_decorations (stepWith slot call c))
  = lastOr (Decorations.skyBox (_decorations c)) (option_list (skyBoxOf call)).
Proof.
  unfold stepWith, stepRecording, stepIdle.
  destruct slot as [h|], call as [b|t g|dec atFront|el|g|g|e];
    cbn [entryOf plainEntryOf directSet restoreOne skyBoxOf];
    try reflexivity;
    try (destruct (GraphicBuilder.type b); reflexivity);
    destruct t; reflexivity.
Qed.

Lemma omap_cons_app {A B} (f : A -> option B) (x : A) (l : list A) :
  omap f (x :: l) = option_list (f x) ++ omap f l.
Proof. cbn. destruct (f x); reflexivity. Qed.

Lemma fold_stepWith_list (slot : option positive) (type : GraphicType.t)
    (cs : list DecorateCall) (c : t) :
  type <> GraphicType.ViewBackground ->
  listOfType type (_decorations (fold_left (fun c call => stepWith slot call c) cs c))
  = appended (listOfType type (_decorations c))
      (map (asPlaced slot) (omap (graphicOfType type) cs)).
Proof.
  intros Hlist. revert c. induction cs as [|call cs IH]; intros c; [reflexivity|].
  cbn [fold_left]. rewrite IH, (stepWith_list slot call c type Hlist), appended_app.
  rewrite omap_cons_app, map_app. f_equal. f_equal.
  destruct (graphicOfType type call); reflexivity.
Qed.

Lemma fold_stepWith_background (slot : option positive) (cs : list DecorateCall) (c : t) :
  Decorations.viewBackground
    (_decorations (fold_left (fun c call => stepWith slot call c) cs c))
  = lastOr (Decorations.viewBackground (_decorations c)) (omap (backgroundOf slot) cs).
Proof.
  revert c. induction cs as [|call cs IH]; intros c; [reflexivity|].
  cbn [fold_left]. rewrite IH, stepWith_background, lastOr_app, omap_cons_app. reflexivity.
Qed.

Lemma fold_stepWith_skyBox (slot : option positive) (cs : list DecorateCall) (c : t) :
  Decorations.skyBox (_decorations (fold_left (fun c call => stepWith slot call c) cs c))
  = lastOr (Decorations.skyBox (_decorations c)) (omap skyBoxOf cs).
Proof.
  revert c. induction cs as [|call cs IH]; intros c; [reflexivity|].
  cbn [fold_left]. rewrite IH, stepWith_skyBox, lastOr_app, omap_cons_app. reflexivity.
Qed.

(** X2: after a script, each graphic list of the bundle is what it was
    followed by the graphics the script added with that type, in the order
    of the calls (their owners while a decorator is recorded); a list no
    graphic was added to stays as it was, undefined included.  The view
    background and the sky box are the last ones set, and a builder the
    context creates for a type keeps that type whatever is called on it. *)
Theorem graphics_filed_by_type (calls : list DecorateCall) (c : t) (type : GraphicType.t) :
  let c' := fst (performAll calls c) in
  let slot := _curCacheableDecorator c in
  listOfType type (_decorations c')
  = match type with
    | GraphicType.ViewBackground => None
    | _ => appended (listOfType type (_decorations c))
             (map (asPlaced slot) (graphicsOfType type calls))
    end
  /\ Decorations.viewBackground (_decorations c')
     = lastOr (Decorations.viewBackground (_decorations c))
         (omap (backgroundOf slot) (callsMade calls))
  /\ Decorations.skyBox (_decorations c')
     = lastOr (Decorations.skyBox (_decorations c)) (omap skyBoxOf (callsMade calls))
  /\ (forall (transform : option Transform.t) (id : option Id64String)
             (commands : list GraphicBuilder.Command),
        GraphicBuilder.type
          (fold_left GraphicBuilder.call commands (createGraphicBuilder type transform id))
        = type).
Proof.
  cbn zeta. rewrite performAll_either. split; [|split; [|split]].
  - unfold graphicsOfType.
    destruct type; try (apply fold_stepWith_list; discriminate). reflexivity.
  - apply fold_stepWith_background.
  - apply fold_stepWith_skyBox.
  - intros transform id commands.
    assert (Hkeep : forall cmds b,
              GraphicBuilder.type (fold_left GraphicBuilder.call cmds b) = GraphicBuilder.type b).
    { induction cmds as [|cmd cmds IH]; intros b; [reflexivity|].
      cbn [fold_left]. rewrite IH. reflexivity. }
    rewrite Hkeep. reflexivity.
Qed.

(** *** The canvas list *)

Lemma insertCanvas_back (d : CanvasDecoration) (l : list CanvasDecoration) :
  insertCanvas d false l = d :: l.
Proof. destruct l; reflexivity. Qed.

Lemma insertCanvas_front (d : CanvasDecoration) (l : list CanvasDecoration) :
  insertCanvas d true l = l ++ [d].
Proof. destruct l; reflexivity. Qed.

Lemma insertCanvas_perm (d : CanvasDecoration) (atFront : bool) (l : list CanvasDecoration) :
  insertCanvas d atFront l ≡ₚ d :: l.
Proof.
  destruct atFront; [rewrite insertCanvas_front|rewrite insertCanvas_back; reflexivity].
  symmetry. apply Permutation_cons_append.
Qed.

Lemma addCanvasDecoration_either (d : CanvasDecoration) (atFront : option bool) (c : t) :
  snd (addCanvasDecoration d atFront c) = Returned tt
  /\ Decorations.canvasDecorations (_decorations (fst (addCanvasDecoration d atFront c)))
     = Some (insertCanvas d (default false atFront) (canvasList c)).
Proof.
  pose proof (perform_either (CallAddCanvasDecoration d atFront) c) as Hp.
  cbn [perform] in Hp. rewrite Hp. split; [reflexivity|].
  destruct (_curCacheableDecorator c); reflexivity.
Qed.

Lemma addCanvasDecorations_back (ds : list CanvasDecoration) (atFront : option bool) (c : t) :
  default false atFront = false ->
  snd (addCanvasDecorations ds atFront c) = Returned tt
  /\ Decorations.canvasDecorations (_decorations (fst (addCanvasDecorations ds atFront c)))
     = match ds with
       | [] => Decorations.canvasDecorations (_decorations c)
       | _ :: _ => Some (rev ds ++ canvasList c)
       end.
Proof.
  intros Hback. revert c. induction ds as [|d ds IH]; intros c; [split; reflexivity|].
  cbn [addCanvasDecorations]. unfold js_bind.
  destruct (addCanvasDecoration_either d atFront c) as (Hr & Hl).
  destruct (addCanvasDecoration d atFront c) as [c' r]. cbn [fst snd] in Hr, Hl. subst r.
  destruct (IH c') as (Ir & Il). split; [exact Ir|]. rewrite Il.
  rewrite Hback, insertCanvas_back in Hl.
  destruct ds as [|d' ds]; [exact Hl|].
  unfold canvasList. rewrite Hl. cbn [default rev]. rewrite <- !app_assoc. reflexivity.
Qed.

Lemma addCanvasDecorations_front (ds : list CanvasDecoration) (c : t) :
  snd (addCanvasDecorations ds (Some true) c) = Returned tt
  /\ Decorations.canvasDecorations (_decorations (fst (addCanvasDecorations ds (Some true) c)))
     = match ds with
       | [] => Decorations.canvasDecorations (_decorations c)
       | _ :: _ => Some (canvasList c ++ ds)
       end.
Proof.
  revert c. induction ds as [|d ds IH]; intros c; [split; reflexivity|].
  cbn [addCanvasDecorations]. unfold js_bind.
  destruct (addCanvasDecoration_either d (Some true) c) as (Hr & Hl).
  destruct (addCanvasDecoration d (Some true) c) as [c' r]. cbn [fst snd] in Hr, Hl. subst r.
  destruct (IH c') as (Ir & Il). split; [exact Ir|]. rewrite Il.
  cbn [default] in Hl. rewrite insertCanvas_front in Hl.
  destruct ds as [|d' ds]; [exact Hl|].
  unfold canvasList. rewrite Hl. cbn. rewrite <- app_assoc. reflexivity.
Qed.

Lemma stepWith_canvas (slot : option positive) (call : DecorateCall) (c : t) :
  canvasList (stepWith slot call c)
  = match canvasOf call with
    | Some (d, atFront) => insertCanvas d atFront (canvasList c)
    | None => canvasList c
    end.
Proof.
  unfold stepWith, stepRecording, stepIdle, canvasList.
  destruct slot as [h|], call as [b|t g|dec atFront|el|g|g|e];
    cbn [entryOf plainEntryOf directSet restoreOne canvasOf];
    try reflexivity;
    try (destruct (GraphicBuilder.type b); reflexivity);
    destruct t; reflexivity.
Qed.

Lemma fold_stepWith_canvas (slot : option positive) (cs : list DecorateCall) (c : t) :
  canvasList (fold_left (fun c call => stepWith slot call c) cs c)
  ≡ₚ map fst (omap canvasOf cs) ++ canvasList c.
Proof.
  revert c. induction cs as [|call cs IH]; intros c; [reflexivity|].
  cbn [fold_left]. rewrite IH, stepWith_canvas, omap_cons_app, map_app.
  destruct (canvasOf call) as [[d atFront]|]; [|reflexivity].
  cbn [option_list map fst app]. rewrite insertCanvas_perm.
  rewrite <- Permutation_middle. reflexivity.
Qed.

(** X3: canvas decorations added one after another with [atFront] omitted
    or false end up in the reverse of the order they were added in, ahead
    of those the list held; added with [atFront] true they end up in the
    order they were added in, behind those the list held.  Whatever the
    arguments, a script's canvas decorations are all in the list afterwards,
    each once, with those it held; and no such call throws. *)
Theorem canvas_decorations_order (ds : list CanvasDecoration) (c : t) :
  (snd (addCanvasDecorations ds None c) = Returned tt
   /\ Decorations.canvasDecorations (_decorations (fst (addCanvasDecorations ds None c)))
      = match ds with
        | [] => Decorations.canvasDecorations (_decorations c)
        | _ :: _ => Some (rev ds ++ canvasList c)
        end)
  /\ (snd (addCanvasDecorations ds (Some false) c) = Returned tt
      /\ Decorations.canvasDecorations
           (_decorations (fst (addCanvasDecorations ds (Some false) c)))
         = match ds with
           | [] => Decorations.canvasDecorations (_decorations c)
           | _ :: _ => Some (rev ds ++ canvasList c)
           end)
  /\ (snd (addCanvasDecorations ds (Some true) c) = Returned tt
      /\ Decorations.canvasDecorations
           (_decorations (fst (addCanvasDecorations ds (Some true) c)))
         = match ds with
           | [] => Decorations.canvasDecorations (_decorations c)
           | _ :: _ => Some (canvasList c ++ ds)
           end)
  /\ (forall calls : list DecorateCall,
        canvasList (fst (performAll calls c))
        ≡ₚ map fst (omap canvasOf (callsMade calls)) ++ canvasList c).
Proof.
  split; [|split; [|split]].
  - apply addCanvasDecorations_back. reflexivity.
  - apply addCanvasDecorations_back. reflexivity.
  - apply addCanvasDecorations_front.
  - intros calls. rewrite performAll_either. apply fold_stepWith_canvas.
Qed.

(** *** The cache after [addFromDecorator] *)

Lemma stepRecording_other (h : positive) (call : DecorateCall) (c : t)
    (k : option positive) :
  k <> Some h -> cacheOf (stepRecording h call c) !! k = cacheOf c !! k.
Proof.
  intros Hk. unfold stepRecording.
  destruct call as [b|t g|dec atFront|el|g|g|e]; cbn [entryOf directSet]; try reflexivity;
    [destruct (GraphicBuilder.type b)|destruct t| |];
    cbn; apply lookup_insert_ne; congruence.
Qed.

Lemma fold_stepRecording_other (h : positive) (cs : list DecorateCall) (c : t)
    (k : option positive) :
  k <> Some h ->
  cacheOf (fold_left (fun c call => stepRecording h call c) cs c) !! k = cacheOf c !! k.
Proof.
  intros Hk. revert c. induction cs as [|call cs IH]; intros c; [reflexivity|].
  cbn [fold_left]. rewrite IH. apply stepRecording_other. exact Hk.
Qed.

(** The context on which a scripted decorator's calls run, once
    [addFromDecorator] has entered [decorate]. *)
Lemma decorate_scripted (h : positive) (flag : option bool) (calls : list DecorateCall)
    (c : t) :
  decorate (scripted h flag calls) c
  = performAll calls (set_decorateEntered (decorateEntered c ++ [h]) c).
Proof. reflexivity. Qed.

(** X5: an invocation of [addFromDecorator] changes the decoration cache at
    the decorator's own key at most, and there only when the decorator
    caches and the cache held nothing for it: the entry is then the
    decorations of its add-calls, in their order, and no entry when it made
    none.  Every other decorator's entry is as it was, and nothing is ever
    filed under [undefined]. *)
Theorem addFromDecorator_cache (h : positive) (flag : option bool)
    (calls : list DecorateCall) (c : t) (k : option positive) :
  _curCacheableDecorator c = None ->
  cacheOf (fst (addFromDecorator (scripted h flag calls) c)) !! k
  = if bool_decide (k = Some h) && truthy flag && bool_decide (cacheOf c !! Some h = None)
    then appendEntries None (entriesOf calls)
    else cacheOf c !! k.
Proof.
  intros Hidle. set (d := scripted h flag calls).
  destruct (truthy flag) eqn:Hflag.
  - destruct (cacheOf c !! Some h) as [cached|] eqn:Hentry.
    + rewrite (bool_decide_eq_false_2 (Some cached = None)) by discriminate.
      rewrite andb_false_r.
      rewrite (addFromDecorator_replay d cached c Hidle Hflag Hentry).
      rewrite (restoreCache_idle cached c Hidle). cbn [fst].
      destruct (fold_restoreOne_keeps cached c) as (_ & K & _). rewrite K. reflexivity.
    + rewrite (bool_decide_eq_true_2 (None = None)) by reflexivity. rewrite !andb_true_r.
      rewrite (addFromDecorator_record d c Hidle Hflag Hentry). cbn [fst].
      change (ViewportDecorator.handle d) with h. unfold d. rewrite decorate_scripted.
      set (cL := set_decorateEntered _ _).
      assert (HL : _curCacheableDecorator cL = Some h) by reflexivity.
      rewrite (performAll_recording h calls cL HL).
      destruct (decide (k = Some h)) as [->|Hk].
      * rewrite bool_decide_eq_true_2 by reflexivity.
        destruct (fold_stepRecording_keeps h calls cL) as (_ & _ & K).
        unfold cacheOf in K |- *. cbn [viewport set_curCacheableDecorator]. rewrite K.
        change (Viewport._decorationCache (viewport cL)) with (cacheOf c).
        rewrite Hentry. reflexivity.
      * rewrite bool_decide_eq_false_2 by exact Hk.
        pose proof (fold_stepRecording_other h (callsMade calls) cL k Hk) as K.
        unfold cacheOf in K |- *. cbn [viewport set_curCacheableDecorator]. rewrite K.
        reflexivity.
  - rewrite andb_false_r.
    rewrite (addFromDecorator_uncached d c (or_intror Hidle) Hflag). cbn [fst].
    unfold d. rewrite decorate_scripted.
    set (cL := set_decorateEntered _ _).
    assert (HL : _curCacheableDecorator cL = None) by exact Hidle.
    rewrite (performAll_idle calls cL HL).
    destruct (fold_stepIdle_keeps (callsMade calls) cL) as (_ & K & _).
    unfold cacheOf in K |- *. cbn [viewport set_curCacheableDecorator]. rewrite K.
    reflexivity.
Qed.

(** The entry a caching decorator's first invocation leaves. *)
Lemma recorded_entry (h : positive) (flag : option bool) (calls : list DecorateCall) (c : t) :
  _curCacheableDecorator c = None ->
  truthy flag = true ->
  Viewport.getCachedDecorations (viewport c) (scripted h flag calls) = None ->
  0 < addCallsMade calls ->
  Viewport.getCachedDecorations
    (viewport (fst (addFromDecorator (scripted h flag calls) c))) (scripted h flag calls)
  = Some (entriesOf calls).
Proof.
  intros Hidle Hflag Hnone Hpos.
  destruct (addFromDecorator_record_effect h flag calls c Hidle Hflag Hnone)
    as (_ & _ & K & _).
  rewrite K. rewrite <- length_entriesOf in Hpos.
  destruct (entriesOf calls); [cbn in Hpos; lia|reflexivity].
Qed.

(** X6: [addFromDecorator] has no [catch]: an exception thrown by
    [decorate] reaches its caller.  What the decorator added before it
    threw stays in the cache of a decorator that caches, so the next
    invocation finds an entry, restores from it without calling [decorate],
    and returns. *)
Theorem addFromDecorator_propagates (h : positive) (flag : option bool)
    (calls : list DecorateCall) (c : t) :
  _curCacheableDecorator c = None ->
  let d := scripted h flag calls in
  let c1 := fst (addFromDecorator d c) in
  snd (addFromDecorator d c)
  = (if truthy flag && bool_decide (is_Some (Viewport.getCachedDecorations (viewport c) d))
     then Returned tt
     else completionOf calls)
  /\ (truthy flag = true ->
      Viewport.getCachedDecorations (viewport c) d = None ->
      0 < addCallsMade calls ->
      Viewport.getCachedDecorations (viewport c1) d = Some (entriesOf calls)
      /\ forall c2 : t,
           _curCacheableDecorator c2 = None ->
           Viewport.getCachedDecorations (viewport c2) d
           = Viewport.getCachedDecorations (viewport c1) d ->
           snd (addFromDecorator d c2) = Returned tt
           /\ timesDecorated (fst (addFromDecorator d c2)) d = timesDecorated c2 d).
Proof.
  intros Hidle. cbn zeta. set (d := scripted h flag calls).
  assert (Hfirst : forall c0, _curCacheableDecorator c0 = None ->
            snd (addFromDecorator d c0)
            = (if truthy flag
                  && bool_decide (is_Some (Viewport.getCachedDecorations (viewport c0) d))
               then Returned tt
               else completionOf calls)).
  { intros c0 H0. destruct (truthy flag) eqn:Hflag.
    - destruct (Viewport.getCachedDecorations (viewport c0) d) as [cached|] eqn:Hentry.
      + rewrite bool_decide_eq_true_2 by eauto. cbn [andb].
        rewrite (addFromDecorator_replay d cached c0 H0 Hflag Hentry).
        rewrite (restoreCache_idle cached c0 H0). reflexivity.
      + rewrite bool_decide_eq_false_2 by (intros [? ?]; discriminate). cbn [andb].
        rewrite (addFromDecorator_record d c0 H0 Hflag Hentry). cbn [snd].
        unfold d. rewrite decorate_scripted. apply performAll_completion.
    - cbn [andb].
      rewrite (addFromDecorator_uncached d c0 (or_intror H0) Hflag). cbn [snd].
      unfold d. rewrite decorate_scripted. apply performAll_completion. }
  split; [exact (Hfirst c Hidle)|].
  intros Hflag Hnone Hpos.
  pose proof (recorded_entry h flag calls c Hidle Hflag Hnone Hpos) as Hentry. fold d in Hentry.
  split; [exact Hentry|].
  intros c2 Hidle2 Hsame. rewrite Hentry in Hsame.
  split.
  - rewrite (Hfirst c2 Hidle2), Hflag, Hsame. rewrite bool_decide_eq_true_2 by eauto.
    reflexivity.
  - rewrite (addFromDecorator_replay d _ c2 Hidle2 Hflag Hsame).
    rewrite (restoreCache_idle _ c2 Hidle2). cbn [fst].
    destruct (fold_restoreOne_keeps (entriesOf calls) c2) as (_ & _ & K).
    unfold timesDecorated. rewrite K. reflexivity.
Qed.

(** *** What is not cached *)

Lemma restoreOne_skyBox (e : CachedDecoration) (c : t) :
  Decorations.skyBox (_decorations (restoreOne e c)) = Decorations.skyBox (_decorations c).
Proof. destruct e as [g type|dec atFront|el]; [destruct type|..]; reflexivity. Qed.

Lemma restoreOne_background (e : CachedDecoration) (c : t) :
  Decorations.viewBackground (_decorations (restoreOne e c))
  = lastOr (Decorations.viewBackground (_decorations c)) (option_list (backgroundOfEntry e)).
Proof. destruct e as [g type|dec atFront|el]; [destruct type|..]; reflexivity. Qed.

Lemma fold_restoreOne_skyBox (es : list CachedDecoration) (c : t) :
  Decorations.skyBox (_decorations (fold_left (fun c e => restoreOne e c) es c))
  = Decorations.skyBox (_decorations c).
Proof.
  revert c. induction es as [|e es IH]; intros c; [reflexivity|].
  cbn [fold_left]. rewrite IH. apply restoreOne_skyBox.
Qed.

Lemma fold_restoreOne_background (es : list CachedDecoration) (c : t) :
  Decorations.viewBackground (_decorations (fold_left (fun c e => restoreOne e c) es c))
  = lastOr (Decorations.viewBackground (_decorations c)) (omap backgroundOfEntry es).
Proof.
  revert c. induction es as [|e es IH]; intros c; [reflexivity|].
  cbn [fold_left]. rewrite IH, restoreOne_background, lastOr_app, omap_cons_app. reflexivity.
Qed.

Lemma backgrounds_of_entries (calls : list DecorateCall) :
  omap backgroundOfEntry (entriesOf calls)
  = map createGraphicOwner (graphicsOfType GraphicType.ViewBackground calls).
Proof.
  unfold graphicsOfType.
  induction calls as [|call rest IH]; [reflexivity|].
  destruct call as [b|t g|dec atFront|el|g|g|e];
    cbn [entriesOf callsMade entryOf option_list app]; try exact IH; try reflexivity.
  - rewrite omap_app, omap_cons_app, map_app, <- IH. f_equal.
    unfold graphicOfType. cbn [graphicOf]. destruct (GraphicBuilder.type b); reflexivity.
  - rewrite omap_app, omap_cons_app, map_app, <- IH. f_equal.
    unfold graphicOfType. cbn [graphicOf]. destruct t; reflexivity.
Qed.

(** X4: [setSkyBox] and [setViewBackground] record nothing, whether or not
    a decorator is being recorded, and restoring from the cache never sets
    the sky box.  So a frame restored from the cache of a decorator has the
    sky box it started with, not the one the decorator set when it
    decorated, and of the backgrounds the decorator set it has the last
    that went through [addDecoration]. *)
Theorem direct_sets_are_not_cached (h : positive) (calls : list DecorateCall) (c : t) :
  (forall (g : RenderGraphic) (c0 : t),
     cacheOf (fst (setSkyBox g c0)) = cacheOf c0
     /\ cacheOf (fst (setViewBackground g c0)) = cacheOf c0)
  /\ (_curCacheableDecorator c = None ->
      forall cached : list CachedDecoration,
        Decorations.skyBox (_decorations (fst (restoreCache cached c)))
        = Decorations.skyBox (_decorations c))
  /\ (_curCacheableDecorator c = None ->
      let d := scripted h (Some true) calls in
      Viewport.getCachedDecorations (viewport c) d = None ->
      0 < addCallsMade calls ->
      let c1 := fst (addFromDecorator d c) in
      Decorations.skyBox (_decorations c1)
      = lastOr (Decorations.skyBox (_decorations c)) (omap skyBoxOf (callsMade calls))
      /\ forall c2 : t,
           _curCacheableDecorator c2 = None ->
           Viewport.getCachedDecorations (viewport c2) d
           = Viewport.getCachedDecorations (viewport c1) d ->
           let c3 := fst (addFromDecorator d c2) in
           Decorations.skyBox (_decorations c3) = Decorations.skyBox (_decorations c2)
           /\ Decorations.viewBackground (_decorations c3)
              = lastOr (Decorations.viewBackground (_decorations c2))
                  (map createGraphicOwner
                     (graphicsOfType GraphicType.ViewBackground calls))).
Proof.
  split; [intros g c0; split; reflexivity|]. split.
  - intros Hidle cached. rewrite (restoreCache_idle cached c Hidle). cbn [fst].
    apply fold_restoreOne_skyBox.
  - intros Hidle. cbn zeta. set (d := scripted h (Some true) calls). intros Hnone Hpos.
    pose proof (recorded_entry h (Some true) calls c Hidle eq_refl Hnone Hpos) as Hentry.
    fold d in Hentry.
    split.
    + rewrite (addFromDecorator_record d c Hidle eq_refl Hnone). cbn [fst].
      unfold d. rewrite decorate_scripted. cbn [_decorations set_curCacheableDecorator].
      rewrite performAll_either. rewrite fold_stepWith_skyBox. reflexivity.
    + intros c2 Hidle2 Hsame. rewrite Hentry in Hsame. cbn zeta.
      rewrite (addFromDecorator_replay d _ c2 Hidle2 eq_refl Hsame).
      rewrite (restoreCache_idle _ c2 Hidle2). cbn [fst].
      rewrite fold_restoreOne_skyBox, fold_restoreOne_background, backgrounds_of_entries.
      split; reflexivity.
Qed.

End WithConfig.

(** A decorator that sets the sky box itself and adds a canvas decoration:
    the frame it decorates has the sky box, the frame restored from its
    cache has not. *)
Lemma direct_sets_are_not_cached_witness :
  let d := @scripted TopView.debug 7 (Some true)
             [CallSetSkyBox (Graphic 5); CallAddCanvasDecoration TopView.first None] in
  let c1 := fst (@addFromDecorator TopView.debug d (TopView.context 1)) in
  let c2 := DecorateContext.new (viewport c1) Decorations.empty in
  let c3 := fst (@addFromDecorator TopView.debug d c2) in
  Decorations.skyBox (_decorations c1) = Some (Graphic 5)
  /\ Decorations.skyBox (_decorations c3) = None
  /\ Decorations.canvasDecorations (_decorations c3) = Some [TopView.first].
Proof.
  cbn zeta.
  destruct (@direct_sets_are_not_cached TopView.debug 7
              [CallSetSkyBox (Graphic 5); CallAddCanvasDecoration TopView.first None]
              (TopView.context 1)) as (_ & _ & Hrecorded).
  destruct (Hrecorded eq_refl eq_refl ltac:(cbn; lia)) as (Hfirst & Hnext).
  split; [exact Hfirst|].
  split; [|reflexivity].
  exact (proj1 (Hnext
                  (DecorateContext.new
                     (viewport
                        (fst (@addFromDecorator TopView.debug
                                (@scripted TopView.debug 7 (Some true)
                                   [CallSetSkyBox (Graphic 5);
                                    CallAddCanvasDecoration TopView.first None])
                                (TopView.context 1))))
                     Decorations.empty)
                  eq_refl eq_refl)).
Defined.

Lemma addFromDecorator_cache_witness :
  cacheOf (fst (@addFromDecorator TopView.debug (Decorators.failing (Some true))
                  (TopView.context 1))) !! Some 9%positive
  = Some [CachedCanvas TopView.second true]
  /\ cacheOf (fst (@addFromDecorator TopView.debug (Decorators.failing (Some true))
                     (TopView.context 1))) !! None
     = None.
Proof.
  split.
  - exact (@addFromDecorator_cache TopView.debug 9 (Some true) _ (TopView.context 1)
             (Some 9%positive) eq_refl).
  - exact (@addFromDecorator_cache TopView.debug 9 (Some true) _ (TopView.context 1)
             None eq_refl).
Defined.

Lemma addFromDecorator_propagates_witness :
  let d := Decorators.failing (Some true) in
  let c1 := fst (@addFromDecorator TopView.debug d (TopView.context 1)) in
  snd (@addFromDecorator TopView.debug d (TopView.context 1)) = Thrown (ThrownError 1)
  /\ snd (@addFromDecorator TopView.debug d c1) = Returned tt
  /\ timesDecorated (fst (@addFromDecorator TopView.debug d c1)) d = timesDecorated c1 d.
Proof.
  cbn zeta.
  destruct (@addFromDecorator_propagates TopView.debug 9 (Some true)
              [CallAddCanvasDecoration TopView.second (Some true); CallThrow (ThrownError 1);
               CallAddCanvasDecoration TopView.third None]
              (TopView.context 1) eq_refl) as (Hfirst & Hnext).
  split; [exact Hfirst|].
  destruct (Hnext eq_refl eq_refl ltac:(cbn; lia)) as (_ & Hreplay).
  exact (Hreplay
           (fst (@addFromDecorator TopView.debug (Decorators.failing (Some true))
                   (TopView.context 1)))
           eq_refl eq_refl).
Defined.
End AddPathFacts.

(** ** The order of binary64 *)

Module FloatOrderFacts.
Local Open Scope float_scope.

Lemma SFcompare_refl (x : spec_float) : SFcompare x x = Some Eq \/ SFcompare x x = None.
Proof.
  destruct x as [s|s| |s m e]; cbn; auto.
  - destruct s; auto.
  - rewrite Z.compare_refl.
    change (Pcompare m m Eq) with (Pos.compare m m). rewrite Pos.compare_refl.
    destruct s; auto.
Qed.

Lemma ltb_irrefl (a : float) : (a <? a) = false.
Proof.
  rewrite FloatAxioms.ltb_spec. unfold SFltb.
  destruct (SFcompare_refl (Prim2SF a)) as [-> | ->]; reflexivity.
Qed.

Lemma ltb_leb (a b : float) : (a <? b) = true -> (a <=? b) = true.
Proof.
  rewrite FloatAxioms.ltb_spec, FloatAxioms.leb_spec. unfold SFltb, SFleb.
  destruct (SFcompare (Prim2SF a) (Prim2SF b)) as [[]|]; congruence.
Qed.

Lemma SFcompare_Lt_trans (x y z : spec_float) :
  SFcompare x y = Some Lt -> SFcompare y z = Some Lt -> SFcompare x z = Some Lt.
Proof.
  destruct x as [sx|sx| |sx mx ex], y as [sy|sy| |sy my ey], z as [sz|sz| |sz mz ez];
    cbn; try discriminate; try reflexivity;
    repeat match goal with s : bool |- _ => destruct s end;
    try discriminate; try reflexivity.
  - change (Pcompare mx my Eq) with (Pos.compare mx my).
    change (Pcompare my mz Eq) with (Pos.compare my mz).
    change (Pcompare mx mz Eq) with (Pos.compare mx mz).
    destruct (Z.compare_spec ex ey), (Z.compare_spec ey ez), (Z.compare_spec ex ez);
      try lia; try discriminate; try reflexivity; subst;
      destruct (Pos.compare_spec mx my), (Pos.compare_spec my mz), (Pos.compare_spec mx mz);
      try lia; try discriminate; try reflexivity.
  - change (Pcompare mx my Eq) with (Pos.compare mx my).
    change (Pcompare my mz Eq) with (Pos.compare my mz).
    change (Pcompare mx mz Eq) with (Pos.compare mx mz).
    destruct (Z.compare_spec ex ey), (Z.compare_spec ey ez), (Z.compare_spec ex ez);
      try lia; try discriminate; try reflexivity; subst;
      destruct (Pos.compare_spec mx my), (Pos.compare_spec my mz), (Pos.compare_spec mx mz);
      try lia; try discriminate; try reflexivity.
Qed.

Lemma ltb_trans (a b c : float) : (a <? b) = true -> (b <? c) = true -> (a <? c) = true.
Proof.
  rewrite !FloatAxioms.ltb_spec. unfold SFltb. intros Hab Hbc.
  destruct (SFcompare (Prim2SF a) (Prim2SF b)) as [[]|] eqn:Eab; try discriminate.
  destruct (SFcompare (Prim2SF b) (Prim2SF c)) as [[]|] eqn:Ebc; try discriminate.
  rewrite (SFcompare_Lt_trans _ _ _ Eab Ebc). reflexivity.
Qed.
End FloatOrderFacts.

(** ** The standard grid: the clip, the plane and the lines *)

Module GridFacts.
Import StandardGrid gridConstants.
Local Open Scope float_scope.

Section WithGeometry.
Context `{GeometryCore}.

(** *** The clipped points *)

Lemma closeIndexFrom_lt (vp : Viewport.t) (pts : list Point3d.t) (i : nat) (lastZ : float)
    (closeIndex : nat) :
  (closeIndex < i)%nat ->
  (closeIndexFrom vp pts i lastZ closeIndex < i + length pts)%nat.
Proof.
  revert i lastZ closeIndex. induction pts as [|p rest IH]; intros i lastZ closeIndex Hlt.
  - cbn. lia.
  - cbn [closeIndexFrom length].
    destruct (Nat.eqb i 0 || (lastZ <? Point3d.z (Viewport.worldToView vp p))).
    + specialize (IH (S i) (Point3d.z (Viewport.worldToView vp p)) i). lia.
    + specialize (IH (S i) lastZ closeIndex). lia.
Qed.

Lemma closeIndex_lt (vp : Viewport.t) (pts : list Point3d.t) :
  pts <> [] -> (closeIndexFrom vp pts 0 0 0 < length pts)%nat.
Proof.
  destruct pts as [|p rest]; [congruence|]. intros _.
  cbn [closeIndexFrom Nat.eqb orb length].
  pose proof (closeIndexFrom_lt vp rest 1 (Point3d.z (Viewport.worldToView vp p)) 0).
  lia.
Qed.

(** The loop keeps the index of a seen point whose view z no seen point
    exceeds. *)
Lemma closeIndexFrom_max (vp : Viewport.t) (rest seen : list Point3d.t) (lastZ : float)
    (closeIndex : nat) (q : Point3d.t) :
  seen !! closeIndex = Some q ->
  viewZ vp q = lastZ ->
  (forall p, p ∈ seen -> (lastZ <? viewZ vp p) = false) ->
  exists q',
    (seen ++ rest) !! closeIndexFrom vp rest (length seen) lastZ closeIndex = Some q'
    /\ forall p, p ∈ seen ++ rest -> (viewZ vp q' <? viewZ vp p) = false.
Proof.
  revert seen lastZ closeIndex q.
  induction rest as [|p rest IH]; intros seen lastZ closeIndex q Hq Hz Hmax.
  - cbn [closeIndexFrom]. rewrite app_nil_r. exists q. split; [exact Hq|].
    intros p Hp. rewrite Hz. apply Hmax. exact Hp.
  - cbn [closeIndexFrom]. fold (viewZ vp p).
    assert (Hlen : length (seen ++ [p]) = S (length seen))
      by (rewrite length_app; cbn; lia).
    rewrite (cons_middle p seen rest), app_assoc.
    destruct (Nat.eqb (length seen) 0 || (lastZ <? viewZ vp p)) eqn:Hcond.
    + rewrite <- Hlen.
      apply (IH (seen ++ [p]) (viewZ vp p) (length seen) p).
      * rewrite lookup_app_r by lia. rewrite Nat.sub_diag. reflexivity.
      * reflexivity.
      * intros x Hx. apply elem_of_app in Hx as [Hx|Hx].
        -- apply orb_prop in Hcond as [Hfirst|Hgreater].
           ++ apply Nat.eqb_eq in Hfirst. destruct seen; [inversion Hx|discriminate].
           ++ destruct (viewZ vp p <? viewZ vp x) eqn:Hpx; [|reflexivity].
              pose proof (Hmax x Hx) as Hnot.
              rewrite (FloatOrderFacts.ltb_trans _ _ _ Hgreater Hpx) in Hnot.
              discriminate.
        -- apply list_elem_of_singleton in Hx. subst x. apply FloatOrderFacts.ltb_irrefl.
    + rewrite <- Hlen.
      apply (IH (seen ++ [p]) lastZ closeIndex q).
      * rewrite lookup_app_l; [exact Hq|]. apply lookup_lt_Some in Hq. exact Hq.
      * exact Hz.
      * intros x Hx. apply elem_of_app in Hx as [Hx|Hx]; [apply Hmax; exact Hx|].
        apply list_elem_of_singleton in Hx. subst x.
        apply orb_false_elim in Hcond as [_ Hnot]. exact Hnot.
Qed.

Lemma closeIndex_max (vp : Viewport.t) (pts : list Point3d.t) :
  pts <> [] ->
  exists q,
    pts !! closeIndexFrom vp pts 0 0 0 = Some q
    /\ forall p, p ∈ pts -> (viewZ vp q <? viewZ vp p) = false.
Proof.
  destruct pts as [|p rest]; [congruence|]. intros _.
  cbn [closeIndexFrom Nat.eqb orb]. fold (viewZ vp p).
  apply (closeIndexFrom_max vp rest [p] (viewZ vp p) 0 p); [reflexivity..|].
  intros x Hx. apply list_elem_of_singleton in Hx. subst x.
  apply FloatOrderFacts.ltb_irrefl.
Qed.

(** What [getClippedGridPlanePoints] returns when it returns points. *)
Lemma clipped_points_inv (vp : Viewport.t) (plane : Plane3dByOriginAndUnitNormal.t)
    (shapePoints : list Point3d.t) (loopPt : Point3d.t) :
  getClippedGridPlanePoints vp plane = Some (shapePoints, loopPt) ->
  (4 <= length shapePoints)%nat
  /\ (exists points,
        ClipUtilities_loopsOfConvexClipPlaneIntersectionWithRange
          (ConvexClipPlaneSet.createPlanes [ClipPlane.createPlane plane])
          (Frustum_toRange (Viewport.getFrustum vp)) true false true
        = Some [Loop [LineString3d points]]
        /\ shapePoints
           = ConvexClipPlaneSet_polygonClip
               (Frustum_getRangePlanes (Viewport.getFrustum vp) false false 0) points)
  /\ shapePoints
     !! (if Viewport.isCameraOn vp then closeIndexFrom vp shapePoints 0 0 0 else 0%nat)
     = Some loopPt.
Proof.
  unfold getClippedGridPlanePoints.
  destruct (ClipUtilities_loopsOfConvexClipPlaneIntersectionWithRange _ _ _ _ _)
    as [[|[[|[points|tag] [|child children]]|tag] [|loop geom]]|]; try discriminate.
  destruct (Nat.ltb _ 4) eqn:Hlen; [discriminate|].
  apply Nat.ltb_ge in Hlen. intros [= <- <-].
  split; [exact Hlen|]. split; [eexists; split; reflexivity|].
  set (pts := ConvexClipPlaneSet_polygonClip _ points) in *.
  assert (Hne : pts <> []) by (intros Heq; rewrite Heq in Hlen; cbn in Hlen; lia).
  assert (Hidx : ((if Viewport.isCameraOn vp then closeIndexFrom vp pts 0 0 0 else 0%nat)
                  < length pts)%nat).
  { destruct (Viewport.isCameraOn vp); [apply closeIndex_lt; exact Hne|lia]. }
  destruct (lookup_lt_is_Some_2 pts _ Hidx) as [q Hq]. rewrite Hq. reflexivity.
Qed.

(** X10: [getClippedGridPlanePoints] returns undefined exactly when the clip
    is degenerate.  Otherwise it returns the clipped points of the one line
    string of the one loop, at least four of them, and leaves in [loopPt] one
    of those points: the first when the camera is off. *)
Theorem clipped_points_or_degenerate (vp : Viewport.t)
    (plane : Plane3dByOriginAndUnitNormal.t) :
  (getClippedGridPlanePoints vp plane = None <-> DegenerateClip vp plane)
  /\ forall (shapePoints : list Point3d.t) (loopPt : Point3d.t),
       getClippedGridPlanePoints vp plane = Some (shapePoints, loopPt) ->
       (4 <= length shapePoints)%nat
       /\ loopPt ∈ shapePoints
       /\ (Viewport.isCameraOn vp = false -> shapePoints !! 0%nat = Some loopPt)
       /\ exists points,
            ClipUtilities_loopsOfConvexClipPlaneIntersectionWithRange
              (ConvexClipPlaneSet.createPlanes [ClipPlane.createPlane plane])
              (Frustum_toRange (Viewport.getFrustum vp)) true false true
            = Some [Loop [LineString3d points]]
            /\ shapePoints
               = ConvexClipPlaneSet_polygonClip
                   (Frustum_getRangePlanes (Viewport.getFrustum vp) false false 0) points.
Proof.
  split.
  - split; [|apply StandardGridFacts.degenerate_clip_no_points].
    unfold getClippedGridPlanePoints.
    destruct (ClipUtilities_loopsOfConvexClipPlaneIntersectionWithRange _ _ _ _ _)
      as [geom|] eqn:Hgeom; [|intros _; apply NoGeometry; exact Hgeom].
    destruct geom as [|loop [|loop' geom]];
      [intros _; apply (NotOneLoop vp plane _ Hgeom); cbn; lia| |
       intros _; apply (NotOneLoop vp plane _ Hgeom); cbn; lia].
    destruct loop as [children|tag]; [|intros _; apply (NotALoop vp plane _ Hgeom)].
    destruct children as [|child [|child' children]];
      [intros _; apply (NotOneChild vp plane _ Hgeom); cbn; lia| |
       intros _; apply (NotOneChild vp plane _ Hgeom); cbn; lia].
    destruct child as [points|tag]; [|intros _; apply (NotALineString vp plane _ Hgeom)].
    destruct (Nat.ltb _ 4) eqn:Hlen; [|discriminate].
    intros _. apply (TooFewPoints vp plane _ Hgeom). apply Nat.ltb_lt. exact Hlen.
  - intros shapePoints loopPt Hsome.
    destruct (clipped_points_inv vp plane shapePoints loopPt Hsome) as (Hlen & Hclip & Hpt).
    split; [exact Hlen|]. split; [|split; [|exact Hclip]].
    + apply list_elem_of_lookup_2 in Hpt. exact Hpt.
    + intros Hoff. rewrite Hoff in Hpt. exact Hpt.
Qed.

(** X11: with the camera on, the point [getClippedGridPlanePoints] leaves in
    [loopPt], at which [drawStandardGrid] then measures the size of a pixel,
    is a shape point of the largest view z: none of the shape points has a
    greater one. *)
Theorem close_point_has_largest_view_z (vp : Viewport.t)
    (plane : Plane3dByOriginAndUnitNormal.t) (shapePoints : list Point3d.t)
    (loopPt : Point3d.t) :
  Viewport.isCameraOn vp = true ->
  getClippedGridPlanePoints vp plane = Some (shapePoints, loopPt) ->
  loopPt ∈ shapePoints
  /\ forall p : Point3d.t, p ∈ shapePoints -> (viewZ vp loopPt <? viewZ vp p) = false.
Proof.
  intros Hon Hsome.
  destruct (clipped_points_inv vp plane shapePoints loopPt Hsome) as (Hlen & _ & Hpt).
  rewrite Hon in Hpt.
  assert (Hne : shapePoints <> [])
    by (intros Heq; rewrite Heq in Hlen; cbn in Hlen; lia).
  destruct (closeIndex_max vp shapePoints Hne) as (q & Hq & Hmax).
  rewrite Hq in Hpt. injection Hpt as ->.
  split; [apply list_elem_of_lookup_2 in Hq; exact Hq|exact Hmax].
Qed.

(** *** Builders that only grow *)

Lemma lineStringsIn_app (l1 l2 : list GraphicBuilder.Command) :
  lineStringsIn (l1 ++ l2) = (lineStringsIn l1 + lineStringsIn l2)%nat.
Proof. unfold lineStringsIn. rewrite filter_app, length_app. reflexivity. Qed.

Lemma linesAdded_refl (n : nat) (b : GraphicBuilder.t) : linesAdded n b b.
Proof.
  exists []. rewrite app_nil_r. destruct b. split; [reflexivity|].
  split; [reflexivity|]. cbn. lia.
Qed.

Lemma linesAdded_trans (n m : nat) (b1 b2 b3 : GraphicBuilder.t) :
  linesAdded n b1 b2 -> linesAdded m b2 b3 -> linesAdded (n + m) b1 b3.
Proof.
  intros (e1 & -> & Hall1 & Hn) (e2 & -> & Hall2 & Hm). exists (e1 ++ e2).
  cbn. rewrite <- app_assoc. split; [reflexivity|].
  split; [rewrite forallb_app, Hall1, Hall2; reflexivity|].
  rewrite lineStringsIn_app. lia.
Qed.

Lemma linesAdded_mono (n m : nat) (b b' : GraphicBuilder.t) :
  (n <= m)%nat -> linesAdded n b b' -> linesAdded m b b'.
Proof.
  intros Hle (e & Heq & Hall & Hn). exists e.
  split; [exact Heq|]. split; [exact Hall|lia].
Qed.

Lemma linesAdded_line (pts : list Point3d.t) (b : GraphicBuilder.t) :
  linesAdded 1 b (GraphicBuilder.call b (GraphicBuilder.AddLineString pts)).
Proof.
  exists [GraphicBuilder.AddLineString pts].
  split; [reflexivity|]. split; [reflexivity|]. compute. lia.
Qed.

Lemma linesAdded_symbology (lc fc : ColorDef.t) (w : float) (lp : option LinePixels.t)
    (b : GraphicBuilder.t) :
  linesAdded 0 b (GraphicBuilder.call b (GraphicBuilder.SetSymbology lc fc w lp)).
Proof.
  exists [GraphicBuilder.SetSymbology lc fc w lp].
  split; [reflexivity|]. split; [reflexivity|]. compute. lia.
Qed.

Lemma linesAdded_after_line (n : nat) (pts : list Point3d.t) (b b' : GraphicBuilder.t) :
  linesAdded n (GraphicBuilder.call b (GraphicBuilder.AddLineString pts)) b' ->
  linesAdded (S n) b b'.
Proof. intros Hrest. exact (linesAdded_trans 1 n _ _ _ (linesAdded_line pts b) Hrest). Qed.

Lemma linesAdded_after_symbology (n : nat) (lc fc : ColorDef.t) (w : float)
    (lp : option LinePixels.t) (b b' : GraphicBuilder.t) :
  linesAdded n (GraphicBuilder.call b (GraphicBuilder.SetSymbology lc fc w lp)) b' ->
  linesAdded n b b'.
Proof.
  intros Hrest. exact (linesAdded_trans 0 n _ _ _ (linesAdded_symbology lc fc w lp b) Hrest).
Qed.

(** *** The reference-line loops: one line string to the iteration *)

Section Loops.
Variables (vp : Viewport.t) (transform : Transform.t)
  (line : float -> Point3d.t * Point3d.t) (nRefRepetitions : float) (unambiguous : bool)
  (refStep : float) (planeColor : ColorDef.t) (linePat : LinePixels.t)
  (planeX planeY : Plane3dByOriginAndUnitNormal.t).

Lemma refLineLoop_lines (fuel : nat) (iRef ref : float) (doFade : bool) (iFade : float)
    (st st' : RefLineState) :
  refLineLoop fuel vp transform line nRefRepetitions unambiguous refStep planeColor linePat
    planeX planeY iRef ref doFade iFade st = Some st' ->
  linesAdded fuel (rl_builder st) (rl_builder st').
Proof.
  revert iRef ref doFade iFade st.
  induction fuel as [|fuel IH]; intros iRef ref doFade iFade st; cbn [refLineLoop].
  - destruct (_ && _); [discriminate|]. intros [= <-]. apply linesAdded_refl.
  - destruct ((iRef <=? nRefRepetitions) && (iFade <? fadeRefSteps));
      [|intros [= <-]; apply linesAdded_refl].
    split_ifs; intros Heq; apply IH in Heq; cbn [rl_builder] in Heq;
      apply linesAdded_after_line in Heq;
      try apply linesAdded_after_symbology in Heq; exact Heq.
Qed.


End Loops.

Lemma drawReferenceLines_lines (fuel : nat) (vp : Viewport.t) (L : GridLocals)
    (color planeColor : ColorDef.t) (builder b' : GraphicBuilder.t) (nx ny : float) :
  drawReferenceLines fuel vp L color planeColor builder = Some (b', nx, ny) ->
  linesAdded (fuel + fuel) builder b'.
Proof.
  unfold drawReferenceLines.
  destruct (gl_drawRefX L).
  - destruct (refLineLoop fuel vp _ (lineAcrossX L) _ _ _ _ _ _ _ _ _ _ _ _) as [st1|] eqn:Hx;
      [|discriminate].
    apply refLineLoop_lines in Hx. cbn [rl_builder] in Hx.
    apply linesAdded_after_symbology in Hx.
    cbn [mbind option_bind]. destruct (gl_drawRefY L).
    + destruct (refLineLoop fuel vp _ (lineAcrossY L) _ _ _ _ _ _ _ _ _ _ _ _) as [st2|] eqn:Hy;
        [|discriminate].
      apply refLineLoop_lines in Hy. cbn [rl_builder] in Hy.
      apply linesAdded_after_symbology in Hy.
      cbn. intros [= <- _ _]. exact (linesAdded_trans _ _ _ _ _ Hx Hy).
    + cbn. intros [= <- _ _]. apply (linesAdded_mono fuel); [lia|exact Hx].
  - cbn [mbind option_bind]. destruct (gl_drawRefY L).
    + destruct (refLineLoop fuel vp _ (lineAcrossY L) _ _ _ _ _ _ _ _ _ _ _ _) as [st2|] eqn:Hy;
        [|discriminate].
      apply refLineLoop_lines in Hy. cbn [rl_builder] in Hy.
      apply linesAdded_after_symbology in Hy.
      cbn. intros [= <- _ _]. apply (linesAdded_mono fuel); [lia|exact Hy].
    + cbn. intros [= <- _ _]. apply linesAdded_refl.
Qed.


(** *** The sub-grid loops *)

Lemma gridLineInnerLoop_lines (fuel : nat) (transform : Transform.t)
    (line : float -> Point3d.t * Point3d.t) (gridsPerRef gridStep : float)
    (fadeGridTransparencyStep : float) (planeColor : ColorDef.t) (doFade : bool)
    (iGrid grid : float) (st st' : GraphicBuilder.t * ColorDef.t) :
  gridLineInnerLoop fuel transform line gridsPerRef gridStep fadeGridTransparencyStep
    planeColor doFade iGrid grid st = Some st' ->
  linesAdded fuel (fst st) (fst st').
Proof.
  revert iGrid grid st.
  induction fuel as [|fuel IH]; intros iGrid grid [b c]; cbn [gridLineInnerLoop].
  - destruct (iGrid <? gridsPerRef); [discriminate|]. intros [= <-]. apply linesAdded_refl.
  - destruct (iGrid <? gridsPerRef); [|intros [= <-]; apply linesAdded_refl].
    destruct doFade; cbn beta iota zeta; intros Heq; apply IH in Heq; cbn [fst] in Heq;
      apply linesAdded_after_line in Heq;
      try apply linesAdded_after_symbology in Heq; exact Heq.
Qed.

Lemma gridLineOuterLoop_lines (fuel : nat) (transform : Transform.t)
    (line : float -> Point3d.t * Point3d.t) (nGridRepetitions nRefRepetitions : float)
    (refStep gridsPerRef gridStep fadeGridTransparencyStep : float) (planeColor : ColorDef.t)
    (iRef ref : float) (st st' : GraphicBuilder.t * ColorDef.t) :
  gridLineOuterLoop fuel transform line nGridRepetitions nRefRepetitions refStep gridsPerRef
    gridStep fadeGridTransparencyStep planeColor iRef ref st = Some st' ->
  linesAdded (fuel * fuel) (fst st) (fst st').
Proof.
  revert iRef ref st.
  induction fuel as [|fuel IH]; intros iRef ref st; cbn [gridLineOuterLoop].
  - destruct (iRef <? nGridRepetitions); [discriminate|]. intros [= <-]. apply linesAdded_refl.
  - destruct (iRef <? nGridRepetitions); [|intros [= <-]; apply linesAdded_refl].
    destruct (gridLineInnerLoop (S fuel) _ _ _ _ _ _ _ _ _ _) as [st1|] eqn:Hinner;
      [|discriminate].
    apply gridLineInnerLoop_lines in Hinner.
    intros Heq. apply IH in Heq.
    apply (linesAdded_mono (S fuel + fuel * fuel)); [lia|].
    exact (linesAdded_trans _ _ _ _ _ Hinner Heq).
Qed.

Lemma drawSubGridLines_lines (fuel : nat) (L : GridLocals) (gridsPerRef : float)
    (nGridRepetitionsX nGridRepetitionsY : float) (color planeColor : ColorDef.t)
    (builder b' : GraphicBuilder.t) :
  drawSubGridLines fuel L gridsPerRef nGridRepetitionsX nGridRepetitionsY color planeColor
    builder = Some b' ->
  linesAdded (fuel * fuel + fuel * fuel) builder b'.
Proof.
  unfold drawSubGridLines.
  destruct (1 <? nGridRepetitionsX).
  - destruct (gridLineOuterLoop fuel _ (lineAcrossX L) _ _ _ _ _ _ _ _ _ _) as [g1|] eqn:Hx;
      [|discriminate].
    apply gridLineOuterLoop_lines in Hx. cbn [fst] in Hx.
    apply linesAdded_after_symbology in Hx.
    cbn [mbind option_bind]. destruct (1 <? nGridRepetitionsY).
    + destruct (gridLineOuterLoop fuel _ (lineAcrossY L) _ _ _ _ _ _ _ _ _ _) as [g2|] eqn:Hy;
        [|discriminate].
      apply gridLineOuterLoop_lines in Hy. cbn [fst] in Hy.
      apply linesAdded_after_symbology in Hy.
      cbn. intros [= <-]. exact (linesAdded_trans _ _ _ _ _ Hx Hy).
    + cbn. intros [= <-]. apply (linesAdded_mono (fuel * fuel)); [lia|exact Hx].
  - cbn [mbind option_bind]. destruct (1 <? nGridRepetitionsY).
    + destruct (gridLineOuterLoop fuel _ (lineAcrossY L) _ _ _ _ _ _ _ _ _ _) as [g2|] eqn:Hy;
        [|discriminate].
      apply gridLineOuterLoop_lines in Hy. cbn [fst] in Hy.
      apply linesAdded_after_symbology in Hy.
      cbn. intros [= <-]. apply (linesAdded_mono (fuel * fuel)); [lia|exact Hy].
    + cbn. intros [= <-]. apply linesAdded_refl.
Qed.

Lemma drawStandardGrid_lines_grow (fuel : nat) (vp : Viewport.t) (gridOrigin : Point3d.t)
    (rMatrix : Matrix3d.t) (spacing : Vector2d.t) (gridsPerRef : float)
    (shapePoints : list Point3d.t) (meterPerPixel : float) (viewZ : Vector3d.t)
    (eyeDot : float) (color planeColor : ColorDef.t) (builder b' : GraphicBuilder.t) :
  drawStandardGrid_lines fuel vp gridOrigin rMatrix spacing gridsPerRef shapePoints
    meterPerPixel viewZ eyeDot color planeColor builder = Some b' ->
  exists n : nat, linesAdded n builder b'.
Proof.
  unfold drawStandardGrid_lines.
  destruct (drawReferenceLines _ _ _ _ _ _) as [[[b1 nx] ny]|] eqn:Href; [|discriminate].
  apply drawReferenceLines_lines in Href.
  destruct (drawGridLines _ _ _ _ _).
  - intros Hsub. apply drawSubGridLines_lines in Hsub.
    eexists. exact (linesAdded_trans _ _ _ _ _ Href Hsub).
  - intros [= <-]. eexists. exact Href.
Qed.

Context `{BuildConfig}.

(** X7: [drawStandardGrid] returns at once, with the context as it was,
    when the eye direction cannot be normalized, when the camera is off and
    the view is edge-on to the grid plane (the eye direction within 0.005 of
    perpendicular to the plane's normal), and when no plane can be made of
    the grid origin and the z row of the grid matrix. *)
Theorem nothing_to_draw (fuel : nat) (gridOrigin : Point3d.t) (rMatrix : Matrix3d.t)
    (spacing : Vector2d.t) (gridsPerRef : float) (this : DecorateContext.t) :
  NothingToDraw (DecorateContext.viewport this) gridOrigin rMatrix ->
  drawStandardGrid fuel gridOrigin rMatrix spacing gridsPerRef this = Some (this, Returned tt).
Proof.
  intros Hnothing. unfold drawStandardGrid.
  fold (eyeDirection (DecorateContext.viewport this) gridOrigin).
  destruct Hnothing as [Hnorm|eyeDir Hnorm Hoff Hedge|Hplane].
  - rewrite Hnorm. reflexivity.
  - rewrite Hnorm, Hoff, Hedge. reflexivity.
  - destruct (Vector3d_normalize _) as [eyeDir|]; [|reflexivity].
    destruct (negb _ && _); [reflexivity|]. rewrite Hplane. reflexivity.
Qed.

(** X8: whenever [drawStandardGrid] returns it has not thrown, and it has
    either left the context as it was or made one call of [addDecoration],
    with one world decoration: a graphic that is not pickable, made of the
    blanking fill and the shape of the clipped plane, of at least four
    points, followed by nothing but symbology and line strings.  The graphic
    goes to the end of the world decorations and nothing else in the bundle
    or among the HTML decorations changes. *)
Theorem drawStandardGrid_effect (fuel : nat) (gridOrigin : Point3d.t) (rMatrix : Matrix3d.t)
    (spacing : Vector2d.t) (gridsPerRef : float) (this : DecorateContext.t)
    (r : DecorateContext.t * Completion unit) :
  drawStandardGrid fuel gridOrigin rMatrix spacing gridsPerRef this = Some r ->
  snd r = Returned tt
  /\ (r = (this, Returned tt)
      \/ exists (b : GraphicBuilder.t) (transform : Transform.t) (planeColor : ColorDef.t)
                (shapePoints : list Point3d.t) (n : nat),
           (4 <= length shapePoints)%nat
           /\ linesAdded n (planeBuilder transform planeColor shapePoints) b
           /\ r = DecorateContext.addDecoration GraphicType.WorldDecoration
                    (GraphicBuilder_finish b) this
           /\ Decorations.world (DecorateContext._decorations (fst r))
              = Some (default [] (Decorations.world (DecorateContext._decorations this))
                      ++ [asPlaced (DecorateContext._curCacheableDecorator this)
                            (GraphicBuilder_finish b)])
           /\ (forall type : GraphicType.t,
                 type <> GraphicType.WorldDecoration ->
                 listOfType type (DecorateContext._decorations (fst r))
                 = listOfType type (DecorateContext._decorations this))
           /\ Decorations.skyBox (DecorateContext._decorations (fst r))
              = Decorations.skyBox (DecorateContext._decorations this)
           /\ Decorations.viewBackground (DecorateContext._decorations (fst r))
              = Decorations.viewBackground (DecorateContext._decorations this)
           /\ Decorations.canvasDecorations (DecorateContext._decorations (fst r))
              = Decorations.canvasDecorations (DecorateContext._decorations this)
           /\ Viewport.decorationDiv (DecorateContext.viewport (fst r))
              = Viewport.decorationDiv (DecorateContext.viewport this)).
Proof.
  unfold drawStandardGrid.
  destruct (Vector3d_normalize _) as [eyeDir|]; [|intros [= <-]; split; [reflexivity|left; reflexivity]].
  destruct (negb _ && _); [intros [= <-]; split; [reflexivity|left; reflexivity]|].
  destruct (Plane3dByOriginAndUnitNormal_create _ _) as [plane|];
    [|intros [= <-]; split; [reflexivity|left; reflexivity]].
  destruct (getClippedGridPlanePoints _ _) as [[shapePoints loopPt]|] eqn:Hclip;
    [|intros [= <-]; split; [reflexivity|left; reflexivity]].
  destruct (clipped_points_inv _ _ _ _ Hclip) as (Hlen & _ & _).
  match goal with
  | |- context [GraphicBuilder.call
                  (GraphicBuilder.call
                     (DecorateContext.createGraphicBuilder _ (Some ?tr) None)
                     (GraphicBuilder.SetBlankingFill ?pc)) _] =>
      set (transform := tr); set (planeColor := pc)
  end.
  change (GraphicBuilder.call
            (GraphicBuilder.call
               (DecorateContext.createGraphicBuilder GraphicType.WorldDecoration
                  (Some transform) None)
               (GraphicBuilder.SetBlankingFill planeColor))
            (GraphicBuilder.AddShape shapePoints))
    with (planeBuilder transform planeColor shapePoints).
  assert (Hfinish : forall (b : GraphicBuilder.t) (n : nat),
            linesAdded n (planeBuilder transform planeColor shapePoints) b ->
            Some (DecorateContext.addDecorationFromBuilder b this) = Some r ->
            snd r = Returned tt
            /\ (r = (this, Returned tt)
                \/ exists (b : GraphicBuilder.t) (transform : Transform.t)
                          (planeColor : ColorDef.t) (shapePoints : list Point3d.t) (n : nat),
                     (4 <= length shapePoints)%nat
                     /\ linesAdded n (planeBuilder transform planeColor shapePoints) b
                     /\ r = DecorateContext.addDecoration GraphicType.WorldDecoration
                              (GraphicBuilder_finish b) this
                     /\ Decorations.world (DecorateContext._decorations (fst r))
                        = Some (default []
                                  (Decorations.world (DecorateContext._decorations this))
                                ++ [asPlaced (DecorateContext._curCacheableDecorator this)
                                      (GraphicBuilder_finish b)])
                     /\ (forall type : GraphicType.t,
                           type <> GraphicType.WorldDecoration ->
                           listOfType type (DecorateContext._decorations (fst r))
                           = listOfType type (DecorateContext._decorations this))
                     /\ Decorations.skyBox (DecorateContext._decorations (fst r))
                        = Decorations.skyBox (DecorateContext._decorations this)
                     /\ Decorations.viewBackground (DecorateContext._decorations (fst r))
                        = Decorations.viewBackground (DecorateContext._decorations this)
                     /\ Decorations.canvasDecorations (DecorateContext._decorations (fst r))
                        = Decorations.canvasDecorations (DecorateContext._decorations this)
                     /\ Viewport.decorationDiv (DecorateContext.viewport (fst r))
                        = Viewport.decorationDiv (DecorateContext.viewport this))).
  { intros b n Hlines [= <-].
    assert (Htype : GraphicBuilder.type b = GraphicType.WorldDecoration).
    { destruct Hlines as (extra & -> & _). reflexivity. }
    unfold DecorateContext.addDecorationFromBuilder. rewrite Htype.
    pose proof (AddPathFacts.perform_either
                  (CallAddDecoration GraphicType.WorldDecoration (GraphicBuilder_finish b))
                  this) as Hp.
    cbn [DecorateContext.perform] in Hp.
    split; [rewrite Hp; reflexivity|]. right.
    exists b, transform, planeColor, shapePoints, n.
    split; [exact Hlen|]. split; [exact Hlines|]. split; [reflexivity|].
    rewrite Hp. cbn [fst].
    destruct (DecorateContext._curCacheableDecorator this) as [h|];
      (split; [reflexivity|]); (split; [intros [] Hne; try congruence; reflexivity|]);
      repeat split; reflexivity. }
  destruct (drawRefLines _ _ _).
  - destruct (drawStandardGrid_lines _ _ _ _ _ _ _ _ _ _ _ _ _) as [b|] eqn:Hb;
      [|discriminate].
    destruct (drawStandardGrid_lines_grow _ _ _ _ _ _ _ _ _ _ _ _ _ _ Hb) as (n & Hlines).
    cbn [mbind option_bind]. exact (Hfinish b n Hlines).
  - cbn [mbind option_bind]. exact (Hfinish _ 0%nat (linesAdded_refl _ _)).
Qed.

(** *** The sub-grid loops end

    The repetitions that the sub-grid rows run over come from the
    reference-line loops: the count of an axis, or the index at which that
    axis began to fade.  Either way some index up to 101 is not below it,
    so the rows end; and a row ends when its index is no longer below
    [gridsPerRef]. *)

Section GridRepetitions.
Variables (vp : Viewport.t) (transform : Transform.t)
  (line : float -> Point3d.t * Point3d.t) (nRefRepetitions : float) (unambiguous : bool)
  (refStep : float) (planeColor : ColorDef.t) (linePat : LinePixels.t)
  (planeX planeY : Plane3dByOriginAndUnitNormal.t).

Lemma refLineLoop_grid_fading (fuel : nat) (iRef ref iFade : float) (st st' : RefLineState) :
  refLineLoop fuel vp transform line nRefRepetitions unambiguous refStep planeColor linePat
    planeX planeY iRef ref true iFade st = Some st' ->
  rl_nGridRepetitions st' = rl_nGridRepetitions st.
Proof.
  revert iRef ref iFade st.
  induction fuel as [|fuel IH]; intros iRef ref iFade st; cbn [refLineLoop].
  - destruct (_ && _); [discriminate|]. intros [= <-]. reflexivity.
  - destruct (_ && _); [|intros [= <-]; reflexivity].
    intros Heq. apply IH in Heq. exact Heq.
Qed.

Lemma not_leb_not_ltb (a b : float) : (a <=? b) = false -> (a <? b) = false.
Proof.
  intros Hle. destruct (a <? b) eqn:Hlt; [|reflexivity].
  apply FloatOrderFacts.ltb_leb in Hlt. congruence.
Qed.

Lemma refLineLoop_grid (fuel k : nat) (ref : float) (st st' : RefLineState) :
  (k <= 101)%nat ->
  rl_nGridRepetitions st = nRefRepetitions ->
  refLineLoop fuel vp transform line nRefRepetitions unambiguous refStep planeColor linePat
    planeX planeY (counter k) ref false 0 st = Some st' ->
  exists M : nat, (M <= 101)%nat /\ (counter M <? rl_nGridRepetitions st') = false.
Proof.
  assert (Hstop : forall k0 st0,
            (k0 <= 101)%nat -> rl_nGridRepetitions st0 = nRefRepetitions ->
            (counter k0 <=? nRefRepetitions) && (0 <? fadeRefSteps) = false ->
            exists M : nat, (M <= 101)%nat /\ (counter M <? rl_nGridRepetitions st0) = false).
  { intros k0 st0 Hk0 Hgrid0 Hcond. exists k0. split; [exact Hk0|]. rewrite Hgrid0.
    replace (0 <? fadeRefSteps) with true in Hcond by (vm_compute; reflexivity).
    rewrite andb_true_r in Hcond. apply not_leb_not_ltb. exact Hcond. }
  revert k ref st. induction fuel as [|fuel IH]; intros k ref st Hk Hgrid; cbn [refLineLoop].
  - destruct ((counter k <=? nRefRepetitions) && (0 <? fadeRefSteps)) eqn:Hcond; [discriminate|].
    intros [= <-]. exact (Hstop k st Hk Hgrid Hcond).
  - destruct ((counter k <=? nRefRepetitions) && (0 <? fadeRefSteps)) eqn:Hcond;
      [|intros [= <-]; exact (Hstop k st Hk Hgrid Hcond)].
    apply andb_prop in Hcond as [Hle _].
    destruct (decide (k = 101%nat)) as [->|Hne].
    + change (counter 101) with 101 in Hle |- *.
      rewrite (FloatFacts.le_101_gt_10 _ Hle).
      replace (0 <? 101) with true by (vm_compute; reflexivity).
      replace (maxRefLines <? 101) with true by (vm_compute; reflexivity).
      cbn [andb]. intros Heq. apply refLineLoop_grid_fading in Heq.
      cbn [rl_nGridRepetitions] in Heq.
      exists 101%nat. split; [lia|]. rewrite Heq. apply FloatOrderFacts.ltb_irrefl.
    + split_ifs; intros Heq;
        first [ apply refLineLoop_grid_fading in Heq; cbn [rl_nGridRepetitions] in Heq;
                exists k; split; [exact Hk|]; rewrite Heq; apply FloatOrderFacts.ltb_irrefl
              | apply (IH (S k)) in Heq; [exact Heq|lia|exact Hgrid] ].
Qed.
End GridRepetitions.

Lemma drawReferenceLines_grid (fuel : nat) (vp : Viewport.t) (L : GridLocals)
    (color planeColor : ColorDef.t) (builder b' : GraphicBuilder.t) (nx ny : float) :
  drawReferenceLines fuel vp L color planeColor builder = Some (b', nx, ny) ->
  (gl_drawRefX L = true ->
   exists M : nat, (M <= 101)%nat /\ (counter M <? nx) = false)
  /\ (gl_drawRefY L = true ->
      exists M : nat, (M <= 101)%nat /\ (counter M <? ny) = false).
Proof.
  unfold drawReferenceLines.
  destruct (gl_drawRefX L).
  - destruct (refLineLoop fuel vp _ (lineAcrossX L) _ _ _ _ _ _ _ _ _ _ _ _) as [st1|] eqn:Hx;
      [|discriminate].
    apply (refLineLoop_grid _ _ _ _ _ _ _ _ _ _ fuel 0) in Hx; [|lia|reflexivity].
    cbn [mbind option_bind]. destruct (gl_drawRefY L).
    + destruct (refLineLoop fuel vp _ (lineAcrossY L) _ _ _ _ _ _ _ _ _ _ _ _) as [st2|] eqn:Hy;
        [|discriminate].
      apply (refLineLoop_grid _ _ _ _ _ _ _ _ _ _ fuel 0) in Hy; [|lia|reflexivity].
      cbn. intros [= _ <- <-]. split; intros _; assumption.
    + cbn. intros [= _ <- <-]. split; [intros _; assumption|discriminate].
  - cbn [mbind option_bind]. destruct (gl_drawRefY L).
    + destruct (refLineLoop fuel vp _ (lineAcrossY L) _ _ _ _ _ _ _ _ _ _ _ _) as [st2|] eqn:Hy;
        [|discriminate].
      apply (refLineLoop_grid _ _ _ _ _ _ _ _ _ _ fuel 0) in Hy; [|lia|reflexivity].
      cbn. intros [= _ <- <-]. split; [discriminate|intros _; assumption].
    + cbn. intros _. split; discriminate.
Qed.

Lemma gridLineInnerLoop_returns (N fuel k : nat) (transform : Transform.t)
    (line : float -> Point3d.t * Point3d.t) (gridsPerRef gridStep : float)
    (fadeGridTransparencyStep : float) (planeColor : ColorDef.t) (doFade : bool)
    (grid : float) (st : GraphicBuilder.t * ColorDef.t) :
  (counter N <? gridsPerRef) = false ->
  (k <= N)%nat -> (N - k <= fuel)%nat ->
  is_Some (gridLineInnerLoop fuel transform line gridsPerRef gridStep
             fadeGridTransparencyStep planeColor doFade (counter k) grid st).
Proof.
  intros HN. revert k grid st.
  induction fuel as [|fuel IH]; intros k grid [b c] Hk Hfuel; cbn [gridLineInnerLoop].
  - assert (k = N) by lia. subst k. rewrite HN. eauto.
  - destruct (counter k <? gridsPerRef) eqn:Hcond; [|eauto].
    assert (k <> N) by (intros ->; congruence).
    destruct doFade; cbn beta iota zeta; apply (IH (S k)); lia.
Qed.

Lemma gridLineOuterLoop_returns (M N fuel k : nat) (transform : Transform.t)
    (line : float -> Point3d.t * Point3d.t) (nGridRepetitions nRefRepetitions : float)
    (refStep gridsPerRef gridStep fadeGridTransparencyStep : float) (planeColor : ColorDef.t)
    (ref : float) (st : GraphicBuilder.t * ColorDef.t) :
  (counter M <? nGridRepetitions) = false ->
  (counter N <? gridsPerRef) = false ->
  (1 <= N)%nat -> (k <= M)%nat -> (M - k + N <= fuel)%nat ->
  is_Some (gridLineOuterLoop fuel transform line nGridRepetitions nRefRepetitions refStep
             gridsPerRef gridStep fadeGridTransparencyStep planeColor (counter k) ref st).
Proof.
  intros HM HN HN1. revert k ref st.
  induction fuel as [|fuel IH]; intros k ref st Hk Hfuel; [lia|].
  cbn [gridLineOuterLoop].
  destruct (counter k <? nGridRepetitions) eqn:Hcond; [|eauto].
  assert (k <> M) by (intros ->; congruence).
  match goal with
  | |- context [gridLineInnerLoop (S fuel) ?tr ?ln ?g ?gs ?fs ?pc ?df 1 ?gr ?s] =>
      destruct (gridLineInnerLoop_returns N (S fuel) 1 tr ln g gs fs pc df gr s HN)
        as [st1 Hst1]; [lia|lia|];
      change (counter 1) with 1 in Hst1; rewrite Hst1
  end.
  apply (IH (S k)); lia.
Qed.

Lemma drawSubGridLines_returns (N fuel : nat) (L : GridLocals) (gridsPerRef : float)
    (nGridRepetitionsX nGridRepetitionsY : float) (color planeColor : ColorDef.t)
    (builder : GraphicBuilder.t) :
  (counter N <? gridsPerRef) = false ->
  (1 <= N)%nat ->
  (exists M : nat, (M <= 101)%nat /\ (counter M <? nGridRepetitionsX) = false) ->
  (exists M : nat, (M <= 101)%nat /\ (counter M <? nGridRepetitionsY) = false) ->
  (101 + N <= fuel)%nat ->
  is_Some (drawSubGridLines fuel L gridsPerRef nGridRepetitionsX nGridRepetitionsY color
             planeColor builder).
Proof.
  intros HN HN1 (Mx & HMx & Hx) (My & HMy & Hy) Hfuel. unfold drawSubGridLines.
  destruct (1 <? nGridRepetitionsX).
  - match goal with
    | |- context [gridLineOuterLoop fuel ?tr ?ln ?ng ?nr ?rs ?g ?gs ?fs ?pc 0 ?rf ?s] =>
        destruct (gridLineOuterLoop_returns Mx N fuel 0 tr ln ng nr rs g gs fs pc rf s
                    Hx HN HN1) as [g1 Hg1]; [lia|lia|];
        change (counter 0) with 0 in Hg1; rewrite Hg1
    end.
    cbn [mbind option_bind]. destruct (1 <? nGridRepetitionsY); [|cbn; eauto].
    match goal with
    | |- context [gridLineOuterLoop fuel ?tr ?ln ?ng ?nr ?rs ?g ?gs ?fs ?pc 0 ?rf ?s] =>
        destruct (gridLineOuterLoop_returns My N fuel 0 tr ln ng nr rs g gs fs pc rf s
                    Hy HN HN1) as [g2 Hg2]; [lia|lia|];
        change (counter 0) with 0 in Hg2; rewrite Hg2
    end.
    cbn. eauto.
  - cbn [mbind option_bind]. destruct (1 <? nGridRepetitionsY); [|cbn; eauto].
    match goal with
    | |- context [gridLineOuterLoop fuel ?tr ?ln ?ng ?nr ?rs ?g ?gs ?fs ?pc 0 ?rf ?s] =>
        destruct (gridLineOuterLoop_returns My N fuel 0 tr ln ng nr rs g gs fs pc rf s
                    Hy HN HN1) as [g2 Hg2]; [lia|lia|];
        change (counter 0) with 0 in Hg2; rewrite Hg2
    end.
    cbn. eauto.
Qed.

Lemma drawStandardGrid_lines_returns (N fuel : nat) (vp : Viewport.t)
    (gridOrigin : Point3d.t) (rMatrix : Matrix3d.t) (spacing : Vector2d.t)
    (gridsPerRef : float) (shapePoints : list Point3d.t) (meterPerPixel : float)
    (viewZ : Vector3d.t) (eyeDot : float) (color planeColor : ColorDef.t)
    (builder : GraphicBuilder.t) :
  (counter N <? gridsPerRef) = false ->
  (110 + N <= fuel)%nat ->
  is_Some (drawStandardGrid_lines fuel vp gridOrigin rMatrix spacing gridsPerRef shapePoints
             meterPerPixel viewZ eyeDot color planeColor builder).
Proof.
  intros HN Hfuel. unfold drawStandardGrid_lines.
  set (L := gridLocals vp gridOrigin rMatrix spacing gridsPerRef shapePoints viewZ eyeDot).
  destruct (StandardGridFacts.drawReferenceLines_returns fuel vp L color planeColor builder
              ltac:(lia)) as [[[b nx] ny] Href].
  rewrite Href.
  destruct (drawReferenceLines_grid _ _ _ _ _ _ _ _ _ Href) as (Hx & Hy).
  destruct (drawGridLines _ _ _ _ _) eqn:Hsub; [|eauto].
  unfold drawGridLines in Hsub.
  apply andb_prop in Hsub as [Hrefs Hsub]. apply andb_prop in Hrefs as [HrefX HrefY].
  apply andb_prop in Hsub as [Hmore _].
  assert (HN1 : (1 <= N)%nat).
  { destruct N as [|N]; [|lia]. exfalso.
    change (counter 0) with 0 in HN.
    assert (H01 : PrimFloat.ltb 0%float 1%float = true) by (vm_compute; reflexivity).
    rewrite (FloatOrderFacts.ltb_trans 0%float 1%float gridsPerRef H01 Hmore) in HN. discriminate. }
  apply (drawSubGridLines_returns N); [exact HN|exact HN1|exact (Hx HrefX)|exact (Hy HrefY)|lia].
Qed.

(** X12: [drawStandardGrid] returns, and returns normally, whenever some
    whole number [N] is not below [gridsPerRef]: the reference-line loops
    take at most 110 iterations each, the rows of the sub-grid at most 101,
    and the lines of a row at most [N]. *)
Theorem drawStandardGrid_returns (N fuel : nat) (gridOrigin : Point3d.t)
    (rMatrix : Matrix3d.t) (spacing : Vector2d.t) (gridsPerRef : float)
    (this : DecorateContext.t) :
  (counter N <? gridsPerRef) = false ->
  (110 + N <= fuel)%nat ->
  exists c' : DecorateContext.t,
    drawStandardGrid fuel gridOrigin rMatrix spacing gridsPerRef this
    = Some (c', Returned tt).
Proof.
  intros HN Hfuel. unfold drawStandardGrid.
  destruct (Vector3d_normalize _) as [eyeDir|]; [|eauto].
  destruct (negb _ && _); [eauto|].
  destruct (Plane3dByOriginAndUnitNormal_create _ _) as [plane|]; [|eauto].
  destruct (getClippedGridPlanePoints _ _) as [[shapePoints loopPt]|]; [|eauto].
  assert (Hadd : forall b : GraphicBuilder.t,
            exists c' : DecorateContext.t,
              Some (DecorateContext.addDecorationFromBuilder b this) = Some (c', Returned tt)).
  { intros b.
    pose proof (AddPathFacts.perform_completion (CallAddDecorationFromBuilder b) this) as Hc.
    cbn [DecorateContext.perform] in Hc.
    destruct (DecorateContext.addDecorationFromBuilder b this) as [c' r].
    cbn [snd] in Hc. subst r. eauto. }
  destruct (drawRefLines _ _ _); [|cbn [mbind option_bind]; apply Hadd].
  match goal with
  | |- context [drawStandardGrid_lines fuel ?vp ?o ?m ?s ?g ?sp ?mpp ?vz ?ed ?col ?pc ?b] =>
      destruct (drawStandardGrid_lines_returns N fuel vp o m s g sp mpp vz ed col pc b HN Hfuel)
        as [b' Hb']; rewrite Hb'
  end.
  cbn [mbind option_bind]. apply Hadd.
Qed.

End WithGeometry.

(** The grid of the top view, with 2 divisions to the reference line. *)
Lemma drawStandardGrid_returns_witness :
  exists c' : DecorateContext.t,
    @drawStandardGrid (TopView.geometry TopView.squareLoop) TopView.debug 112 TopView.origin
      TopView.identity (Vector2d.create 10 10) 2 (TopView.context 0.5)
    = Some (c', Returned tt).
Proof.
  apply (@drawStandardGrid_returns (TopView.geometry TopView.squareLoop) TopView.debug 2 112).
  - vm_compute. reflexivity.
  - lia.
Defined.

(** Seen edge-on with the camera off, the grid draws nothing. *)
Lemma nothing_to_draw_witness :
  @drawStandardGrid (TopView.geometry TopView.squareLoop) TopView.debug 200 TopView.origin
    TopView.identity (Vector2d.create 20 20) 1 SideView.context
  = Some (SideView.context, Returned tt).
Proof.
  apply (@nothing_to_draw (TopView.geometry TopView.squareLoop) TopView.debug).
  apply (@EdgeOn (TopView.geometry TopView.squareLoop) _ _ _ (Vector3d.create 1 0 0)).
  - vm_compute. reflexivity.
  - reflexivity.
  - vm_compute. reflexivity.
Defined.

(** The grid of the top view at 20 m to the reference line: one world
    decoration, and no throw. *)
Lemma drawStandardGrid_effect_witness :
  exists r : DecorateContext.t * Completion unit,
    @drawStandardGrid (TopView.geometry TopView.squareLoop) TopView.debug 200 TopView.origin
      TopView.identity (Vector2d.create 20 20) 1 (TopView.context 1)
    = Some r
    /\ snd r = Returned tt.
Proof.
  destruct (@drawStandardGrid (TopView.geometry TopView.squareLoop) TopView.debug 200
              TopView.origin TopView.identity (Vector2d.create 20 20) 1 (TopView.context 1))
    as [r|] eqn:Heq.
  - exists r. split; [reflexivity|].
    exact (proj1 (@drawStandardGrid_effect (TopView.geometry TopView.squareLoop) TopView.debug
                    200 TopView.origin TopView.identity (Vector2d.create 20 20) 1
                    (TopView.context 1) r Heq)).
  - vm_compute in Heq. discriminate.
Defined.


Lemma clipped_points_or_degenerate_witness :
  @DegenerateClip (TopView.geometry TopView.triangleLoop) (TopView.viewport 1) TopView.plane
  /\ (4 <= length TopView.square)%nat
  /\ Point3d.createXY 0 0 ∈ TopView.square.
Proof.
  split.
  - apply (proj1 (proj1 (@clipped_points_or_degenerate (TopView.geometry TopView.triangleLoop)
                           (TopView.viewport 1) TopView.plane))).
    vm_compute. reflexivity.
  - destruct (proj2 (@clipped_points_or_degenerate (TopView.geometry TopView.squareLoop)
                       (TopView.viewport 1) TopView.plane)
                TopView.square (Point3d.createXY 0 0) eq_refl) as (Hlen & Hin & _).
    split; assumption.
Defined.

(** With the camera on and the view z of a point its x, the close point of
    the square is its first corner at x = 100. *)
Lemma close_point_has_largest_view_z_witness :
  Point3d.createXY 100 0 ∈ TopView.square
  /\ forall p : Point3d.t,
       p ∈ TopView.square ->
       (viewZ CameraView.viewport (Point3d.createXY 100 0) <? viewZ CameraView.viewport p)
       = false.
Proof.
  exact (@close_point_has_largest_view_z (TopView.geometry TopView.squareLoop)
           CameraView.viewport TopView.plane TopView.square (Point3d.createXY 100 0)
           eq_refl eq_refl).
Defined.
End GridFacts.

(** ** DynamicsContext *)

Module DynamicsContextFacts.
Import DynamicsContext.

Lemma addGraphics_run (graphics : list RenderGraphic) (c : t) :
  addGraphics graphics c
  = (mk (appended (_dynamics c) graphics) (changeDynamicsCalls c), Returned tt).
Proof.
  revert c. induction graphics as [|g rest IH]; intros c; [destruct c; reflexivity|].
  cbn [addGraphics]. unfold js_bind, addGraphic, js_modify. rewrite IH.
  cbn [_dynamics changeDynamicsCalls]. f_equal. f_equal.
  change (pushOrCreate (_dynamics c) g) with (appended (_dynamics c) [g]).
  exact (AddPathFacts.appended_app (_dynamics c) [g] rest).
Qed.

(** X13: the graphics given to [addGraphic] accumulate in the order they
    were added, behind those the context held; the list is undefined until
    the first one is added, and [changeDynamics] hands the viewport the
    list as it is then: undefined when no graphic was added, never an empty
    list of a new context. *)
Theorem dynamics_accumulate (graphics : list RenderGraphic) (c : t) :
  let c1 := fst (addGraphics graphics c) in
  snd (addGraphics graphics c) = Returned tt
  /\ _dynamics c1 = appended (_dynamics c) graphics
  /\ changeDynamicsCalls c1 = changeDynamicsCalls c
  /\ changeDynamicsCalls (fst (changeDynamics c1))
     = changeDynamicsCalls c ++ [appended (_dynamics c) graphics]
  /\ _dynamics (fst (changeDynamics c1)) = _dynamics c1
  /\ changeDynamicsCalls (fst ((addGraphics graphics ;;; changeDynamics)%js new))
     = [match graphics with [] => None | _ :: _ => Some graphics end].
Proof.
  cbn zeta. rewrite addGraphics_run. cbn [fst snd _dynamics changeDynamicsCalls].
  repeat split. unfold js_bind. rewrite addGraphics_run. destruct graphics; reflexivity.
Qed.
End DynamicsContextFacts.

(** ** SceneContext: what accumulates, and what is looked up *)

Module SceneFacts.
Import SceneContext FullSceneContext.

Lemma perform_returns (call : Call) (c : SceneContext.t) :
  snd (perform call c) = Returned tt.
Proof.
  destruct (SceneContextFacts.perform_flag call c) as (c' & Heq & _). rewrite Heq. reflexivity.
Qed.

Lemma performAll_returns (calls : list Call) (c : SceneContext.t) :
  snd (performAll calls c) = Returned tt.
Proof.
  revert c. induction calls as [|call rest IH]; intros c; [reflexivity|].
  cbn [performAll]. unfold js_bind.
  pose proof (perform_returns call c) as Hr.
  destruct (perform call c) as [c' r]. cbn [snd] in Hr. subst r. apply IH.
Qed.

Lemma perform_missing (call : Call) (c : SceneContext.t) :
  missingTiles (fst (perform call c))
  = list_to_set (missingInserted [call]) ∪ missingTiles c.
Proof.
  assert (Hsame : missingTiles c = list_to_set [] ∪ missingTiles c).
  { rewrite list_to_set_nil, (left_id_L ∅ (∪)). reflexivity. }
  unfold missingInserted.
  destruct call as [|tile|graphic|props tileTree classifiedTree]; cbn [perform omap].
  - exact Hsame.
  - unfold insertMissingTile. destruct tile as [h []]; cbn;
      rewrite ?list_to_set_cons, ?list_to_set_nil, ?(right_id_L ∅ (∪)), ?(left_id_L ∅ (∪));
      reflexivity.
  - unfold outputGraphic. destruct (_graphicType c); exact Hsame.
  - unfold js_bind, addPlanarClassifier.
    destruct (planarClassifiers c !! SpatialClassificationProps.modelId props);
      [exact Hsame|].
    destruct (RenderTarget.getPlanarClassifier (target c) _); [exact Hsame|].
    destruct (RenderTarget.createPlanarClassifier (target c) props); exact Hsame.
Qed.

Lemma performAll_missing (calls : list Call) (c : SceneContext.t) :
  missingTiles (fst (performAll calls c))
  = list_to_set (missingInserted calls) ∪ missingTiles c.
Proof.
  revert c. induction calls as [|call rest IH]; intros c.
  - change (missingTiles c = list_to_set [] ∪ missingTiles c).
    rewrite list_to_set_nil, (left_id_L ∅ (∪)). reflexivity.
  - cbn [performAll]. unfold js_bind.
    pose proof (perform_returns call c) as Hr. pose proof (perform_missing call c) as Hm.
    destruct (perform call c) as [c' r]. cbn [fst snd] in Hr, Hm. subst r.
    rewrite IH, Hm. unfold missingInserted.
    rewrite (AddPathFacts.omap_cons_app _ call rest), (AddPathFacts.omap_cons_app _ call []).
    cbn [omap]. rewrite app_nil_r, list_to_set_app_L.
    rewrite (assoc_L (∪)). f_equal. apply (comm_L (∪)).
Qed.

Lemma hasMissingTiles_nonempty (c : SceneContext.t) :
  hasMissingTiles c = _missingChildTiles c || negb (bool_decide (missingTiles c = ∅)).
Proof.
  unfold hasMissingTiles. f_equal.
  destruct (decide (missingTiles c = ∅)) as [He|Hne].
  - rewrite He, size_empty. rewrite bool_decide_eq_true_2 by reflexivity. reflexivity.
  - rewrite bool_decide_eq_false_2 by exact Hne.
    destruct (size (missingTiles c)) eqn:Hsize; [|reflexivity].
    exfalso. apply Hne. apply leibniz_equiv. apply size_empty_inv. exact Hsize.
Qed.

(** X14: over any calls on a scene context the missing tiles only grow:
    afterwards they are those there were and the tiles inserted with a
    status of NotLoaded, Queued or Loading, a tile inserted more than once
    counting once, and no call throws.  [hasMissingTiles] is then true
    exactly when it was before, or the children-loading flag was raised, or
    such a tile was inserted.  [requestMissingTiles] hands the tile admin
    that set and leaves it in place. *)
Theorem missing_tiles_accumulate (calls : list Call) (c : FullSceneContext.t) :
  let c1 := fst (lift (performAll calls) c) in
  snd (lift (performAll calls) c) = Returned tt
  /\ missingTiles (base c1) = list_to_set (missingInserted calls) ∪ missingTiles (base c)
  /\ hasMissingTiles (base c1)
     = hasMissingTiles (base c) || existsb isMarkChildrenLoading calls
       || negb (bool_decide (missingInserted calls = []))
  /\ requestTilesCalls (fst (requestMissingTiles c1))
     = requestTilesCalls c
       ++ [list_to_set (missingInserted calls) ∪ missingTiles (base c)]
  /\ missingTiles (base (fst (requestMissingTiles c1))) = missingTiles (base c1).
Proof.
  cbn zeta. unfold lift.
  pose proof (performAll_returns calls (base c)) as Hr.
  pose proof (performAll_missing calls (base c)) as Hm.
  pose proof (SceneContextFacts.performAll_flag calls (base c)) as Hf.
  destruct (performAll calls (base c)) as [b' r]. cbn [fst snd] in *. subst r.
  cbn [base set_base requestTilesCalls set_requestTilesCalls].
  split; [reflexivity|]. split; [exact Hm|].
  split; [|split; [cbn; rewrite Hm; reflexivity|reflexivity]].
  rewrite !hasMissingTiles_nonempty, Hf, Hm.
  assert (Hempty : bool_decide (list_to_set (missingInserted calls) ∪ missingTiles (base c)
                                = (∅ : gset positive))
                   = bool_decide (missingInserted calls = [])
                     && bool_decide (missingTiles (base c) = ∅)).
  { destruct (missingInserted calls) as [|h l] eqn:Hl.
    - rewrite (bool_decide_eq_true_2 ([] = [])) by reflexivity. cbn [andb].
      rewrite list_to_set_nil, (left_id_L ∅ (∪)). reflexivity.
    - rewrite (bool_decide_eq_false_2 (h :: l = [])) by discriminate. cbn [andb].
      apply bool_decide_eq_false_2. intros Hno.
      apply empty_union_L in Hno as [Hno _]. rewrite list_to_set_cons in Hno.
      apply empty_union_L in Hno as [Hno _]. exact (non_empty_singleton_L _ Hno). }
  rewrite Hempty.
  destruct (_missingChildTiles (base c)), (existsb isMarkChildrenLoading calls),
    (bool_decide (missingInserted calls = [])), (bool_decide (missingTiles (base c) = ∅));
    reflexivity.
Qed.

(** *** Graphics output under a graphic type *)

Lemma outputGraphic_run (g : RenderGraphic) (c : SceneContext.t) :
  exists c',
    outputGraphic g c = (c', Returned tt)
    /\ _graphicType c' = _graphicType c
    /\ (forall t, bucket t c' = bucket t c ++ outputTo t (_graphicType c) [g])
    /\ missingTiles c' = missingTiles c
    /\ _missingChildTiles c' = _missingChildTiles c
    /\ planarClassifiers c' = planarClassifiers c.
Proof.
  unfold outputGraphic.
  destruct (_graphicType c) eqn:Htype; eexists; (split; [reflexivity|]);
    (split; [exact Htype|]);
    (split; [intros []; cbn; rewrite ?app_nil_r; reflexivity|]); repeat split.
Qed.

Lemma outputGraphics_run (gs : list RenderGraphic) (c : SceneContext.t) :
  exists c',
    outputGraphics gs c = (c', Returned tt)
    /\ _graphicType c' = _graphicType c
    /\ (forall t, bucket t c' = bucket t c ++ outputTo t (_graphicType c) gs)
    /\ missingTiles c' = missingTiles c
    /\ _missingChildTiles c' = _missingChildTiles c
    /\ planarClassifiers c' = planarClassifiers c.
Proof.
  revert c. induction gs as [|g gs IH]; intros c.
  - exists c. split; [reflexivity|]. split; [reflexivity|].
    split; [|repeat split]. intros t. unfold outputTo.
    destruct (bool_decide _); rewrite app_nil_r; reflexivity.
  - cbn [outputGraphics]. unfold js_bind.
    destruct (outputGraphic_run g c) as (c1 & -> & Ht1 & Hb1 & Hm1 & Hf1 & Hp1).
    destruct (IH c1) as (c2 & -> & Ht2 & Hb2 & Hm2 & Hf2 & Hp2).
    exists c2. split; [reflexivity|]. split; [congruence|].
    split; [|repeat split; congruence].
    intros t. rewrite Hb2, Hb1, Ht1. unfold outputTo.
    destruct (bool_decide _); rewrite <- ?app_assoc; reflexivity.
Qed.

(** X15: graphics output inside [withGraphicType(type, ...)] go to the end
    of the list of that type, in the order they were output, and to no other
    list; a scope nested in another sends its graphics to the list of its
    own type, and what is output after it has returned goes to the list of
    the outer type again.  When the callbacks return, the graphic type is
    afterwards what it was before, and the missing tiles and the planar
    classifiers are untouched. *)
Theorem scoped_output (t1 t2 : TileGraphicType.t) (g1 g2 g3 : list RenderGraphic)
    (c : SceneContext.t) :
  let run :=
    withGraphicType t1
      (outputGraphics g1 ;;; withGraphicType t2 (outputGraphics g2) ;;; outputGraphics g3)%js in
  snd (run c) = Returned tt
  /\ _graphicType (fst (run c)) = _graphicType c
  /\ (forall t : TileGraphicType.t,
        bucket t (fst (run c))
        = bucket t c ++ outputTo t t1 g1 ++ outputTo t t2 g2 ++ outputTo t t1 g3)
  /\ missingTiles (fst (run c)) = missingTiles c
  /\ planarClassifiers (fst (run c)) = planarClassifiers c.
Proof.
  cbn zeta. unfold withGraphicType, js_bind, js_modify.
  destruct (outputGraphics_run g1 (set_graphicType t1 c))
    as (c1 & -> & Ht1 & Hb1 & Hm1 & _ & Hp1).
  destruct (outputGraphics_run g2 (set_graphicType t2 c1))
    as (c2 & -> & Ht2 & Hb2 & Hm2 & _ & Hp2).
  destruct (outputGraphics_run g3 (set_graphicType (_graphicType c1) c2))
    as (c3 & -> & Ht3 & Hb3 & Hm3 & _ & Hp3).
  cbn [fst snd]. split; [reflexivity|]. split; [reflexivity|].
  split; [|split].
  - intros t.
    change (bucket t (set_graphicType (_graphicType c) c3)) with (bucket t c3).
    rewrite Hb3.
    change (bucket t (set_graphicType (_graphicType c1) c2)) with (bucket t c2).
    rewrite Hb2.
    change (bucket t (set_graphicType t2 c1)) with (bucket t c1).
    rewrite Hb1.
    change (bucket t (set_graphicType t1 c)) with (bucket t c).
    cbn [_graphicType set_graphicType] in *. rewrite Ht1.
    rewrite <- !app_assoc. reflexivity.
  - change (missingTiles (set_graphicType (_graphicType c) c3)) with (missingTiles c3).
    rewrite Hm3. cbn. rewrite Hm2. cbn. rewrite Hm1. reflexivity.
  - change (planarClassifiers (set_graphicType (_graphicType c) c3))
      with (planarClassifiers c3).
    rewrite Hp3. cbn. unfold planarClassifiers in *. cbn in Hp2, Hp1 |- *.
    rewrite Hp2, Hp1. reflexivity.
Qed.

(** *** Classifiers by model *)

Lemma addPlanarClassifier_lookup (props : SpatialClassificationProps.Classifier)
    (tileTree classifiedTree : TileTreeReference) (c : SceneContext.t) :
  snd (addPlanarClassifier props tileTree classifiedTree c)
  = Returned (planarClassifiers (fst (addPlanarClassifier props tileTree classifiedTree c))
              !! SpatialClassificationProps.modelId props).
Proof.
  unfold addPlanarClassifier.
  destruct (planarClassifiers c !! SpatialClassificationProps.modelId props) as [held|] eqn:Hmap;
    [cbn; rewrite Hmap; reflexivity|].
  destruct (RenderTarget.getPlanarClassifier (target c) _) as [held|].
  - cbn. unfold planarClassifiers. cbn. rewrite lookup_insert_eq. reflexivity.
  - destruct (RenderTarget.createPlanarClassifier (target c) props) as [made|].
    + cbn. unfold planarClassifiers. cbn. rewrite lookup_insert_eq. reflexivity.
    + cbn. rewrite Hmap. reflexivity.
Qed.

(** X16: [getPlanarClassifierForModel] goes from the model to its
    classifier model through [modelClassifiers] and from there to the
    classifier through the scene's map, so it finds what
    [addPlanarClassifier] returned for the classifier properties of that
    classifier model once the model is mapped to it, in whichever order the
    two were done, undefined included; for a model that is not mapped it is
    undefined, as it is for every model on a new context. *)
Theorem planar_classifier_for_model (props : SpatialClassificationProps.Classifier)
    (tileTree classifiedTree : TileTreeReference) (modelId : Id64String)
    (c : FullSceneContext.t) :
  let id := SpatialClassificationProps.modelId props in
  let mapThenAdd :=
    (modelClassifiers_set modelId id ;;;
     lift (addPlanarClassifier props tileTree classifiedTree))%js in
  let addThenMap :=
    (let! classifier := lift (addPlanarClassifier props tileTree classifiedTree) in
     modelClassifiers_set modelId id ;;; js_ret classifier)%js in
  snd (mapThenAdd c) = Returned (getPlanarClassifierForModel modelId (fst (mapThenAdd c)))
  /\ snd (addThenMap c) = Returned (getPlanarClassifierForModel modelId (fst (addThenMap c)))
  /\ getPlanarClassifierForModel modelId c
     = (classifierId ← modelClassifiers c !! modelId;
        planarClassifiers (base c) !! classifierId)
  /\ (forall target treeOf targetDrape drapeMap createDrape,
        getPlanarClassifierForModel modelId
          (FullSceneContext.new target treeOf targetDrape drapeMap createDrape) = None).
Proof.
  cbn zeta. split; [|split; [|split]].
  - unfold js_bind, modelClassifiers_set, js_modify, lift.
    cbn [base set_modelClassifiers].
    pose proof (addPlanarClassifier_lookup props tileTree classifiedTree (base c)) as Hl.
    destruct (addPlanarClassifier props tileTree classifiedTree (base c)) as [b' r].
    cbn [fst snd] in Hl |- *. rewrite Hl.
    unfold getPlanarClassifierForModel.
    cbn [modelClassifiers set_modelClassifiers set_base base].
    rewrite lookup_insert_eq. reflexivity.
  - unfold js_bind, modelClassifiers_set, js_modify, lift.
    pose proof (addPlanarClassifier_lookup props tileTree classifiedTree (base c)) as Hl.
    destruct (addPlanarClassifier props tileTree classifiedTree (base c)) as [b' [r|e]];
      cbn [fst snd] in Hl |- *; [|discriminate].
    injection Hl as ->.
    unfold getPlanarClassifierForModel, js_ret.
    cbn [fst snd modelClassifiers set_modelClassifiers set_base base].
    rewrite lookup_insert_eq. reflexivity.
  - unfold getPlanarClassifierForModel.
    destruct (modelClassifiers c !! modelId); reflexivity.
  - intros. reflexivity.
Qed.

(** *** Texture drapes *)

(** X17: [addBackgroundDrapedModel] returns undefined and changes nothing
    while the draped tree is not loaded.  For a loaded tree it returns the
    drape the scene holds for the tree's model, changing nothing; else the
    drape of the render target for it, or else the one the render system
    creates, and records it in the scene: what it returns is what
    [getTextureDrapeForModel] finds afterwards.  Once it has returned a
    drape, the same call again returns that drape and changes nothing, so
    the render system is asked to create at most one drape; and no call
    touches the graphics, the missing tiles or the classifiers. *)
Theorem background_drape_memoized (drapedTreeRef : TileTreeReference)
    (c : FullSceneContext.t) :
  let r := addBackgroundDrapedModel drapedTreeRef c in
  base (fst r) = base c
  /\ modelClassifiers (fst r) = modelClassifiers c
  /\ (treeOwner_tileTree c drapedTreeRef = None -> r = (c, Returned None))
  /\ forall tree : TileTree.t,
       treeOwner_tileTree c drapedTreeRef = Some tree ->
       let id := TileTree.modelId tree in
       snd r = Returned (getTextureDrapeForModel id (fst r))
       /\ (forall held, getTextureDrapeForModel id c = Some held ->
             r = (c, Returned (Some held)))
       /\ createBackgroundMapDrapeCalls (fst r)
          = createBackgroundMapDrapeCalls c
            ++ (if bool_decide (getTextureDrapeForModel id c = None
                                /\ getTextureDrape c id = None)
                then [drapedTreeRef] else [])
       /\ (forall drape, snd r = Returned (Some drape) ->
             addBackgroundDrapedModel drapedTreeRef (fst r) = (fst r, Returned (Some drape))).
Proof.
  cbn zeta. unfold addBackgroundDrapedModel.
  destruct (treeOwner_tileTree c drapedTreeRef) as [tree|] eqn:Htree.
  2:{ split; [reflexivity|]. split; [reflexivity|]. split; [reflexivity|]. discriminate. }
  unfold getTextureDrapeForModel.
  destruct (textureDrapes c !! TileTree.modelId tree) as [held|] eqn:Hheld.
  { split; [reflexivity|]. split; [reflexivity|]. split; [discriminate|].
    intros tree' [= <-]. cbn [fst snd js_ret]. rewrite Hheld.
    split; [reflexivity|]. split; [intros ? [= <-]; reflexivity|].
    split.
    - rewrite bool_decide_eq_false_2 by (intros [? _]; congruence).
      rewrite app_nil_r. reflexivity.
    - intros drape [= <-]. rewrite Htree, Hheld. reflexivity. }
  unfold js_bind, js_modify, js_ret.
  destruct (getTextureDrape c (TileTree.modelId tree)) as [kept|] eqn:Hkept.
  { cbn [fst snd base modelClassifiers set_textureDrapes textureDrapes
         createBackgroundMapDrapeCalls treeOwner_tileTree].
    split; [reflexivity|]. split; [reflexivity|]. split; [discriminate|].
    intros tree' [= <-]. rewrite lookup_insert_eq.
    split; [reflexivity|]. split; [intros ? ?; congruence|]. split.
    - rewrite bool_decide_eq_false_2 by (intros [_ ?]; congruence).
      rewrite app_nil_r. reflexivity.
    - intros drape [= <-]. rewrite Htree, lookup_insert_eq. reflexivity. }
  destruct (createBackgroundMapDrape c drapedTreeRef (backgroundDrapeMap c)) as [made|]
    eqn:Hmade.
  - cbn [fst snd base modelClassifiers set_textureDrapes textureDrapes
         set_createBackgroundMapDrapeCalls createBackgroundMapDrapeCalls treeOwner_tileTree].
    split; [reflexivity|]. split; [reflexivity|]. split; [discriminate|].
    intros tree' [= <-]. rewrite lookup_insert_eq.
    split; [reflexivity|]. split; [intros ? ?; congruence|]. split.
    + rewrite bool_decide_eq_true_2 by (split; first [assumption|reflexivity]). reflexivity.
    + intros drape [= <-]. rewrite Htree, lookup_insert_eq. reflexivity.
  - cbn [fst snd base modelClassifiers textureDrapes
         set_createBackgroundMapDrapeCalls createBackgroundMapDrapeCalls].
    split; [reflexivity|]. split; [reflexivity|]. split; [discriminate|].
    intros tree' [= <-]. rewrite Hheld.
    split; [reflexivity|]. split; [intros ? ?; congruence|]. split.
    + rewrite bool_decide_eq_true_2 by (split; first [assumption|reflexivity]). reflexivity.
    + discriminate.
Qed.

Lemma background_drape_memoized_witness :
  let r := addBackgroundDrapedModel DrapeExample.loaded DrapeExample.context in
  addBackgroundDrapedModel DrapeExample.unloaded DrapeExample.context
  = (DrapeExample.context, Returned None)
  /\ snd r = Returned (Some {| drapeHandle := 1 |})
  /\ snd r = Returned (getTextureDrapeForModel "0x1c" (fst r))
  /\ addBackgroundDrapedModel DrapeExample.loaded (fst r)
     = (fst r, Returned (Some {| drapeHandle := 1 |})).
Proof.
  cbn zeta.
  destruct (background_drape_memoized DrapeExample.unloaded DrapeExample.context)
    as (_ & _ & Hunloaded & _).
  destruct (background_drape_memoized DrapeExample.loaded DrapeExample.context)
    as (_ & _ & _ & Hloaded).
  destruct (Hloaded (TileTree.mk "0x1c") eq_refl) as (Hfound & _ & _ & Hagain).
  split; [exact (Hunloaded eq_refl)|]. split; [reflexivity|].
  split; [exact Hfound|exact (Hagain _ eq_refl)].
Defined.
End SceneFacts.
